(** * py-perf-viewer: the TTL cache, the store's cached fetch and the
      reconnecting WebSocket service

    A shallow embedding of
    - [src/App.vue] (the block that is [utils/cache]: setCache, getCache,
      hasValidCache, clearCache, getCacheStats, cleanupExpiredCache),
    - [src/stores/system.js] (fetchDashboardData, fetchHostMetrics and their
      [...FromAPI] helpers),
    - [src/services/websocket.js] (class WebSocketService),
    - [src/App.vue] again (clearAllCaches), [src/components/CacheDebugger.vue]
      (expiredCount, refreshStats and the three buttons) and more of
      [src/stores/system.js] (refreshDashboard, refreshHostMetrics, the
      cache actions, the auto-refresh actions, handleHostMetricsUpdate,
      handleCacheInvalidation).

    JavaScript is modelled with explicit state passing.  A computation of
    type [js S A] runs on a state [S] and completes normally with a value or
    abruptly with a thrown exception; [try_catch] is the [try { } catch { }]
    statement.  [Date.now()] is an argument [now] of every operation that
    reads the clock (one reading per synchronous call).  Numbers are
    integers ([Z]); [NaN] is [None]. *)

From Stdlib Require Import ZArith Ascii String List Bool Lia.
From stdpp Require Import base option gmap strings list fin_maps pretty.

Local Open Scope string_scope.
Local Open Scope list_scope.
Local Open Scope Z_scope.

#[local] Set Warnings "-register-all".

(* ===================================================================== *)
(** ** JavaScript values and abrupt completion *)
(* ===================================================================== *)

(** The values that flow through the modelled code: what [JSON.parse] can
    return, and [undefined]. *)
Inductive jsval : Type :=
| JUndefined
| JNull
| JBool (b : bool)
| JNum (n : Z)
| JStr (s : string)
| JArr (items : list jsval)
| JObj (fields : list (string * jsval)).

Inductive exn : Type :=
| StorageError            (* localStorage threw (quota, access denied) *)
| SyntaxError             (* JSON.parse rejected the text *)
| TypeError               (* property of null/undefined, JSON.stringify *)
| CallbackError (tag : string). (* thrown by a subscriber callback *)

Inductive completion (A : Type) : Type :=
| Normal (a : A)
| Throw (e : exn).
Arguments Normal {A} a.
Arguments Throw {A} e.

Definition js (S A : Type) : Type := S -> completion A * S.

Definition ret {S A} (a : A) : js S A := fun s => (Normal a, s).

Definition throw {S A} (e : exn) : js S A := fun s => (Throw e, s).

Definition bind {S A B} (c : js S A) (k : A -> js S B) : js S B :=
  fun s => match c s with
           | (Normal a, s') => k a s'
           | (Throw e, s') => (Throw e, s')
           end.

(** [try { body } catch (e) { handler e }]: the state reached when the
    exception was thrown is the one the handler starts from. *)
Definition try_catch {S A} (body : js S A) (handler : exn -> js S A) : js S A :=
  fun s => match body s with
           | (Normal a, s') => (Normal a, s')
           | (Throw e, s') => handler e s'
           end.

Definition modify {S} (f : S -> S) : js S unit := fun s => (Normal tt, f s).

Definition gets {S A} (f : S -> A) : js S A := fun s => (Normal (f s), s).

Declare Scope js_scope.
Delimit Scope js_scope with js.
Notation "'let*' x ':=' c 'in' k" := (bind c (fun x => k))
  (at level 10, x name, c at level 100, k at level 200) : js_scope.
Notation "c ';;;' k" := (bind c (fun _ => k))
  (at level 100, k at level 200, right associativity) : js_scope.
Local Open Scope js_scope.

(** [array.forEach(callback)]: an exception thrown by the callback ends the
    iteration and propagates. *)
Fixpoint forEach {S A} (callback : A -> js S unit) (l : list A) : js S unit :=
  match l with
  | [] => ret tt
  | x :: rest => callback x ;;; forEach callback rest
  end.

Definition completes {A S} (r : completion A * S) : bool :=
  match r with (Normal _, _) => true | (Throw _, _) => false end.

(** *** Property access, truthiness, arithmetic *)

Fixpoint obj_lookup (fields : list (string * jsval)) (name : string) : jsval :=
  match fields with
  | [] => JUndefined
  | (k, v) :: rest => if String.eqb k name then v else obj_lookup rest name
  end.

(** [v.name] for the property names the code reads ([timestamp], [ttl],
    [data], [type], [total_hosts]): none of them is inherited from a
    prototype, so on a primitive or an array the result is [undefined];
    on [null] and [undefined] the access throws. *)
Definition get_prop {S} (v : jsval) (name : string) : js S jsval :=
  match v with
  | JUndefined | JNull => throw TypeError
  | JObj fields => ret (obj_lookup fields name)
  | _ => ret JUndefined
  end.

Definition truthy (v : jsval) : bool :=
  match v with
  | JUndefined | JNull => false
  | JBool b => b
  | JNum n => negb (n =? 0)
  | JStr s => negb (String.eqb s "")
  | JArr _ | JObj _ => true
  end.

(** [v !== null] *)
Definition not_null (v : jsval) : bool :=
  match v with JNull => false | _ => true end.

Definition js_sub (a b : option Z) : option Z :=
  match a, b with Some x, Some y => Some (x - y) | _, _ => None end.

(** [a > b] on numbers: false as soon as one side is [NaN]. *)
Definition js_gt (a b : option Z) : bool :=
  match a, b with Some x, Some y => y <? x | _, _ => false end.

(** [Math.round(a / 1000)]: rounds half up. *)
Definition round_div_1000 (a : option Z) : option Z :=
  match a with Some x => Some ((x + 500) / 1000) | None => None end.

(* ===================================================================== *)
(** ** The runtime the code runs on *)
(* ===================================================================== *)

Inductive storage_op : Type :=
| OpGetItem (key : string)
| OpSetItem (key value : string)
| OpRemoveItem (key : string)
| OpKeys.

(** What the browser provides and the repository does not define:
    [JSON.parse] ([None]: SyntaxError), [JSON.stringify] ([None]: it
    throws), the numeric coercion of strings, arrays and objects, and which
    calls on [localStorage] throw in a given storage state; the page's
    location and the [WebSocket] constructor. *)
Record Runtime : Type := {
  JSON_parse : string -> option jsval;
  JSON_stringify : jsval -> option string;
  ToNumber_other : jsval -> option Z;
  storage_throws : gmap string string -> storage_op -> bool;
  (* window.location.protocol and window.location.host *)
  location_protocol : string;
  location_host : string;
  (* the URLs on which [new WebSocket(url, protocols)] throws *)
  WebSocket_throws : string -> list string -> bool
}.

Definition ToNumber (rt : Runtime) (v : jsval) : option Z :=
  match v with
  | JUndefined => None
  | JNull => Some 0
  | JBool b => Some (if b then 1 else 0)
  | JNum n => Some n
  | _ => ToNumber_other rt v
  end.

Inductive console_line : Type :=
| ConsoleLog (msg : string)
| ConsoleWarn (msg : string)
| ConsoleError (msg : string).

(** A local [let] variable of type [L] that a loop body mutates: the body
    runs on the state paired with the variable. *)
Definition lift {S L A} (c : js S A) : js (S * L) A :=
  fun sl => match c (fst sl) with (r, s') => (r, (s', snd sl)) end.

Definition update_local {S L} (f : L -> L) : js (S * L) unit :=
  modify (fun sl => (fst sl, f (snd sl))).

Definition with_local {S L A} (init : L) (c : js (S * L) A) : js S (A * L) :=
  fun s => match c (s, init) with
           | (Normal a, (s', l)) => (Normal (a, l), s')
           | (Throw e, (s', _)) => (Throw e, s')
           end.

(* ===================================================================== *)
(** ** utils/cache (the second block of src/App.vue) *)
(* ===================================================================== *)

Module Cache.

(** [localStorage] is a flat map from keys to strings, shared with whatever
    else the page stores; the console is kept as the list of lines written. *)
Record World : Type := {
  storage : gmap string string;
  console : list console_line
}.

Definition set_storage (m : gmap string string) (w : World) : World :=
  {| storage := m; console := console w |}.

Definition DEFAULT_CACHE_TTL : Z := 5 * 60 * 1000.

Definition CACHE_KEYS_DASHBOARD : string := "pyperf_dashboard".
Definition CACHE_KEYS_HOST_METRICS : string := "pyperf_host_metrics".
Definition CACHE_KEYS_SYSTEM_DATA : string := "pyperf_system_data".

(** [Object.values(CACHE_KEYS)] *)
Definition CACHE_KEYS_values : list string :=
  [CACHE_KEYS_DASHBOARD; CACHE_KEYS_HOST_METRICS; CACHE_KEYS_SYSTEM_DATA].

Definition getDashboardCacheKey : string := CACHE_KEYS_DASHBOARD.

Definition getHostMetricsCacheKey (hostname : string) (hours : Z) : string :=
  CACHE_KEYS_HOST_METRICS +:+ "_" +:+ hostname +:+ "_" +:+ pretty hours +:+ "h".

(** [!cached] for the [string | null] that [getItem] returns. *)
Definition no_text (cached : option string) : bool :=
  match cached with
  | None => true
  | Some s => String.eqb s ""
  end.

Record StatsEntry : Type := {
  key : string;
  age : option Z;       (* seconds *)
  ttl : option Z;       (* seconds *)
  size : nat;
  expired : bool
}.

Record CacheStats : Type := {
  totalEntries : nat;
  pyperfEntries : nat;
  totalSize : nat;
  entries : list StatsEntry
}.

Section WithRuntime.
Variable rt : Runtime.

Definition console_log (msg : string) : js World unit :=
  modify (fun w => {| storage := storage w; console := console w ++ [ConsoleLog msg] |}).

Definition console_warn (msg : string) : js World unit :=
  modify (fun w => {| storage := storage w; console := console w ++ [ConsoleWarn msg] |}).

(** *** The four calls on [localStorage]; a call that throws changes nothing *)

Definition localStorage_getItem (k : string) : js World (option string) :=
  fun w => if storage_throws rt (storage w) (OpGetItem k)
           then (Throw StorageError, w)
           else (Normal (storage w !! k), w).

Definition localStorage_setItem (k v : string) : js World unit :=
  fun w => if storage_throws rt (storage w) (OpSetItem k v)
           then (Throw StorageError, w)
           else (Normal tt, set_storage (<[k := v]> (storage w)) w).

Definition localStorage_removeItem (k : string) : js World unit :=
  fun w => if storage_throws rt (storage w) (OpRemoveItem k)
           then (Throw StorageError, w)
           else (Normal tt, set_storage (delete k (storage w)) w).

(** [Object.keys(localStorage)]: a snapshot, in the map's own order. *)
Definition Object_keys_localStorage : js World (list string) :=
  fun w => if storage_throws rt (storage w) OpKeys
           then (Throw StorageError, w)
           else (Normal (map_to_list (storage w)).*1, w).

Definition JSON_parse_js {S} (text : string) : js S jsval :=
  match JSON_parse rt text with
  | Some v => ret v
  | None => throw SyntaxError
  end.

Definition JSON_stringify_js {S} (v : jsval) : js S string :=
  match JSON_stringify rt v with
  | Some s => ret s
  | None => throw TypeError
  end.

(** The object literal [{ data, timestamp: Date.now(), ttl }]. *)
Definition cacheItem_of (data : jsval) (now ttl : Z) : jsval :=
  JObj [("data", data); ("timestamp", JNum now); ("ttl", JNum ttl)].

Definition setCache (key : string) (data : jsval) (ttl : Z) (now : Z) : js World unit :=
  try_catch
    (let* text := JSON_stringify_js (cacheItem_of data now ttl) in
     localStorage_setItem key text)
    (fun error => console_warn "Failed to set cache:").

Definition getCache (key : string) (now : Z) : js World jsval :=
  try_catch
    (let* cached := localStorage_getItem key in
     if no_text cached then ret JNull else
     let* cacheItem := JSON_parse_js (default "" cached) in
     let* timestamp := get_prop cacheItem "timestamp" in
     let* ttl := get_prop cacheItem "ttl" in
     if js_gt (js_sub (Some now) (ToNumber rt timestamp)) (ToNumber rt ttl)
     then localStorage_removeItem key ;;; ret JNull
     else get_prop cacheItem "data")
    (fun error => console_warn "Failed to get cache:" ;;; ret JNull).

Definition hasValidCache (key : string) (now : Z) : js World bool :=
  let* v := getCache key now in ret (not_null v).

Definition clearCache (key : string) : js World unit :=
  try_catch
    (localStorage_removeItem key)
    (fun error => console_warn "Failed to clear cache:").

Definition clearAllCaches : js World unit :=
  forEach clearCache CACHE_KEYS_values ;;;
  try_catch
    (let* keys := Object_keys_localStorage in
     forEach (fun key =>
                if String.prefix "pyperf_" key
                then localStorage_removeItem key
                else ret tt) keys)
    (fun error => console_warn "Failed to clear all caches:").

Definition empty_stats : CacheStats :=
  {| totalEntries := 0; pyperfEntries := 0; totalSize := 0; entries := [] |}.

Definition getCacheStats_entry (now : Z) (key : string) : js (World * CacheStats) unit :=
  if String.prefix "pyperf_" key then
    update_local (fun st => {| totalEntries := totalEntries st;
                               pyperfEntries := S (pyperfEntries st);
                               totalSize := totalSize st;
                               entries := entries st |}) ;;;
    let* data := lift (localStorage_getItem key) in
    let* text := match data with Some d => ret d | None => throw TypeError end in
    update_local (fun st => {| totalEntries := totalEntries st;
                               pyperfEntries := pyperfEntries st;
                               totalSize := (totalSize st + String.length text)%nat;
                               entries := entries st |}) ;;;
    try_catch
      (let* cacheItem := JSON_parse_js text in
       let* timestamp := get_prop cacheItem "timestamp" in
       let age := js_sub (Some now) (ToNumber rt timestamp) in
       let* ttl := get_prop cacheItem "ttl" in
       let isExpired := js_gt age (ToNumber rt ttl) in
       update_local (fun st =>
         {| totalEntries := totalEntries st;
            pyperfEntries := pyperfEntries st;
            totalSize := totalSize st;
            entries := entries st ++
              [{| key := key;
                  age := round_div_1000 age;
                  ttl := round_div_1000 (ToNumber rt ttl);
                  size := String.length text;
                  expired := isExpired |}] |}))
      (fun e => ret tt)
  else ret tt.

Definition getCacheStats (now : Z) : js World CacheStats :=
  let* r := with_local empty_stats
              (try_catch
                 (let* keys := lift Object_keys_localStorage in
                  update_local (fun st => {| totalEntries := List.length keys;
                                             pyperfEntries := pyperfEntries st;
                                             totalSize := totalSize st;
                                             entries := entries st |}) ;;;
                  forEach (getCacheStats_entry now) keys)
                 (fun error => lift (console_warn "Failed to get cache stats:"))) in
  ret (snd r).

Definition cleanupExpiredCache_entry (now : Z) (key : string) : js (World * nat) unit :=
  if String.prefix "pyperf_" key then
    let* valid := lift (hasValidCache key now) in
    if negb valid then update_local S else ret tt
  else ret tt.

Definition cleanupExpiredCache (now : Z) : js World nat :=
  try_catch
    (let* keys := Object_keys_localStorage in
     let* r := with_local 0%nat (forEach (cleanupExpiredCache_entry now) keys) in
     let cleaned := snd r in
     console_log ("Cleaned up " +:+ pretty cleaned +:+ " expired cache entries") ;;;
     ret cleaned)
    (fun error => console_warn "Failed to cleanup cache:" ;;; ret 0%nat).

End WithRuntime.

End Cache.

(* ===================================================================== *)
(** ** A small runtime to run the model on examples *)
(* ===================================================================== *)

(** A JSON printer and parser for texts made of objects, arrays, strings
    (with the escapes of the quote and the backslash), integers, booleans
    and null, and a storage that never throws.  The theorems below hold for
    every [Runtime]; this one instantiates them. *)
Module RefRuntime.

Definition quote : ascii := ascii_of_nat 34.
Definition backslash : ascii := ascii_of_nat 92.

Fixpoint escape (s : string) : string :=
  match s with
  | EmptyString => EmptyString
  | String c rest =>
      if (Ascii.eqb c quote || Ascii.eqb c backslash)%bool
      then String backslash (String c (escape rest))
      else String c (escape rest)
  end.

Definition print_string (s : string) : string :=
  String quote (escape s) +:+ String quote EmptyString.

Definition join_comma (parts : list string) : string :=
  String.concat "," parts.

(** [undefined] is skipped as an object field and printed as [null] in an
    array, as [JSON.stringify] does. *)
Fixpoint print (v : jsval) : string :=
  match v with
  | JUndefined | JNull => "null"
  | JBool true => "true"
  | JBool false => "false"
  | JNum n => pretty n
  | JStr s => print_string s
  | JArr items => "[" +:+ join_comma (List.map print items) +:+ "]"
  | JObj fields =>
      "{" +:+ join_comma
        ((fix go (fs : list (string * jsval)) : list string :=
            match fs with
            | [] => []
            | (k, JUndefined) :: rest => go rest
            | (k, x) :: rest => (print_string k +:+ ":" +:+ print x) :: go rest
            end) fields) +:+ "}"
  end.

Definition stringify (v : jsval) : option string :=
  match v with
  | JUndefined => None
  | _ => Some (print v)
  end.

Definition is_ws (c : ascii) : bool :=
  let n := nat_of_ascii c in
  (Nat.eqb n 32 || Nat.eqb n 9 || Nat.eqb n 10 || Nat.eqb n 13)%bool.

Fixpoint skip_ws (s : string) : string :=
  match s with
  | String c rest => if is_ws c then skip_ws rest else s
  | EmptyString => s
  end.

Definition digit_of (c : ascii) : option Z :=
  let n := nat_of_ascii c in
  if (Nat.leb 48 n && Nat.leb n 57)%bool then Some (Z.of_nat (n - 48)) else None.

Fixpoint parse_digits (acc : Z) (s : string) : Z * string :=
  match s with
  | String c rest =>
      match digit_of c with
      | Some d => parse_digits (10 * acc + d) rest
      | None => (acc, s)
      end
  | EmptyString => (acc, s)
  end.

Definition parse_nat (s : string) : option (Z * string) :=
  match s with
  | String c rest =>
      match digit_of c with
      | Some d => Some (parse_digits d rest)
      | None => None
      end
  | EmptyString => None
  end.

(** The text after an opening quote, up to the closing one. *)
Fixpoint parse_string_body (s : string) : option (string * string) :=
  match s with
  | EmptyString => None
  | String c rest =>
      if Ascii.eqb c quote then Some (EmptyString, rest)
      else if Ascii.eqb c backslash then
        match rest with
        | String e rest' =>
            if (Ascii.eqb e quote || Ascii.eqb e backslash)%bool then
              match parse_string_body rest' with
              | Some (body, tail) => Some (String e body, tail)
              | None => None
              end
            else None
        | EmptyString => None
        end
      else
        match parse_string_body rest with
        | Some (body, tail) => Some (String c body, tail)
        | None => None
        end
  end.

Definition strip_prefix (p s : string) : option string :=
  if String.prefix p s
  then Some (String.substring (String.length p) (String.length s - String.length p) s)
  else None.

Fixpoint parse_value (fuel : nat) (s : string) : option (jsval * string) :=
  match fuel with
  | O => None
  | S fuel' =>
      let s := skip_ws s in
      match strip_prefix "null" s, strip_prefix "true" s, strip_prefix "false" s with
      | Some r, _, _ => Some (JNull, r)
      | _, Some r, _ => Some (JBool true, r)
      | _, _, Some r => Some (JBool false, r)
      | _, _, _ =>
        match s with
        | EmptyString => None
        | String c rest =>
            if Ascii.eqb c quote then
              match parse_string_body rest with
              | Some (body, tail) => Some (JStr body, tail)
              | None => None
              end
            else if Ascii.eqb c "-" then
              match parse_nat rest with
              | Some (n, tail) => Some (JNum (- n), tail)
              | None => None
              end
            else if Ascii.eqb c "[" then
              match skip_ws rest with
              | String "]" tail => Some (JArr [], tail)
              | _ =>
                (fix elems (f : nat) (t : string) (acc : list jsval) :=
                   match f with
                   | O => None
                   | S f' =>
                       match parse_value f' t with
                       | Some (v, t1) =>
                           match skip_ws t1 with
                           | String "," t2 => elems f' t2 (v :: acc)
                           | String "]" t2 => Some (JArr (List.rev (v :: acc)), t2)
                           | _ => None
                           end
                       | None => None
                       end
                   end) fuel' rest []
              end
            else if Ascii.eqb c "{" then
              match skip_ws rest with
              | String "}" tail => Some (JObj [], tail)
              | _ =>
                (fix members (f : nat) (t : string) (acc : list (string * jsval)) :=
                   match f with
                   | O => None
                   | S f' =>
                       match skip_ws t with
                       | String q t0 =>
                           if Ascii.eqb q quote then
                             match parse_string_body t0 with
                             | Some (k, t1) =>
                                 match skip_ws t1 with
                                 | String ":" t2 =>
                                     match parse_value f' t2 with
                                     | Some (v, t3) =>
                                         match skip_ws t3 with
                                         | String "," t4 => members f' t4 ((k, v) :: acc)
                                         | String "}" t4 => Some (JObj (List.rev ((k, v) :: acc)), t4)
                                         | _ => None
                                         end
                                     | None => None
                                     end
                                 | _ => None
                                 end
                             | None => None
                             end
                           else None
                       | EmptyString => None
                       end
                   end) fuel' rest []
              end
            else
              match parse_nat s with
              | Some (n, tail) => Some (JNum n, tail)
              | None => None
              end
        end
      end
  end.

Definition parse (text : string) : option jsval :=
  match parse_value (S (String.length text)) text with
  | Some (v, tail) =>
      match skip_ws tail with
      | EmptyString => Some v
      | _ => None
      end
  | None => None
  end.

(** A simplified coercion: a blank string is 0 and a decimal integer is
    itself, as in JavaScript; every other string, array or object is [NaN].
    The examples coerce numbers only. *)
Definition to_number_other (v : jsval) : option Z :=
  match v with
  | JStr s =>
      match skip_ws s with
      | EmptyString => Some 0
      | _ => match parse s with
             | Some (JNum n) => Some n
             | _ => None
             end
      end
  | _ => None
  end.

Definition runtime : Runtime :=
  {| JSON_parse := parse;
     JSON_stringify := stringify;
     ToNumber_other := to_number_other;
     storage_throws := fun _ _ => false;
     location_protocol := "https:";
     location_host := "perf.example.org";
     WebSocket_throws := fun _ _ => false |}.

(** The same, on a storage whose quota is exhausted: [setItem] throws. *)
Definition runtime_quota_exceeded : Runtime :=
  {| JSON_parse := parse;
     JSON_stringify := stringify;
     ToNumber_other := to_number_other;
     storage_throws := fun _ op => match op with OpSetItem _ _ => true | _ => false end;
     location_protocol := "https:";
     location_host := "perf.example.org";
     WebSocket_throws := fun _ _ => false |}.

(** The same, with storage access denied: every call throws. *)
Definition runtime_storage_denied : Runtime :=
  {| JSON_parse := parse;
     JSON_stringify := stringify;
     ToNumber_other := to_number_other;
     storage_throws := fun _ _ => true;
     location_protocol := "https:";
     location_host := "perf.example.org";
     WebSocket_throws := fun _ _ => false |}.

End RefRuntime.

(* ===================================================================== *)
(** ** stores/system.js: the cached fetch actions *)
(* ===================================================================== *)

Module Store.

(** A call on [systemApi]: the loader of the cached fetch. *)
Inductive api_call : Type :=
| GetDashboardData
| GetHostMetrics (hostname : string) (hours : Z).

(** The fields of the store's state that the fetch actions touch. *)
Record State : Type := {
  dashboardData : jsval;
  currentHost : option string;
  currentHostMetrics : jsval;
  isLoadingDashboard : bool;
  isLoadingHostDetail : bool;
  dashboardError : option string;
  hostDetailError : option string;
  lastUpdate : option Z;
  usingCachedData : bool
}.

(** The store, the storage under the cache, and the calls made on the API
    so far, in order. *)
Record World : Type := {
  this : State;
  cache : Cache.World;
  api_calls : list api_call
}.

(** How a call of an [async] action stands when it hands control back: it
    ran to its end without awaiting, or it is suspended at an [await] on the
    promise of an API call. *)
Inductive async_state : Type :=
| Completed
| AwaitingApi (call : api_call).

(** What the awaited API promise settles to. *)
Inductive api_result : Type :=
| Response (data : jsval)
| Rejected (message : option string).

Definition initial_state : State :=
  {| dashboardData := JObj [("total_hosts", JNum 0); ("total_records", JNum 0);
                            ("hosts_summary", JArr [])];
     currentHost := None;
     currentHostMetrics := JNull;
     isLoadingDashboard := false;
     isLoadingHostDetail := false;
     dashboardError := None;
     hostDetailError := None;
     lastUpdate := None;
     usingCachedData := false |}.

Definition set_this (f : State -> State) : js World unit :=
  modify (fun w => {| this := f (this w); cache := cache w; api_calls := api_calls w |}).

Definition on_cache {A} (c : js Cache.World A) : js World A :=
  fun w => match c (cache w) with
           | (r, c') => (r, {| this := this w; cache := c'; api_calls := api_calls w |})
           end.

(** Calling the API starts the request and returns its promise. *)
Definition call_api (call : api_call) : js World unit :=
  modify (fun w => {| this := this w; cache := cache w;
                      api_calls := api_calls w ++ [call] |}).

Definition console_error (msg : string) : js World unit :=
  on_cache (modify (fun c => {| Cache.storage := Cache.storage c;
                                Cache.console := Cache.console c ++ [ConsoleError msg] |})).

Definition set_dashboardData v s :=
  {| dashboardData := v; currentHost := currentHost s;
     currentHostMetrics := currentHostMetrics s;
     isLoadingDashboard := isLoadingDashboard s;
     isLoadingHostDetail := isLoadingHostDetail s;
     dashboardError := dashboardError s; hostDetailError := hostDetailError s;
     lastUpdate := lastUpdate s; usingCachedData := usingCachedData s |}.

Definition set_currentHost v s :=
  {| dashboardData := dashboardData s; currentHost := v;
     currentHostMetrics := currentHostMetrics s;
     isLoadingDashboard := isLoadingDashboard s;
     isLoadingHostDetail := isLoadingHostDetail s;
     dashboardError := dashboardError s; hostDetailError := hostDetailError s;
     lastUpdate := lastUpdate s; usingCachedData := usingCachedData s |}.

Definition set_currentHostMetrics v s :=
  {| dashboardData := dashboardData s; currentHost := currentHost s;
     currentHostMetrics := v;
     isLoadingDashboard := isLoadingDashboard s;
     isLoadingHostDetail := isLoadingHostDetail s;
     dashboardError := dashboardError s; hostDetailError := hostDetailError s;
     lastUpdate := lastUpdate s; usingCachedData := usingCachedData s |}.

Definition set_isLoadingDashboard v s :=
  {| dashboardData := dashboardData s; currentHost := currentHost s;
     currentHostMetrics := currentHostMetrics s;
     isLoadingDashboard := v;
     isLoadingHostDetail := isLoadingHostDetail s;
     dashboardError := dashboardError s; hostDetailError := hostDetailError s;
     lastUpdate := lastUpdate s; usingCachedData := usingCachedData s |}.

Definition set_isLoadingHostDetail v s :=
  {| dashboardData := dashboardData s; currentHost := currentHost s;
     currentHostMetrics := currentHostMetrics s;
     isLoadingDashboard := isLoadingDashboard s;
     isLoadingHostDetail := v;
     dashboardError := dashboardError s; hostDetailError := hostDetailError s;
     lastUpdate := lastUpdate s; usingCachedData := usingCachedData s |}.

Definition set_dashboardError v s :=
  {| dashboardData := dashboardData s; currentHost := currentHost s;
     currentHostMetrics := currentHostMetrics s;
     isLoadingDashboard := isLoadingDashboard s;
     isLoadingHostDetail := isLoadingHostDetail s;
     dashboardError := v; hostDetailError := hostDetailError s;
     lastUpdate := lastUpdate s; usingCachedData := usingCachedData s |}.

Definition set_hostDetailError v s :=
  {| dashboardData := dashboardData s; currentHost := currentHost s;
     currentHostMetrics := currentHostMetrics s;
     isLoadingDashboard := isLoadingDashboard s;
     isLoadingHostDetail := isLoadingHostDetail s;
     dashboardError := dashboardError s; hostDetailError := v;
     lastUpdate := lastUpdate s; usingCachedData := usingCachedData s |}.

Definition set_lastUpdate v s :=
  {| dashboardData := dashboardData s; currentHost := currentHost s;
     currentHostMetrics := currentHostMetrics s;
     isLoadingDashboard := isLoadingDashboard s;
     isLoadingHostDetail := isLoadingHostDetail s;
     dashboardError := dashboardError s; hostDetailError := hostDetailError s;
     lastUpdate := v; usingCachedData := usingCachedData s |}.

Definition set_usingCachedData v s :=
  {| dashboardData := dashboardData s; currentHost := currentHost s;
     currentHostMetrics := currentHostMetrics s;
     isLoadingDashboard := isLoadingDashboard s;
     isLoadingHostDetail := isLoadingHostDetail s;
     dashboardError := dashboardError s; hostDetailError := hostDetailError s;
     lastUpdate := lastUpdate s; usingCachedData := v |}.

(** [try { body } finally { cleanup }] *)
Definition try_finally {S A} (body : js S A) (cleanup : js S unit) : js S A :=
  fun s => match body s with
           | (r, s') => match cleanup s' with
                        | (Normal _, s'') => (r, s'')
                        | (Throw e, s'') => (Throw e, s'')
                        end
           end.

Section WithRuntime.
Variable rt : Runtime.

(** [fetchDashboardDataFromAPI(cacheKey)] up to its [await]: it clears the
    error and calls the API. *)
Definition fetchDashboardDataFromAPI (cacheKey : string) : js World async_state :=
  set_this (set_dashboardError None) ;;;
  call_api GetDashboardData ;;;
  ret (AwaitingApi GetDashboardData).

(** The rest of [fetchDashboardDataFromAPI], run when the API promise
    settles, at time [now]. *)
Definition fetchDashboardDataFromAPI_resume
    (cacheKey : string) (result : api_result) (now : Z) : js World unit :=
  try_finally
    (match result with
     | Response data =>
         set_this (set_dashboardData data) ;;;
         set_this (set_lastUpdate (Some now)) ;;;
         set_this (set_usingCachedData false) ;;;
         on_cache (Cache.setCache rt cacheKey data Cache.DEFAULT_CACHE_TTL now)
     | Rejected message =>
         set_this (set_dashboardError
                     (Some (match message with
                            | Some m => if String.eqb m "" then "Failed to fetch system data" else m
                            | None => "Failed to fetch system data"
                            end))) ;;;
         console_error "Error fetching dashboard data:" ;;;
         let* cachedData := on_cache (Cache.getCache rt cacheKey now) in
         if truthy cachedData then
           let* current := gets (fun w => dashboardData (this w)) in
           let* total_hosts := get_prop current "total_hosts" in
           if negb (truthy total_hosts) then
             set_this (set_dashboardData cachedData) ;;;
             set_this (set_usingCachedData true)
           else ret tt
         else ret tt
     end)
    (set_this (set_isLoadingDashboard false)).

Definition fetchDashboardData (forceRefresh : bool) (now : Z) : js World async_state :=
  let cacheKey := Cache.getDashboardCacheKey in
  let* cachedData :=
    (if negb forceRefresh then on_cache (Cache.getCache rt cacheKey now)
     else ret JUndefined) in
  if (negb forceRefresh && truthy cachedData)%bool then
    set_this (set_dashboardData cachedData) ;;;
    set_this (set_usingCachedData true) ;;;
    set_this (set_lastUpdate (Some now)) ;;;
    (* Fetch fresh data in background: called, not awaited *)
    fetchDashboardDataFromAPI cacheKey ;;;
    ret Completed
  else
    set_this (set_isLoadingDashboard true) ;;;
    set_this (set_usingCachedData false) ;;;
    fetchDashboardDataFromAPI cacheKey.

Definition fetchHostMetricsFromAPI (hostname : string) (hours : Z) (cacheKey : string)
  : js World async_state :=
  set_this (set_hostDetailError None) ;;;
  call_api (GetHostMetrics hostname hours) ;;;
  ret (AwaitingApi (GetHostMetrics hostname hours)).

Definition fetchHostMetricsFromAPI_resume
    (hostname : string) (hours : Z) (cacheKey : string) (result : api_result) (now : Z)
  : js World unit :=
  try_finally
    (match result with
     | Response data =>
         set_this (set_currentHostMetrics data) ;;;
         set_this (set_usingCachedData false) ;;;
         on_cache (Cache.setCache rt cacheKey data (3 * 60 * 1000) now)
     | Rejected message =>
         set_this (set_hostDetailError
                     (Some (match message with
                            | Some m => if String.eqb m "" then "Failed to fetch host metrics" else m
                            | None => "Failed to fetch host metrics"
                            end))) ;;;
         console_error "Error fetching host metrics:" ;;;
         let* cachedData := on_cache (Cache.getCache rt cacheKey now) in
         let* current := gets (fun w => currentHostMetrics (this w)) in
         if (truthy cachedData && negb (truthy current))%bool then
           set_this (set_currentHostMetrics cachedData) ;;;
           set_this (set_usingCachedData true)
         else ret tt
     end)
    (set_this (set_isLoadingHostDetail false)).

Definition fetchHostMetrics (hostname : string) (hours : Z) (forceRefresh : bool) (now : Z)
  : js World async_state :=
  let cacheKey := Cache.getHostMetricsCacheKey hostname hours in
  set_this (set_currentHost (Some hostname)) ;;;
  let* cachedData :=
    (if negb forceRefresh then on_cache (Cache.getCache rt cacheKey now)
     else ret JUndefined) in
  if (negb forceRefresh && truthy cachedData)%bool then
    set_this (set_currentHostMetrics cachedData) ;;;
    set_this (set_usingCachedData true) ;;;
    (* Fetch fresh data in background: called, not awaited *)
    fetchHostMetricsFromAPI hostname hours cacheKey ;;;
    ret Completed
  else
    set_this (set_isLoadingHostDetail true) ;;;
    set_this (set_usingCachedData false) ;;;
    fetchHostMetricsFromAPI hostname hours cacheKey.

End WithRuntime.

End Store.

(* ===================================================================== *)
(** ** services/websocket.js: class WebSocketService *)
(* ===================================================================== *)

Module WS.

Inductive ready_state : Type := CONNECTING | OPEN | CLOSING | CLOSED.

(** A browser [WebSocket] made by [connect]: what its handlers close over
    ([url], [protocols]), its own state, the texts given to [send], the
    code given to [close], and how the promise of that [connect] call is
    settled ([None]: pending, [Some true]: resolved, [Some false]:
    rejected). *)
Record Socket : Type := {
  url : string;
  protocols : list string;
  wsUrl : string;
  readyState : ready_state;
  sent : list string;
  close_code : option Z;
  settled : option bool
}.

(** What [connect] returns. *)
Inductive promise : Type :=
| Promise_resolved                 (* Promise.resolve() *)
| Promise_of_socket (id : nat)     (* settled by that socket's handlers *)
| Promise_rejected.                (* the executor caught an exception *)

Inductive timer_kind : Type :=
| ReconnectTimer (url : string) (protocols : list string)  (* setTimeout *)
| HeartbeatTimer.                                          (* setInterval *)

Record Timer : Type := {
  kind : timer_kind;
  delay : Z
}.

Section WithClient.
(** The state of the code that subscribes: a callback changes it, or
    throws.  Callbacks do not call back into the service. *)
Context {U : Type}.

(** A subscriber callback; [hid] is its identity as a function object. *)
Record Handler : Type := {
  hid : nat;
  hrun : jsval -> js U unit
}.

Record WebSocketService : Type := {
  socket : option nat;
  reconnectInterval : option nat;
  reconnectAttempts : nat;
  maxReconnectAttempts : nat;
  reconnectDelay : Z;
  maxReconnectDelay : Z;
  listeners : gmap string (list Handler);
  isConnected : bool;
  isConnecting : bool;
  heartbeatInterval : option nat
}.

(** The service, the browser around it and the client.  Timer ids start at
    1 (a timer id is truthy); [timers] holds the pending ones.  Three fields
    only record what happened: [timer_log] every timer ever set, [emitted]
    every call of [emit], [calls] every callback invocation. *)
Record World : Type := {
  this : WebSocketService;
  sockets : list Socket;
  timers : gmap nat Timer;
  timer_log : list Timer;
  user : U;
  console : list console_line;
  emitted : list (jsval * jsval);
  calls : list (nat * jsval)
}.

Definition constructor : WebSocketService :=
  {| socket := None;
     reconnectInterval := None;
     reconnectAttempts := 0;
     maxReconnectAttempts := 5;
     reconnectDelay := 1000;
     maxReconnectDelay := 30000;
     listeners := ∅;
     isConnected := false;
     isConnecting := false;
     heartbeatInterval := None |}.

Definition initial (u : U) : World :=
  {| this := constructor; sockets := []; timers := ∅; timer_log := [];
     user := u; console := []; emitted := []; calls := [] |}.

(** *** Field updates *)

Definition set_socket v (s : WebSocketService) :=
  {| socket := v; reconnectInterval := reconnectInterval s;
     reconnectAttempts := reconnectAttempts s;
     maxReconnectAttempts := maxReconnectAttempts s;
     reconnectDelay := reconnectDelay s; maxReconnectDelay := maxReconnectDelay s;
     listeners := listeners s; isConnected := isConnected s;
     isConnecting := isConnecting s; heartbeatInterval := heartbeatInterval s |}.

Definition set_reconnectInterval v (s : WebSocketService) :=
  {| socket := socket s; reconnectInterval := v;
     reconnectAttempts := reconnectAttempts s;
     maxReconnectAttempts := maxReconnectAttempts s;
     reconnectDelay := reconnectDelay s; maxReconnectDelay := maxReconnectDelay s;
     listeners := listeners s; isConnected := isConnected s;
     isConnecting := isConnecting s; heartbeatInterval := heartbeatInterval s |}.

Definition set_reconnectAttempts v (s : WebSocketService) :=
  {| socket := socket s; reconnectInterval := reconnectInterval s;
     reconnectAttempts := v;
     maxReconnectAttempts := maxReconnectAttempts s;
     reconnectDelay := reconnectDelay s; maxReconnectDelay := maxReconnectDelay s;
     listeners := listeners s; isConnected := isConnected s;
     isConnecting := isConnecting s; heartbeatInterval := heartbeatInterval s |}.

Definition set_reconnectDelay v (s : WebSocketService) :=
  {| socket := socket s; reconnectInterval := reconnectInterval s;
     reconnectAttempts := reconnectAttempts s;
     maxReconnectAttempts := maxReconnectAttempts s;
     reconnectDelay := v; maxReconnectDelay := maxReconnectDelay s;
     listeners := listeners s; isConnected := isConnected s;
     isConnecting := isConnecting s; heartbeatInterval := heartbeatInterval s |}.

Definition set_listeners v (s : WebSocketService) :=
  {| socket := socket s; reconnectInterval := reconnectInterval s;
     reconnectAttempts := reconnectAttempts s;
     maxReconnectAttempts := maxReconnectAttempts s;
     reconnectDelay := reconnectDelay s; maxReconnectDelay := maxReconnectDelay s;
     listeners := v; isConnected := isConnected s;
     isConnecting := isConnecting s; heartbeatInterval := heartbeatInterval s |}.

Definition set_isConnected v (s : WebSocketService) :=
  {| socket := socket s; reconnectInterval := reconnectInterval s;
     reconnectAttempts := reconnectAttempts s;
     maxReconnectAttempts := maxReconnectAttempts s;
     reconnectDelay := reconnectDelay s; maxReconnectDelay := maxReconnectDelay s;
     listeners := listeners s; isConnected := v;
     isConnecting := isConnecting s; heartbeatInterval := heartbeatInterval s |}.

Definition set_isConnecting v (s : WebSocketService) :=
  {| socket := socket s; reconnectInterval := reconnectInterval s;
     reconnectAttempts := reconnectAttempts s;
     maxReconnectAttempts := maxReconnectAttempts s;
     reconnectDelay := reconnectDelay s; maxReconnectDelay := maxReconnectDelay s;
     listeners := listeners s; isConnected := isConnected s;
     isConnecting := v; heartbeatInterval := heartbeatInterval s |}.

Definition set_heartbeatInterval v (s : WebSocketService) :=
  {| socket := socket s; reconnectInterval := reconnectInterval s;
     reconnectAttempts := reconnectAttempts s;
     maxReconnectAttempts := maxReconnectAttempts s;
     reconnectDelay := reconnectDelay s; maxReconnectDelay := maxReconnectDelay s;
     listeners := listeners s; isConnected := isConnected s;
     isConnecting := isConnecting s; heartbeatInterval := v |}.

Definition with_this (f : WebSocketService -> WebSocketService) (w : World) : World :=
  {| this := f (this w); sockets := sockets w; timers := timers w;
     timer_log := timer_log w; user := user w; console := console w;
     emitted := emitted w; calls := calls w |}.

Definition with_sockets (f : list Socket -> list Socket) (w : World) : World :=
  {| this := this w; sockets := f (sockets w); timers := timers w;
     timer_log := timer_log w; user := user w; console := console w;
     emitted := emitted w; calls := calls w |}.

Definition with_console (line : console_line) (w : World) : World :=
  {| this := this w; sockets := sockets w; timers := timers w;
     timer_log := timer_log w; user := user w; console := console w ++ [line];
     emitted := emitted w; calls := calls w |}.

Definition update (f : WebSocketService -> WebSocketService) : js World unit :=
  modify (with_this f).

Definition console_log (msg : string) : js World unit :=
  modify (with_console (ConsoleLog msg)).
Definition console_warn (msg : string) : js World unit :=
  modify (with_console (ConsoleWarn msg)).
Definition console_error (msg : string) : js World unit :=
  modify (with_console (ConsoleError msg)).

(** *** The browser's timers *)

(** [setTimeout] and [setInterval]: the new timer's id. *)
Definition set_timer (t : Timer) : js World nat :=
  fun w => let id := S (length (timer_log w)) in
           (Normal id,
            {| this := this w; sockets := sockets w;
               timers := <[id := t]> (timers w);
               timer_log := timer_log w ++ [t]; user := user w;
               console := console w; emitted := emitted w; calls := calls w |}).

(** [clearTimeout] and [clearInterval] *)
Definition clear_timer (id : nat) : js World unit :=
  modify (fun w => {| this := this w; sockets := sockets w;
                      timers := delete id (timers w);
                      timer_log := timer_log w; user := user w;
                      console := console w; emitted := emitted w; calls := calls w |}).

(** *** The browser's sockets *)

Definition with_readyState (r : ready_state) (s : Socket) : Socket :=
  {| url := url s; protocols := protocols s; wsUrl := wsUrl s; readyState := r;
     sent := sent s; close_code := close_code s; settled := settled s |}.

(** [socket.send(message)] *)
Definition socket_send (message : string) (s : Socket) : Socket :=
  {| url := url s; protocols := protocols s; wsUrl := wsUrl s;
     readyState := readyState s; sent := sent s ++ [message];
     close_code := close_code s; settled := settled s |}.

(** [socket.close(code, reason)]: starts the closing handshake unless the
    socket is closing or closed already. *)
Definition socket_close (code : Z) (s : Socket) : Socket :=
  match readyState s with
  | CLOSING | CLOSED => s
  | CONNECTING | OPEN =>
      {| url := url s; protocols := protocols s; wsUrl := wsUrl s;
         readyState := CLOSING; sent := sent s;
         close_code := Some code; settled := settled s |}
  end.

(** [resolve()] and [reject(error)] of the promise made for a socket: the
    first call settles it, later calls do nothing. *)
Definition settle (ok : bool) (s : Socket) : Socket :=
  match settled s with
  | Some _ => s
  | None =>
      {| url := url s; protocols := protocols s; wsUrl := wsUrl s;
         readyState := readyState s; sent := sent s;
         close_code := close_code s; settled := Some ok |}
  end.

Definition on_socket (id : nat) (f : Socket -> Socket) : js World unit :=
  modify (with_sockets (alter f id)).

Definition is_live (s : Socket) : bool :=
  match readyState s with
  | CONNECTING | OPEN => true
  | CLOSING | CLOSED => false
  end.

(** The transports of this instance that are connecting or open. *)
Definition live_transports (w : World) : nat :=
  length (filter (fun s => is_live s = true) (sockets w)).

Variable rt : Runtime.

(** *** Event listener management *)

Definition on (event : string) (callback : Handler) : js World unit :=
  update (fun s =>
    let registered := default [] (listeners s !! event) in
    set_listeners (<[event := registered ++ [callback]]> (listeners s)) s).

(** [callbacks.indexOf(callback)] then [callbacks.splice(index, 1)] *)
Fixpoint remove_first (id : nat) (callbacks : list Handler) : list Handler :=
  match callbacks with
  | [] => []
  | h :: rest => if Nat.eqb (hid h) id then rest else h :: remove_first id rest
  end.

Definition off (event : string) (callback : Handler) : js World unit :=
  update (fun s =>
    match listeners s !! event with
    | Some callbacks =>
        set_listeners (<[event := remove_first (hid callback) callbacks]> (listeners s)) s
    | None => s
    end).

(** [callback(data)]: the client's code runs on the client's state. *)
Definition invoke (callback : Handler) (data : jsval) : js World unit :=
  fun w =>
    match hrun callback data (user w) with
    | (r, u') =>
        (r, {| this := this w; sockets := sockets w; timers := timers w;
               timer_log := timer_log w; user := u'; console := console w;
               emitted := emitted w;
               calls := calls w ++ [(hid callback, data)] |})
    end.

(** [emit(event, data)].  The listeners are registered under strings
    ([on] is only called with string names), so a key that is not a string
    finds none. *)
Definition emit (event : jsval) (data : jsval) : js World unit :=
  modify (fun w => {| this := this w; sockets := sockets w; timers := timers w;
                      timer_log := timer_log w; user := user w; console := console w;
                      emitted := emitted w ++ [(event, data)]; calls := calls w |}) ;;;
  let* registered := gets (fun w => match event with
                                    | JStr name => listeners (this w) !! name
                                    | _ => None
                                    end) in
  match registered with
  | Some callbacks =>
      forEach (fun callback =>
                 try_catch
                   (invoke callback data)
                   (fun error => console_error "Error in WebSocket event handler for "))
              callbacks
  | None => ret tt
  end.

(** *** Sending *)

Definition send (data : jsval) : js World unit :=
  let* current := gets (fun w => match socket (this w) with
                                 | Some id => match sockets w !! id with
                                              | Some s => Some (id, s)
                                              | None => None
                                              end
                                 | None => None
                                 end) in
  match current with
  | Some (id, s) =>
      match readyState s with
      | OPEN =>
          let* message := match data with
                          | JStr text => ret text
                          | _ => Cache.JSON_stringify_js rt data
                          end in
          on_socket id (socket_send message) ;;;
          console_log "WebSocket message sent:"
      | _ => console_warn "WebSocket not connected, cannot send message:"
      end
  | None => console_warn "WebSocket not connected, cannot send message:"
  end.

Definition isSocketConnected (w : World) : bool :=
  (isConnected (this w) &&
   match socket (this w) with
   | Some id => match sockets w !! id with
                | Some s => match readyState s with OPEN => true | _ => false end
                | None => false
                end
   | None => false
   end)%bool.

Definition getConnectionState (w : World) : string :=
  match socket (this w) with
  | None => "disconnected"
  | Some id =>
      match readyState <$> sockets w !! id with
      | Some CONNECTING => "connecting"
      | Some OPEN => "connected"
      | Some CLOSING => "closing"
      | Some CLOSED => "disconnected"
      | None => "unknown"
      end
  end.

(** *** Connecting *)

Definition getWebSocketUrl (path : string) : string :=
  let protocol := if String.eqb (location_protocol rt) "https:" then "wss:" else "ws:" in
  let host := location_host rt in
  let fullPath := if String.prefix "/" path then path else "/" +:+ path in
  protocol +:+ "//" +:+ host +:+ fullPath.

(** [new WebSocket(wsUrl, protocols)] *)
Definition new_WebSocket (path : string) (ps : list string) (full : string) : js World nat :=
  fun w =>
    if WebSocket_throws rt full ps then (Throw SyntaxError, w)
    else (Normal (length (sockets w)),
          with_sockets (fun l => l ++ [{| url := path; protocols := ps; wsUrl := full;
                                          readyState := CONNECTING; sent := [];
                                          close_code := None; settled := None |}]) w).

Definition connect (path : string) (ps : list string) : js World promise :=
  let* busy := gets (fun w => (isConnecting (this w) || isConnected (this w))%bool) in
  if busy then
    console_log "WebSocket already connecting or connected" ;;;
    ret Promise_resolved
  else
    update (set_isConnecting true) ;;;
    console_log "Connecting to WebSocket: " ;;;
    try_catch
      (let* id := new_WebSocket path ps (getWebSocketUrl path) in
       update (set_socket (Some id)) ;;;
       ret (Promise_of_socket id))
      (fun error =>
         update (set_isConnecting false) ;;;
         ret Promise_rejected).

Definition scheduleReconnect (path : string) (ps : list string) : js World unit :=
  let* pending := gets (fun w => reconnectInterval (this w)) in
  match pending with
  | Some id => clear_timer id
  | None => ret tt
  end ;;;
  console_log "Attempting to reconnect in " ;;;
  let* d := gets (fun w => reconnectDelay (this w)) in
  let* id := set_timer {| kind := ReconnectTimer path ps; delay := d |} in
  update (set_reconnectInterval (Some id)).

(** The callback given to [setTimeout] by [scheduleReconnect]; a rejection
    of the promise it gets from [connect] is logged by its [.catch]. *)
Definition reconnect_callback (path : string) (ps : list string) : js World unit :=
  update (fun s => set_reconnectAttempts (S (reconnectAttempts s)) s) ;;;
  update (fun s => set_reconnectDelay
                     (Z.min (reconnectDelay s * 2) (maxReconnectDelay s)) s) ;;;
  let* p := connect path ps in
  match p with
  | Promise_rejected => console_error "Reconnection failed:"
  | _ => ret tt
  end.

(** *** The handlers [connect] installs on the socket [id] *)

Definition open_event : jsval := JObj [("type", JStr "open")].
Definition error_event : jsval := JObj [("type", JStr "error")].
Definition close_event (code : Z) (reason : string) : jsval :=
  JObj [("type", JStr "close"); ("code", JNum code); ("reason", JStr reason)].

Definition onopen (id : nat) : js World unit :=
  console_log "WebSocket connected successfully to:" ;;;
  update (set_isConnected true) ;;;
  update (set_isConnecting false) ;;;
  update (set_reconnectAttempts 0%nat) ;;;
  update (set_reconnectDelay 1000) ;;;
  let* pending := gets (fun w => reconnectInterval (this w)) in
  match pending with
  | Some t => clear_timer t ;;; update (set_reconnectInterval None)
  | None => ret tt
  end ;;;
  send (JObj [("type", JStr "subscribe_all")]) ;;;
  emit (JStr "connected") open_event ;;;
  on_socket id (settle true).

Definition onmessage (text : string) : js World unit :=
  try_catch
    (let* data := Cache.JSON_parse_js rt text in
     console_log "WebSocket message received:" ;;;
     emit (JStr "message") data ;;;
     let* type := get_prop data "type" in
     if truthy type then emit type data else ret tt)
    (fun error => console_error "Error parsing WebSocket message:").

Definition onclose (path : string) (ps : list string) (code : Z) (reason : string)
  : js World unit :=
  console_log "WebSocket connection closed:" ;;;
  update (set_isConnected false) ;;;
  update (set_isConnecting false) ;;;
  update (set_socket None) ;;;
  emit (JStr "disconnected") (close_event code reason) ;;;
  let* retry := gets (fun w => (negb (code =? 1000) &&
                                Nat.ltb (reconnectAttempts (this w))
                                        (maxReconnectAttempts (this w)))%bool) in
  if retry then scheduleReconnect path ps else ret tt.

Definition onerror (id : nat) : js World unit :=
  console_error "WebSocket error:" ;;;
  update (set_isConnecting false) ;;;
  emit (JStr "error") error_event ;;;
  on_socket id (settle false).

(** *** Disconnecting and the heartbeat *)

Definition disconnect : js World unit :=
  let* pending := gets (fun w => reconnectInterval (this w)) in
  match pending with
  | Some t => clear_timer t ;;; update (set_reconnectInterval None)
  | None => ret tt
  end ;;;
  let* current := gets (fun w => socket (this w)) in
  match current with
  | Some id =>
      console_log "Disconnecting WebSocket" ;;;
      on_socket id (socket_close 1000) ;;;
      update (set_socket None)
  | None => ret tt
  end ;;;
  update (set_isConnected false) ;;;
  update (set_isConnecting false) ;;;
  update (set_reconnectAttempts 0%nat).

Definition stopHeartbeat : js World unit :=
  let* running := gets (fun w => heartbeatInterval (this w)) in
  match running with
  | Some t => clear_timer t ;;; update (set_heartbeatInterval None)
  | None => ret tt
  end.

Definition startHeartbeat (interval : Z) : js World unit :=
  stopHeartbeat ;;;
  let* id := set_timer {| kind := HeartbeatTimer; delay := interval |} in
  update (set_heartbeatInterval (Some id)).

(** The callback given to [setInterval] by [startHeartbeat]. *)
Definition heartbeat_callback (now : Z) : js World unit :=
  let* connected := gets isSocketConnected in
  if connected then send (JObj [("type", JStr "ping"); ("timestamp", JNum now)])
  else ret tt.

(** *** What happens to a service: the browser's events and the calls of
    the code that owns it *)

Inductive event : Type :=
| SocketOpen (id : nat)
| SocketMessage (id : nat) (text : string)
| SocketClose (id : nat) (code : Z) (reason : string)
  (* the connection failed: [error], then [close], in one task *)
| SocketFail (id : nat) (code : Z) (reason : string)
| TimerFire (id : nat) (now : Z).

Inductive call : Type :=
| Connect (path : string) (ps : list string)
| Disconnect
| Send (data : jsval)
| On (event : string) (callback : Handler)
| Off (event : string) (callback : Handler)
| StartHeartbeat (interval : Z)
| StopHeartbeat.

(** The browser fires an event on a socket it knows, in a state where the
    event can occur, after it has updated [readyState]; a timer fires while
    it is pending, and a timeout fires once. *)
Definition deliver (e : event) : js World unit :=
  match e with
  | SocketOpen id =>
      let* s := gets (fun w => sockets w !! id) in
      match readyState <$> s with
      | Some CONNECTING => on_socket id (with_readyState OPEN) ;;; onopen id
      | _ => ret tt
      end
  | SocketMessage id text =>
      let* s := gets (fun w => sockets w !! id) in
      match readyState <$> s with
      | Some OPEN | Some CLOSING => onmessage text
      | _ => ret tt
      end
  | SocketClose id code reason =>
      let* s := gets (fun w => sockets w !! id) in
      match s with
      | Some s =>
          match readyState s with
          | CLOSED => ret tt
          | _ => on_socket id (with_readyState CLOSED) ;;;
                 onclose (url s) (protocols s) code reason
          end
      | None => ret tt
      end
  | SocketFail id code reason =>
      let* s := gets (fun w => sockets w !! id) in
      match s with
      | Some s =>
          match readyState s with
          | CLOSED => ret tt
          | _ => on_socket id (with_readyState CLOSED) ;;;
                 try_catch (onerror id) (fun _ => ret tt) ;;;
                 onclose (url s) (protocols s) code reason
          end
      | None => ret tt
      end
  | TimerFire id now =>
      let* t := gets (fun w => timers w !! id) in
      match kind <$> t with
      | Some (ReconnectTimer path ps) => clear_timer id ;;; reconnect_callback path ps
      | Some HeartbeatTimer => heartbeat_callback now
      | None => ret tt
      end
  end.

Definition perform (c : call) : js World unit :=
  match c with
  | Connect path ps => connect path ps ;;; ret tt
  | Disconnect => disconnect
  | Send data => send data
  | On name callback => on name callback
  | Off name callback => off name callback
  | StartHeartbeat interval => startHeartbeat interval
  | StopHeartbeat => stopHeartbeat
  end.

(** The states a service can be in: made by the constructor, then changed
    by calls and events only. *)
Inductive reachable : World -> Prop :=
| reachable_initial u : reachable (initial u)
| reachable_call c w : reachable w -> reachable (perform c w).2
| reachable_event e w : reachable w -> reachable (deliver e w).2.

End WithClient.

Arguments Handler : clear implicits.
Arguments WebSocketService : clear implicits.
Arguments World : clear implicits.

End WS.

(* ===================================================================== *)
(** ** components/CacheDebugger.vue: the script of the cache debugger *)
(* ===================================================================== *)

Module CacheDebugger.

(** [cacheStats.value.entries?.filter(entry => entry.expired).length || 0] *)
Definition expiredCount (cacheStats : Cache.CacheStats) : nat :=
  length (List.filter Cache.expired (Cache.entries cacheStats)).

Section WithRuntime.
Variable rt : Runtime.

(** The component's state is the [cacheStats] ref; [refreshStats] replaces
    it. *)
Definition refreshStats (now : Z) : js (Cache.World * Cache.CacheStats) unit :=
  let* stats := lift (Cache.getCacheStats rt now) in
  update_local (fun _ => stats).

Definition clearAllCache (now : Z) : js (Cache.World * Cache.CacheStats) unit :=
  lift (Cache.clearAllCaches rt) ;;; refreshStats now.

Definition cleanupExpired (now : Z) : js (Cache.World * Cache.CacheStats) unit :=
  lift (Cache.cleanupExpiredCache rt now) ;;; refreshStats now.

Definition clearSpecificCache (key : string) (now : Z)
  : js (Cache.World * Cache.CacheStats) unit :=
  lift (Cache.clearCache rt key) ;;; refreshStats now.

End WithRuntime.
End CacheDebugger.

(* ===================================================================== *)
(** ** stores/system.js: the other actions and the WebSocket event handlers *)
(* ===================================================================== *)

(** The property names read here ([hostname], [metrics], [timestamp],
    [cache_keys], [timeline_data] and the names of the metrics) are not
    inherited from a prototype either, so [get_prop] applies. *)
Module StoreActions.
Import Store.

Definition console_log (msg : string) : js World unit :=
  on_cache (Cache.console_log msg).

(** [a * b] on numbers: [NaN] as soon as one side is. *)
Definition js_mul (a b : option Z) : option Z :=
  match a, b with Some x, Some y => Some (x * y) | _, _ => None end.

(** [{...v}]: the own enumerable properties of [v], in order: the fields of
    an object, the elements of an array and the characters of a string
    under their indices, nothing for any other value. *)
Definition spread (v : jsval) : list (string * jsval) :=
  match v with
  | JObj fields => fields
  | JArr items => imap (fun i x => (pretty i, x)) items
  | JStr s => imap (fun i c => (pretty i, JStr (String c EmptyString))) (list_ascii_of_string s)
  | _ => []
  end.

(** [name: v] in an object literal, and [o.name = v]: an existing property
    keeps its place. *)
Fixpoint obj_set (fields : list (string * jsval)) (name : string) (v : jsval)
  : list (string * jsval) :=
  match fields with
  | [] => [(name, v)]
  | (k, x) :: rest =>
      if String.eqb k name then (k, v) :: rest else (k, x) :: obj_set rest name v
  end.

(** [v === this.currentHost], where [currentHost] is [null] or a string. *)
Definition is_currentHost (v : jsval) (currentHost : option string) : bool :=
  match v, currentHost with
  | JStr s, Some h => String.eqb s h
  | JNull, None => true
  | _, _ => false
  end.

Definition clearHostData : js World unit :=
  set_this (set_currentHost None) ;;;
  set_this (set_currentHostMetrics JNull) ;;;
  set_this (set_hostDetailError None).

(** *** Auto-refresh: the state *)

(** What an interval set by the store runs. *)
Inductive refresh : Type :=
| DashboardRefresh
| HostRefresh (hostname : string) (hours : Z).

(** The store with its [refreshInterval], and the intervals of the browser
    that run a callback of the store, each with its period.  The ids that
    [setInterval] returns count from 1. *)
Record Page : Type := {
  store : World;
  refreshInterval : option nat;
  intervals : gmap nat (refresh * Z);
  intervals_set : nat
}.

Definition initial_page (c : Cache.World) : Page :=
  {| store := {| this := initial_state; cache := c; api_calls := [] |};
     refreshInterval := None;
     intervals := ∅;
     intervals_set := 0 |}.

Definition on_store {A} (c : js World A) : js Page A :=
  fun p => match c (store p) with
           | (r, w') => (r, {| store := w'; refreshInterval := refreshInterval p;
                               intervals := intervals p;
                               intervals_set := intervals_set p |})
           end.

Definition setInterval (callback : refresh) (period : Z) : js Page nat :=
  fun p => let id := S (intervals_set p) in
           (Normal id, {| store := store p; refreshInterval := refreshInterval p;
                          intervals := <[id := (callback, period)]> (intervals p);
                          intervals_set := id |}).

Definition clearInterval (id : nat) : js Page unit :=
  modify (fun p => {| store := store p; refreshInterval := refreshInterval p;
                      intervals := delete id (intervals p);
                      intervals_set := intervals_set p |}).

Definition set_refreshInterval (v : option nat) : js Page unit :=
  modify (fun p => {| store := store p; refreshInterval := v;
                      intervals := intervals p;
                      intervals_set := intervals_set p |}).

(** A call of an [async] action whose promise is dropped: the caller goes
    on, whatever the promise settles to. *)
Definition detached {S A} (c : js S A) : js S unit :=
  fun s => (Normal tt, (c s).2).

Definition stopAutoRefresh : js Page unit :=
  let* held := gets refreshInterval in
  match held with
  | Some (S _ as id) => clearInterval id ;;; set_refreshInterval None
  | _ => ret tt                                   (* null, or the number 0 *)
  end.

(** The intervals that are set and the one the store holds are the same,
    and their ids were handed out by [setInterval]. *)
Definition holds_its_interval (p : Page) : Prop :=
  (forall id, is_Some (intervals p !! id) <-> refreshInterval p = Some id) /\
  (forall id, is_Some (intervals p !! id) -> (1 <= id <= intervals_set p)%nat).

Section WithRuntime.
Variable rt : Runtime.

(** What the browser does and the repository does not define: the string a
    value that is not a string is turned into when it is used as a storage
    key, and the [Date] object (not a JSON value) made by [new Date(ms)]. *)
Variable ToString_other : jsval -> string.
Variable new_Date : option Z -> jsval.

Definition ToString (v : jsval) : string :=
  match v with
  | JStr s => s
  | _ => ToString_other v
  end.

(** [await this.fetchDashboardData(true)] and
    [await this.fetchHostMetrics(hostname, hours, true)] *)
Definition refreshDashboard (now : Z) : js World async_state :=
  fetchDashboardData rt true now.

Definition refreshHostMetrics (hostname : string) (hours : Z) (now : Z)
  : js World async_state :=
  fetchHostMetrics rt hostname hours true now.

Definition clearDashboardCache : js World unit :=
  on_cache (Cache.clearCache rt Cache.getDashboardCacheKey).

Definition clearHostCache (hostname : string) (hours : Z) : js World unit :=
  on_cache (Cache.clearCache rt (Cache.getHostMetricsCacheKey hostname hours)).

Definition hasCachedDashboard (now : Z) : js World bool :=
  on_cache (Cache.hasValidCache rt Cache.getDashboardCacheKey now).

Definition hasCachedHostMetrics (hostname : string) (hours : Z) (now : Z) : js World bool :=
  on_cache (Cache.hasValidCache rt (Cache.getHostMetricsCacheKey hostname hours) now).

(** *** The handlers of the WebSocket events *)

(** [data.metrics.name] *)
Definition metric (data : jsval) (name : string) : js World jsval :=
  let* metrics := get_prop data "metrics" in
  get_prop metrics name.

Definition handleHostMetricsUpdate (data : jsval) (now : Z) : js World unit :=
  console_log "Received host metrics update:" ;;;
  let* current := gets (fun w => currentHostMetrics (this w)) in
  let* concerned :=
    (if truthy current then
       let* hostname := get_prop data "hostname" in
       let* host := gets (fun w => currentHost (this w)) in
       ret (is_currentHost hostname host)
     else ret false) in
  (if concerned then
     let* current_cpu := metric data "cpu_percent" in
     let* current_memory := metric data "memory_percent" in
     let* timestamp := get_prop data "timestamp" in
     let last_seen := new_Date (js_mul (ToNumber rt timestamp) (Some 1000)) in
     let updated :=
       obj_set (obj_set (obj_set (obj_set (spread current)
         "current_cpu" current_cpu)
         "current_memory" current_memory)
         "last_seen" last_seen)
         "is_online" (JBool true) in
     set_this (set_currentHostMetrics (JObj updated)) ;;;
     let timeline_data := obj_lookup updated "timeline_data" in
     if truthy timeline_data then
       let* timestamp := get_prop data "timestamp" in
       let* cpu_percent := metric data "cpu_percent" in
       let* memory_percent := metric data "memory_percent" in
       let* memory_available_mb := metric data "memory_available_mb" in
       let* memory_used_mb := metric data "memory_used_mb" in
       let point := JObj [("timestamp", timestamp);
                          ("cpu_percent", cpu_percent);
                          ("memory_percent", memory_percent);
                          ("memory_available_mb", memory_available_mb);
                          ("memory_used_mb", memory_used_mb)] in
       match timeline_data with
       | JArr points =>
           (* push mutates the array the new object shares *)
           let pushed := points ++ [point] in
           set_this (set_currentHostMetrics
                       (JObj (obj_set updated "timeline_data" (JArr pushed)))) ;;;
           if (200 <? length pushed)%nat then
             (* slice(-200) *)
             set_this (set_currentHostMetrics
                         (JObj (obj_set updated "timeline_data"
                                  (JArr (drop (length pushed - 200) pushed)))))
           else ret tt
       | _ => throw TypeError        (* push is not a function *)
       end
     else ret tt
   else ret tt) ;;;
  set_this (set_lastUpdate (Some now)).

Definition handleCacheInvalidation (data : jsval) : js World unit :=
  console_log "Cache invalidation received:" ;;;
  let* cache_keys := get_prop data "cache_keys" in
  match cache_keys with
  | JUndefined | JNull => ret tt                       (* ?. *)
  | JArr keys =>
      forEach (fun cacheKey => on_cache (Cache.clearCache rt (ToString cacheKey))) keys
  | _ => throw TypeError           (* forEach is not a function *)
  end.

(** *** Auto-refresh: the actions *)

(** The callbacks of the two intervals, run at [now]. *)
Definition refresh_callback (r : refresh) (now : Z) : js Page unit :=
  match r with
  | DashboardRefresh => on_store (detached (fetchDashboardData rt false now))
  | HostRefresh hostname hours =>
      let* host := gets (fun p => currentHost (this (store p))) in
      if is_currentHost (JStr hostname) host then
        on_store (detached (fetchHostMetrics rt hostname hours false now))
      else ret tt
  end.

(** [interval] is 60000 when the caller leaves it out. *)
Definition startDashboardAutoRefresh (interval : Z) : js Page unit :=
  stopAutoRefresh ;;;
  let* id := setInterval DashboardRefresh interval in
  set_refreshInterval (Some id).

(** [hours] is 24 and [interval] 60000 when the caller leaves them out. *)
Definition startHostAutoRefresh (hostname : string) (hours interval : Z) : js Page unit :=
  stopAutoRefresh ;;;
  let* id := setInterval (HostRefresh hostname hours) interval in
  set_refreshInterval (Some id).

(** [interval] is 120000 when the caller leaves it out. *)
Definition startHostDetailAutoRefresh (hostname : string) (interval : Z) : js Page unit :=
  startHostAutoRefresh hostname 24 interval.

(** The browser runs the callback of an interval that is set. *)
Definition interval_fires (id : nat) (now : Z) : js Page unit :=
  let* entry := gets (fun p => intervals p !! id) in
  match entry with
  | Some (r, _) => refresh_callback r now
  | None => ret tt
  end.

(** What happens to a page: the auto-refresh actions are called, an
    interval fires, or the store changes in another way (another action, a
    response of the API, a WebSocket event). *)
Inductive page_step : Type :=
| StartDashboardAutoRefresh (interval : Z)
| StartHostAutoRefresh (hostname : string) (hours interval : Z)
| StartHostDetailAutoRefresh (hostname : string) (interval : Z)
| StopAutoRefresh
| IntervalFires (id : nat) (now : Z)
| OnStore (action : js World unit).

Definition run_step (step : page_step) : js Page unit :=
  match step with
  | StartDashboardAutoRefresh interval => startDashboardAutoRefresh interval
  | StartHostAutoRefresh hostname hours interval =>
      startHostAutoRefresh hostname hours interval
  | StartHostDetailAutoRefresh hostname interval =>
      startHostDetailAutoRefresh hostname interval
  | StopAutoRefresh => stopAutoRefresh
  | IntervalFires id now => interval_fires id now
  | OnStore action => on_store action
  end.

Inductive reachable_page : Page -> Prop :=
| reachable_page_initial c : reachable_page (initial_page c)
| reachable_page_step step p : reachable_page p -> reachable_page (run_step step p).2.

End WithRuntime.
End StoreActions.

(* ===================================================================== *)
(** ** Vocabulary of the statements *)
(* ===================================================================== *)

Section CacheVocabulary.
Import Cache.
Variable rt : Runtime.

(** The storage answers every call in state [m]. *)
Definition healthy (m : gmap string string) : Prop :=
  forall op, storage_throws rt m op = false.

(** The world after a [console.warn]: the storage is as it was. *)
Definition warned (msg : string) (w : World) : World :=
  {| storage := storage w; console := console w ++ [ConsoleWarn msg] |}.

(** The row that [getCacheStats] pushes for a well-formed cache item. *)
Definition stats_row (k text : string) (now ts tl : Z) : StatsEntry :=
  {| key := k;
     age := round_div_1000 (Some (now - ts));
     ttl := round_div_1000 (Some tl);
     size := String.length text;
     expired := tl <? now - ts |}.

(** The storage holds under [key] a cache item with payload [d] that has
    not expired at time [now], and will answer the read. *)
Definition live_entry (c : Cache.World) (key : string) (now : Z) (d : jsval) : Prop :=
  exists text ts tl,
    storage_throws rt (Cache.storage c) (OpGetItem key) = false /\
    Cache.storage c !! key = Some text /\
    text <> "" /\
    JSON_parse rt text = Some (Cache.cacheItem_of d ts tl) /\
    now - ts <= tl.

(** What [getCache] makes of the text stored under a key: it returns a
    value that is not [null]; it returns [null] and leaves the storage as it
    is; it returns [null] and removes the entry. *)
Inductive verdict : Type := Served | Missed | Dropped.

Definition verdict_of (now : Z) (cached : option string) : verdict :=
  if no_text cached then Missed else
  match JSON_parse rt (default "" cached) with
  | None | Some JNull | Some JUndefined => Missed
  | Some (JObj fields) =>
      if js_gt (js_sub (Some now) (ToNumber rt (obj_lookup fields "timestamp")))
               (ToNumber rt (obj_lookup fields "ttl"))
      then Dropped
      else if not_null (obj_lookup fields "data") then Served else Missed
  | Some _ => Served
  end.

(** The namespaced keys of [keys] whose entry in [m] gets the verdict [v]. *)
Fixpoint count_verdict (now : Z) (m : gmap string string) (v : verdict)
    (keys : list string) : nat :=
  match keys with
  | [] => 0
  | k :: rest =>
      match v, verdict_of now (m !! k) with
      | Served, Served | Missed, Missed | Dropped, Dropped =>
          if String.prefix "pyperf_" k then S (count_verdict now m v rest)
          else count_verdict now m v rest
      | _, _ => count_verdict now m v rest
      end
  end.

End CacheVocabulary.

Section WSVocabulary.
Import WS.
Context {U : Type}.
Variable rt : Runtime.

Local Abbreviation World := (WS.World U).
Local Abbreviation Handler := (WS.Handler U).

(** [w'] differs from [w] in the client's state and in what was written
    to the console and to the records of [emit] only. *)
Definition same_service (w w' : World) : Prop :=
  this w' = this w /\ sockets w' = sockets w /\
  timers w' = timers w /\ timer_log w' = timer_log w.

(** The client's state after the callbacks [hs] ran on [data] in turn, and
    the console lines written for those that threw. *)
Fixpoint run_callbacks (hs : list Handler) (data : jsval) (u : U)
  : U * list console_line :=
  match hs with
  | [] => (u, [])
  | h :: rest =>
      match hrun h data u with
      | (Normal _, u') => run_callbacks rest data u'
      | (Throw _, u') =>
          let r := run_callbacks rest data u' in
          (r.1, ConsoleError "Error in WebSocket event handler for " :: r.2)
      end
  end.

(** The service after the first lines of [onclose]. *)
Definition closed_service (s : WebSocketService U) : WebSocketService U :=
  set_socket None (set_isConnecting false (set_isConnected false s)).

(** [onclose] decides to retry. *)
Definition retries (code : Z) (s : WebSocketService U) : bool :=
  (negb (code =? 1000) &&
   Nat.ltb (reconnectAttempts s) (maxReconnectAttempts s))%bool.

(** The computation [c] does not change the field (or group of fields)
    [f] of the service, however it completes. *)
Definition keeps {A X} (f : WebSocketService U -> X) (c : js World A) : Prop :=
  forall w, f (this (c w).2) = f (this w).

(** The two limits the constructor sets. *)
Definition limits (s : WebSocketService U) : nat * Z :=
  (maxReconnectAttempts s, maxReconnectDelay s).

(** The two counters of the backoff. *)
Definition backoff (s : WebSocketService U) : nat * Z :=
  (reconnectAttempts s, reconnectDelay s).

(** An event that carries a close: a plain close, or a failed connection. *)
Definition closes (e : event) (id : nat) (code : Z) : Prop :=
  exists reason, e = SocketClose id code reason \/ e = SocketFail id code reason.





(** A timer set by [scheduleReconnect]. *)
Definition is_reconnect (t : Timer) : bool :=
  match kind t with ReconnectTimer _ _ => true | HeartbeatTimer => false end.




End WSVocabulary.

Section CacheCounting.
Import Cache.

(** The keys under the [pyperf_] prefix. *)
Definition namespaced (keys : list string) : list string :=
  List.filter (String.prefix "pyperf_") keys.

(** The total length of the texts stored under the namespaced keys. *)
Fixpoint namespaced_size (m : gmap string string) (keys : list string) : nat :=
  match keys with
  | [] => 0
  | k :: rest =>
      ((if String.prefix "pyperf_" k then String.length (default "" (m !! k)) else 0)
       + namespaced_size m rest)%nat
  end.

(** From [m] to [m'] namespaced entries were removed at most. *)
Definition shrinks (m m' : gmap string string) : Prop :=
  forall k, m' !! k = m !! k \/ (String.prefix "pyperf_" k = true /\ m' !! k = None).

End CacheCounting.

Section WSInvariants.
Import WS.
Context {U : Type}.

Local Abbreviation World := (WS.World U).

(** The computation [c] takes every state to one that is related to it by
    [R], however it completes. *)
Definition quiet (R : World -> World -> Prop) {A} (c : js World A) : Prop :=
  forall w, R w (c w).2.

(** [w'] shows the same [view] as [w]. *)
Definition same {X} (view : World -> X) (w w' : World) : Prop :=
  view w' = view w.

(** From [w] to [w'] the property [P] is not lost. *)
Definition still (P : World -> Prop) (w w' : World) : Prop :=
  P w -> P w'.

(** Every pending heartbeat timer is the one the service holds. *)
Definition one_heartbeat (w : World) : Prop :=
  forall tid t,
    timers w !! tid = Some t -> kind t = HeartbeatTimer ->
    heartbeatInterval (this w) = Some tid.

(** The delay of the backoff, and the delay of every reconnect timer set so
    far, lie between one second and the cap of thirty. *)
Definition delays_in_range (w : World) : Prop :=
  maxReconnectDelay (this w) = 30000 /\
  1000 <= reconnectDelay (this w) <= 30000 /\
  forall t, t ∈ timer_log w -> is_reconnect t = true -> 1000 <= delay t <= 30000.

(** What the handshake looks at: the two flags, the socket held, and the
    state of every socket. *)
Definition handshake (w : World)
  : bool * bool * option nat * list ready_state :=
  (isConnecting (this w), isConnected (this w), socket (this w),
   readyState <$> sockets w).

(** While [isConnecting] is up, [isConnected] is down and the socket held
    is one whose handshake is in progress. *)
Definition connecting_in_progress (w : World) : Prop :=
  isConnecting (this w) = true ->
  isConnected (this w) = false /\
  exists id, socket (this w) = Some id /\
             (readyState <$> sockets w) !! id = Some CONNECTING.

(** [isConnecting] is down. *)
Definition not_connecting (w : World) : Prop :=
  isConnecting (this w) = false.

(** When the socket held is open, [isConnected] is up. *)
Definition open_is_connected (w : World) : Prop :=
  forall id, socket (this w) = Some id ->
             (readyState <$> sockets w) !! id = Some OPEN ->
             isConnected (this w) = true.

(** The service holds no socket. *)
Definition no_socket (w : World) : Prop := socket (this w) = None.

(** [isConnected] is up. *)
Definition connected (w : World) : Prop := isConnected (this w) = true.

End WSInvariants.

(** *** Concrete inputs *)

(** What happens to a service, in order: calls of its owner and events of
    the browser. *)
Definition replay {U : Type} (rt : Runtime) (steps : list (WS.call (U := U) + WS.event))
    (w : WS.World U) : WS.World U :=
  fold_left (fun w step => match step with
                           | inl c => (WS.perform rt c w).2
                           | inr e => (WS.deliver rt e w).2
                           end) steps w.

Definition empty_world : Cache.World :=
  {| Cache.storage := ∅; Cache.console := [] |}.

(** The payload [{x: 1}] of the end-to-end scenario. *)
Definition payload_x1 : jsval := JObj [("x", JNum 1)].

(** A world that holds one foreign-looking entry under the namespace: text
    that is not JSON. *)
Definition corrupt_world : Cache.World :=
  {| Cache.storage := {[ "pyperf_x" := "not json" ]}; Cache.console := [] |}.

(** A store whose storage holds the dashboard payload [{x: 1}], written at
    time 0 with the default ttl. *)
Definition cached_dashboard_world : Store.World :=
  {| Store.this := Store.initial_state;
     Store.cache :=
       (Cache.setCache RefRuntime.runtime Cache.getDashboardCacheKey payload_x1
          Cache.DEFAULT_CACHE_TTL 0 empty_world).2;
     Store.api_calls := [] |}.

Definition dashboard_path : string := "/ws/dashboard/".

(** A client that counts the events it handled. *)
Definition counting : WS.Handler nat :=
  {| WS.hid := 2; WS.hrun := fun _ n => (Normal tt, S n) |}.

(** A client callback that always throws. *)
Definition throwing : WS.Handler nat :=
  {| WS.hid := 1; WS.hrun := fun _ n => (Throw (CallbackError "boom"), n) |}.

(** A fresh service after its first [connect]. *)
Definition connecting_world : WS.World nat :=
  replay RefRuntime.runtime [inl (WS.Connect dashboard_path [])] (WS.initial 0%nat).

(** The same once the socket opened and the heartbeat was started. *)
Definition open_world : WS.World nat :=
  replay RefRuntime.runtime
    [inr (WS.SocketOpen 0); inl (WS.StartHeartbeat 30000)] connecting_world.


(** A browser that refuses to construct a [WebSocket]. *)
Definition runtime_no_websocket : Runtime :=
  {| JSON_parse := RefRuntime.parse;
     JSON_stringify := RefRuntime.stringify;
     ToNumber_other := RefRuntime.to_number_other;
     storage_throws := fun _ _ => false;
     location_protocol := "https:";
     location_host := "perf.example.org";
     WebSocket_throws := fun _ _ => true |}.

(** The first connection of a fresh service was refused: a reconnect is
    pending. *)
Definition retrying_world : WS.World nat :=
  replay RefRuntime.runtime [inr (WS.SocketFail 0 1006 "")] connecting_world.

(** A [connect] right after a [disconnect], and the close event of the
    first socket arriving while the second one connects. *)
Definition raced_world : WS.World nat :=
  replay RefRuntime.runtime
    [inl (WS.Connect dashboard_path []); inl WS.Disconnect;
     inl (WS.Connect dashboard_path []); inr (WS.SocketClose 0 1000 "")]
    (WS.initial 0%nat).

(** A store that shows host [web1] with a timeline of 200 points. *)
Definition watching_world : Store.World :=
  {| Store.this :=
       Store.set_currentHostMetrics
         (JObj [("hostname", JStr "web1"); ("timeline_data", JArr (replicate 200 JNull))])
         (Store.set_currentHost (Some "web1") Store.initial_state);
     Store.cache := empty_world;
     Store.api_calls := [] |}.

(** The fields of a [metrics_update] message for [web1]. *)
Definition metrics_message : list (string * jsval) :=
  [("type", JStr "metrics_update"); ("hostname", JStr "web1"); ("timestamp", JNum 1700000000);
   ("metrics", JObj [("cpu_percent", JNum 45); ("memory_percent", JNum 62);
                     ("memory_available_mb", JNum 2048); ("memory_used_mb", JNum 6144)])].

(** A storage that holds the dashboard entry and the page's theme. *)
Definition themed_world : Store.World :=
  {| Store.this := Store.initial_state;
     Store.cache := {| Cache.storage := {[ "pyperf_dashboard" := "x"; "darkMode" := "true" ]};
                       Cache.console := [] |};
     Store.api_calls := [] |}.

(** A page that started the dashboard refresh, then the refresh of host
    [web1], and never fetched that host. *)
Definition refreshing_page : StoreActions.Page :=
  (StoreActions.run_step RefRuntime.runtime
     (StoreActions.StartHostAutoRefresh "web1" 24 60000)
     (StoreActions.run_step RefRuntime.runtime
        (StoreActions.StartDashboardAutoRefresh 120000)
        (StoreActions.initial_page empty_world)).2).2.

(** Closed goals about a run of the model: split the conjunctions, then
    evaluate each side. *)
Ltac run_model :=
  cbv zeta;
  repeat match goal with |- _ /\ _ => split end;
  try (vm_compute; reflexivity);
  try (vm_compute; discriminate).

(* ===================================================================== *)
(** ** Facts about the cache *)
(* ===================================================================== *)

Section CacheFacts.
Import Cache.
Variable rt : Runtime.

Lemma getCache_completes key now w :
  exists v w', getCache rt key now w = (Normal v, w').
Proof.
  unfold getCache, try_catch, bind.
  destruct (localStorage_getItem rt key w) as [[cached|e] w1] eqn:Hget; [|simpl; eauto].
  destruct (no_text cached); [simpl; eauto|].
  destruct (JSON_parse_js rt (default "" cached) w1) as [[item|e] w2]; [|simpl; eauto].
  destruct (get_prop item "timestamp" w2) as [[ts|e] w3]; [|simpl; eauto].
  destruct (get_prop item "ttl" w3) as [[tl|e] w4]; [|simpl; eauto].
  destruct (js_gt _ _).
  - destruct (localStorage_removeItem rt key w4) as [[[]|e] w5]; simpl; eauto.
  - destruct (get_prop item "data" w4) as [[d|e] w5]; simpl; eauto.
Qed.

Lemma setCache_completes key data t now w :
  exists w', setCache rt key data t now w = (Normal tt, w').
Proof.
  unfold setCache, try_catch, bind.
  destruct (JSON_stringify_js rt _ w) as [[text|e] w1]; [|simpl; eauto].
  destruct (localStorage_setItem rt key text w1) as [[[]|e] w2]; simpl; eauto.
Qed.

Lemma clearCache_completes key w :
  exists w', clearCache rt key w = (Normal tt, w').
Proof.
  unfold clearCache, try_catch.
  destruct (localStorage_removeItem rt key w) as [[[]|e] w2]; simpl; eauto.
Qed.

Lemma getItem_ok key w :
  storage_throws rt (storage w) (OpGetItem key) = false ->
  localStorage_getItem rt key w = (Normal (storage w !! key), w).
Proof. intros H. unfold localStorage_getItem. now rewrite H. Qed.

Lemma no_text_some text : text <> "" -> no_text (Some text) = false.
Proof. intros H. simpl. now apply String.eqb_neq. Qed.

(** Reading an entry whose text parses to a cache item
    [{data, timestamp, ttl}]: the item's age decides. *)
Lemma getCache_item key now w text d ts tl :
  storage_throws rt (storage w) (OpGetItem key) = false ->
  storage w !! key = Some text ->
  text <> "" ->
  JSON_parse rt text = Some (cacheItem_of d ts tl) ->
  getCache rt key now w =
    if tl <? now - ts
    then (if storage_throws rt (storage w) (OpRemoveItem key)
          then (Normal JNull, warned "Failed to get cache:" w)
          else (Normal JNull, set_storage (delete key (storage w)) w))
    else (Normal d, w).
Proof.
  intros Hget Hk Htext Hparse.
  unfold getCache, try_catch, bind.
  rewrite (getItem_ok _ _ Hget), Hk, (no_text_some _ Htext).
  unfold JSON_parse_js. simpl. rewrite Hparse. simpl.
  destruct (tl <? now - ts); [|reflexivity].
  unfold localStorage_removeItem.
  destruct (storage_throws rt (storage w) (OpRemoveItem key)); reflexivity.
Qed.

(** What [setCache] leaves behind when neither [JSON.stringify] nor
    [setItem] throws. *)
Lemma setCache_stores key d t now w text :
  JSON_stringify rt (cacheItem_of d now t) = Some text ->
  storage_throws rt (storage w) (OpSetItem key text) = false ->
  setCache rt key d t now w = (Normal tt, set_storage (<[key := text]> (storage w)) w).
Proof.
  intros Hs Hset. unfold setCache, try_catch, bind, JSON_stringify_js.
  rewrite Hs. simpl. unfold localStorage_setItem. now rewrite Hset.
Qed.

(** *** getCacheStats *)

Lemma getCacheStats_entry_grows now k w st :
  healthy rt (storage w) ->
  is_Some (storage w !! k) ->
  exists st' added,
    getCacheStats_entry rt now k (w, st) = (Normal tt, (w, st')) /\
    entries st' = entries st ++ added.
Proof.
  intros Hh [text Hk]. unfold getCacheStats_entry.
  destruct (String.prefix "pyperf_" k).
  2:{ exists st, []. split; [reflexivity | now rewrite app_nil_r]. }
  unfold bind at 1. simpl.
  unfold bind at 1. unfold lift at 1. simpl.
  rewrite (getItem_ok k w (Hh _)), Hk. simpl.
  unfold try_catch, bind, JSON_parse_js. simpl.
  destruct (JSON_parse rt text) as [item|]; simpl.
  2:{ eexists _, []. split; [reflexivity | simpl; now rewrite app_nil_r]. }
  destruct item; simpl;
    try (eexists _, []; split; [reflexivity | simpl; now rewrite app_nil_r]);
    eexists _, [_]; split; reflexivity.
Qed.

Lemma getCacheStats_entry_row now k w st text d ts tl :
  healthy rt (storage w) ->
  String.prefix "pyperf_" k = true ->
  storage w !! k = Some text ->
  JSON_parse rt text = Some (cacheItem_of d ts tl) ->
  exists st',
    getCacheStats_entry rt now k (w, st) = (Normal tt, (w, st')) /\
    entries st' = entries st ++ [stats_row k text now ts tl].
Proof.
  intros Hh Hp Hk Hparse. unfold getCacheStats_entry. rewrite Hp.
  unfold bind at 1. simpl.
  unfold bind at 1. unfold lift at 1. simpl.
  rewrite (getItem_ok k w (Hh _)), Hk. simpl.
  unfold try_catch, bind, JSON_parse_js. simpl. rewrite Hparse. simpl.
  eexists. split; reflexivity.
Qed.

Lemma getCacheStats_loop now k w text d ts tl keys :
  healthy rt (storage w) ->
  String.prefix "pyperf_" k = true ->
  storage w !! k = Some text ->
  JSON_parse rt text = Some (cacheItem_of d ts tl) ->
  Forall (fun k' => is_Some (storage w !! k')) keys ->
  forall st, exists st' added,
    forEach (getCacheStats_entry rt now) keys (w, st) = (Normal tt, (w, st')) /\
    entries st' = entries st ++ added /\
    (k ∈ keys -> stats_row k text now ts tl ∈ added).
Proof.
  intros Hh Hp Hk Hparse. induction 1 as [|k' keys Hk' _ IH]; intros st.
  - exists st, []. simpl. rewrite app_nil_r. split; [reflexivity|].
    split; [reflexivity|]. intros Hin. inversion Hin.
  - simpl. unfold bind.
    destruct (decide (k' = k)) as [->|Hne].
    + destruct (getCacheStats_entry_row now k w st text d ts tl Hh Hp Hk Hparse)
        as (st1 & -> & Hrow).
      destruct (IH st1) as (st' & added & -> & Hadd & _).
      exists st', (stats_row k text now ts tl :: added).
      split; [reflexivity|]. split.
      * rewrite Hadd, Hrow, <- app_assoc. reflexivity.
      * intros _. apply list_elem_of_here.
    + destruct (getCacheStats_entry_grows now k' w st Hh Hk') as (st1 & a1 & -> & Ha1).
      destruct (IH st1) as (st' & added & -> & Hadd & Hin).
      exists st', (a1 ++ added). split; [reflexivity|]. split.
      * rewrite Hadd, Ha1, <- app_assoc. reflexivity.
      * intros Hel. apply elem_of_app. right. apply Hin.
        apply elem_of_cons in Hel as [Heq|Hel]; [congruence | exact Hel].
Qed.

Lemma keys_present (m : gmap string string) :
  Forall (fun k => is_Some (m !! k)) (map_to_list m).*1.
Proof.
  apply Forall_forall. intros k Hin.
  apply list_elem_of_fmap in Hin as [[k' v] [-> Hin]].
  apply elem_of_map_to_list in Hin. simpl. eauto.
Qed.

(** On a storage that answers, the statistics hold a row for every
    well-formed namespaced item, with its [expired] flag. *)
Lemma getCacheStats_row now k w text d ts tl :
  healthy rt (storage w) ->
  String.prefix "pyperf_" k = true ->
  storage w !! k = Some text ->
  JSON_parse rt text = Some (cacheItem_of d ts tl) ->
  exists st,
    getCacheStats rt now w = (Normal st, w) /\
    stats_row k text now ts tl ∈ entries st.
Proof.
  intros Hh Hp Hk Hparse.
  unfold getCacheStats, bind, with_local, try_catch, lift, Object_keys_localStorage.
  cbn [fst snd]. rewrite (Hh OpKeys).
  unfold update_local, modify. cbn [fst snd].
  set (st0 := {| totalEntries := _ |}).
  destruct (getCacheStats_loop now k w text d ts tl _ Hh Hp Hk Hparse
              (keys_present (storage w)) st0) as (st' & added & Hrun & Hadd & Hin).
  rewrite Hrun. simpl.
  exists st'. split; [reflexivity|].
  rewrite Hadd. apply elem_of_app. right. apply Hin.
  apply list_elem_of_fmap. exists (k, text). split; [reflexivity|].
  now apply elem_of_map_to_list.
Qed.

(** C1 (amended).  After [setCache k v t] at time [now] (the item's text
    round-trips through JSON and the storage answers), [getCache k] at time
    [now'] returns [v] and leaves the storage alone as long as the age
    [now' - now] does not exceed [t].  Once the age exceeds [t], expiry is a
    hard filter at read time: [getCacheStats] reports the entry with
    [expired = true] (for a key under the [pyperf_] prefix, the only keys it
    lists), and [getCache k] returns [null] and removes the entry. *)
Theorem C1_read_until_ttl_then_miss
    (w : World) (k : string) (v : jsval) (t now now' : Z) (text : string) :
  JSON_stringify rt (cacheItem_of v now t) = Some text ->
  JSON_parse rt text = Some (cacheItem_of v now t) ->
  text <> "" ->
  storage_throws rt (storage w) (OpSetItem k text) = false ->
  healthy rt (<[k := text]> (storage w)) ->
  let w1 := set_storage (<[k := text]> (storage w)) w in
  setCache rt k v t now w = (Normal tt, w1) /\
  (now' - now <= t -> getCache rt k now' w1 = (Normal v, w1)) /\
  (t < now' - now ->
     (String.prefix "pyperf_" k = true ->
        exists st row, getCacheStats rt now' w1 = (Normal st, w1) /\
                       row ∈ entries st /\ key row = k /\ expired row = true) /\
     getCache rt k now' w1 = (Normal JNull, set_storage (delete k (storage w1)) w1)).
Proof.
  intros Hs Hp Htext Hset Hh w1.
  assert (Hk : storage w1 !! k = Some text) by (simpl; apply lookup_insert_eq).
  split; [now apply setCache_stores|].
  split.
  - intros Hage.
    rewrite (getCache_item k now' w1 text v now t (Hh _) Hk Htext Hp).
    replace (t <? now' - now) with false by (symmetry; apply Z.ltb_ge; lia).
    reflexivity.
  - intros Hage.
    assert (Hlt : (t <? now' - now) = true) by (apply Z.ltb_lt; lia).
    split.
    + intros Hpre.
      destruct (getCacheStats_row now' k w1 text v now t Hh Hpre Hk Hp) as (st & Hst & Hin).
      exists st, (stats_row k text now' now t).
      repeat split; [exact Hst | exact Hin | exact Hlt].
    + rewrite (getCache_item k now' w1 text v now t (Hh _) Hk Htext Hp), Hlt.
      pose proof (Hh (OpRemoveItem k)) as Hr.
      change (<[k:=text]> (storage w)) with (storage w1) in Hr.
      now rewrite Hr.
Qed.

(** C8.  No storage failure leaves a cache operation: [setCache], [getCache]
    and [clearCache] complete normally on every runtime and in every world;
    when [getItem], [JSON.parse], the access to a parsed [null] or the
    [removeItem] of an expired entry throws, [getCache] returns [null]; when
    [JSON.stringify] or [setItem] throws, [setCache] changes nothing in the
    storage; when [removeItem] throws, [clearCache] changes nothing. Every
    such failure is a [console.warn] line and nothing else. *)
Theorem C8_storage_failures_absorbed
    (key : string) (data : jsval) (t now : Z) (w : World) :
  completes (setCache rt key data t now w) = true /\
  completes (getCache rt key now w) = true /\
  completes (clearCache rt key w) = true /\
  (storage_throws rt (storage w) (OpGetItem key) = true ->
     getCache rt key now w = (Normal JNull, warned "Failed to get cache:" w)) /\
  (forall text,
     storage_throws rt (storage w) (OpGetItem key) = false ->
     storage w !! key = Some text -> text <> "" ->
     JSON_parse rt text = None \/ JSON_parse rt text = Some JNull ->
     getCache rt key now w = (Normal JNull, warned "Failed to get cache:" w)) /\
  (forall text d ts tl,
     storage_throws rt (storage w) (OpGetItem key) = false ->
     storage w !! key = Some text -> text <> "" ->
     JSON_parse rt text = Some (cacheItem_of d ts tl) -> tl < now - ts ->
     storage_throws rt (storage w) (OpRemoveItem key) = true ->
     getCache rt key now w = (Normal JNull, warned "Failed to get cache:" w)) /\
  (JSON_stringify rt (cacheItem_of data now t) = None ->
     setCache rt key data t now w = (Normal tt, warned "Failed to set cache:" w)) /\
  (forall text,
     JSON_stringify rt (cacheItem_of data now t) = Some text ->
     storage_throws rt (storage w) (OpSetItem key text) = true ->
     setCache rt key data t now w = (Normal tt, warned "Failed to set cache:" w)) /\
  (storage_throws rt (storage w) (OpRemoveItem key) = true ->
     clearCache rt key w = (Normal tt, warned "Failed to clear cache:" w)).
Proof.
  split; [destruct (setCache_completes key data t now w) as [w' ->]; reflexivity|].
  split; [destruct (getCache_completes key now w) as (v & w' & ->); reflexivity|].
  split; [destruct (clearCache_completes key w) as [w' ->]; reflexivity|].
  split.
  { intros H. unfold getCache, try_catch, bind, localStorage_getItem. now rewrite H. }
  split.
  { intros text Hget Hk Htext Hparse.
    unfold getCache, try_catch, bind.
    rewrite (getItem_ok _ _ Hget), Hk, (no_text_some _ Htext).
    unfold JSON_parse_js. simpl. destruct Hparse as [-> | ->]; reflexivity. }
  split.
  { intros text d ts tl Hget Hk Htext Hparse Hexp Hrm.
    rewrite (getCache_item key now w text d ts tl Hget Hk Htext Hparse), Hrm.
    replace (tl <? now - ts) with true by (symmetry; apply Z.ltb_lt; lia).
    reflexivity. }
  split.
  { intros H. unfold setCache, try_catch, bind, JSON_stringify_js. now rewrite H. }
  split.
  { intros text Hs H. unfold setCache, try_catch, bind, JSON_stringify_js.
    rewrite Hs. simpl. unfold localStorage_setItem. now rewrite H. }
  intros H. unfold clearCache, try_catch, localStorage_removeItem. now rewrite H.
Qed.

End CacheFacts.

(** *** cleanupExpiredCache on every storage *)

Section CleanupFacts.
Import Cache.
Variable rt : Runtime.
Hypothesis never_throws : forall m op, storage_throws rt m op = false.






End CleanupFacts.

(** *** The cache on concrete inputs *)

(** C1 on the scenario's entry: written at time 0 with ttl 1000 under a
    namespaced key, read at age 1000. *)
Lemma C1_witness :
  Cache.getCache RefRuntime.runtime "pyperf_a" 1000
      (Cache.set_storage
         (<["pyperf_a" := RefRuntime.print (Cache.cacheItem_of payload_x1 0 1000)]> ∅)
         empty_world)
    = (Normal payload_x1,
       Cache.set_storage
         (<["pyperf_a" := RefRuntime.print (Cache.cacheItem_of payload_x1 0 1000)]> ∅)
         empty_world).
Proof.
  refine (proj1 (proj2 (C1_read_until_ttl_then_miss RefRuntime.runtime empty_world
            "pyperf_a" payload_x1 1000 0 1000
            (RefRuntime.print (Cache.cacheItem_of payload_x1 0 1000))
            _ _ _ _ _)) _).
  - reflexivity.
  - vm_compute. reflexivity.
  - intros H. vm_compute in H. discriminate H.
  - reflexivity.
  - intros op. reflexivity.
  - vm_compute. discriminate.
Defined.

(** C1 as stated fails: written at time 0 with ttl 1000 and read at time
    1100, the entry is reported expired by [getCacheStats] and [getCache]
    returns [null], not the value written. *)
Lemma C1_counterexample_expired_read_is_null :
  let rt := RefRuntime.runtime in
  let w1 := (Cache.setCache rt "pyperf_a" payload_x1 1000 0 empty_world).2 in
  (Cache.expired <$> match (Cache.getCacheStats rt 1100 w1).1 with
                     | Normal st => Cache.entries st
                     | Throw _ => []
                     end) = [true] /\
  (Cache.getCache rt "pyperf_a" 1100 w1).1 = Normal JNull /\
  JNull <> payload_x1.
Proof. run_model. Qed.

(** C8 where storage access is denied, where the stored text is not JSON,
    and where the quota is exhausted. *)
Lemma C8_witness :
  Cache.getCache RefRuntime.runtime_storage_denied "pyperf_a" 0 empty_world
    = (Normal JNull, warned "Failed to get cache:" empty_world) /\
  Cache.getCache RefRuntime.runtime "pyperf_x" 0 corrupt_world
    = (Normal JNull, warned "Failed to get cache:" corrupt_world) /\
  Cache.setCache RefRuntime.runtime_quota_exceeded "pyperf_a" payload_x1 1000 0 empty_world
    = (Normal tt, warned "Failed to set cache:" empty_world) /\
  Cache.clearCache RefRuntime.runtime_storage_denied "pyperf_a" empty_world
    = (Normal tt, warned "Failed to clear cache:" empty_world).
Proof.
  split.
  { apply (C8_storage_failures_absorbed RefRuntime.runtime_storage_denied
             "pyperf_a" JNull 0 0 empty_world). reflexivity. }
  split.
  { apply (proj1 (proj2 (proj2 (proj2 (proj2
             (C8_storage_failures_absorbed RefRuntime.runtime
                "pyperf_x" JNull 0 0 corrupt_world))))) "not json").
    - reflexivity.
    - vm_compute. reflexivity.
    - discriminate.
    - left. vm_compute. reflexivity. }
  split.
  { apply (proj1 (proj2 (proj2 (proj2 (proj2 (proj2 (proj2 (proj2
             (C8_storage_failures_absorbed RefRuntime.runtime_quota_exceeded
                "pyperf_a" payload_x1 1000 0 empty_world))))))))
             (RefRuntime.print (Cache.cacheItem_of payload_x1 0 1000))).
    - reflexivity.
    - reflexivity. }
  apply (C8_storage_failures_absorbed RefRuntime.runtime_storage_denied
           "pyperf_a" JNull 0 0 empty_world). reflexivity.
Defined.

(** *** cleanupExpiredCache *)

(** The end-to-end scenario on a namespaced key: written with ttl 1000 and
    read at once, the value comes back; 1100 ms later [cleanupExpiredCache]
    returns 1 and the storage is empty, and a read finds nothing. *)
Lemma cleanup_scenario :
  let rt := RefRuntime.runtime in
  let w1 := (Cache.setCache rt "pyperf_a" payload_x1 1000 0 empty_world).2 in
  let r := Cache.cleanupExpiredCache rt 1100 w1 in
  (Cache.getCache rt "pyperf_a" 0 w1).1 = Normal payload_x1 /\
  r.1 = Normal 1%nat /\
  Cache.storage r.2 = ∅ /\
  (Cache.getCache rt "pyperf_a" 1100 r.2).1 = Normal JNull.
Proof. run_model. Qed.

(** The scenario's own key [ns:a] is outside the [pyperf_] namespace:
    [cleanupExpiredCache] skips it and returns 0. *)
Lemma cleanup_skips_foreign_keys :
  let rt := RefRuntime.runtime in
  let w1 := (Cache.setCache rt "ns:a" payload_x1 1000 0 empty_world).2 in
  let r := Cache.cleanupExpiredCache rt 1100 w1 in
  r.1 = Normal 0%nat /\ Cache.storage r.2 = Cache.storage w1.
Proof. run_model. Qed.

(** C9, on two inputs where the count is not the number of entries removed
    (the [Missed] entries of [cleanupExpiredCache_spec]).  An entry written
    by [setCache] with the payload [null] and not yet expired, and an entry
    whose text is not JSON: for each, [cleanupExpiredCache] returns 1 and
    removes nothing. *)
Theorem C9_cleanup_counts_entries_it_keeps :
  let rt := RefRuntime.runtime in
  let w1 := (Cache.setCache rt "pyperf_dashboard" JNull 1000 0 empty_world).2 in
  let r1 := Cache.cleanupExpiredCache rt 0 w1 in
  let r2 := Cache.cleanupExpiredCache rt 0 corrupt_world in
  (r1.1 = Normal 1%nat /\ Cache.storage r1.2 = Cache.storage w1 /\
   size (Cache.storage w1) = 1%nat) /\
  (r2.1 = Normal 1%nat /\ Cache.storage r2.2 = Cache.storage corrupt_world /\
   size (Cache.storage corrupt_world) = 1%nat).
Proof. run_model. Qed.

(** *** Further runs of the cache and of the fetch actions *)

Example getHostMetricsCacheKey_example :
  Cache.getHostMetricsCacheKey "web1" 24 = "pyperf_host_metrics_web1_24h".
Proof. vm_compute. reflexivity. Qed.

(** [clearAllCaches] removes the namespaced keys and leaves the others. *)
Example clearAllCaches_keeps_foreign_keys :
  let w := {| Cache.storage := {[ "pyperf_dashboard" := "x"; "theme" := "dark";
                                  "pyperf_host_metrics_web1_24h" := "y" ]};
              Cache.console := [] |} in
  map_to_list (Cache.storage (Cache.clearAllCaches RefRuntime.runtime w).2)
    = [("theme", "dark")].
Proof. run_model. Qed.

(* ===================================================================== *)
(** ** Facts about the cached fetch *)
(* ===================================================================== *)

Section StoreFacts.
Import Store.
Variable rt : Runtime.

Lemma getCache_live c key now d :
  live_entry rt c key now d -> Cache.getCache rt key now c = (Normal d, c).
Proof.
  intros (text & ts & tl & Hget & Hk & Htext & Hparse & Hage).
  rewrite (getCache_item rt key now c text d ts tl Hget Hk Htext Hparse).
  replace (tl <? now - ts) with false by (symmetry; apply Z.ltb_ge; lia).
  reflexivity.
Qed.

(** C2 (amended).  With [forceRefresh = false] and an unexpired entry whose
    payload is truthy, [fetchDashboardData] and [fetchHostMetrics] put the
    cached payload in the store, set [usingCachedData], and run to their end
    without awaiting; they do invoke the loader, exactly once, as a
    background refresh ([systemApi] is called before they return), and the
    storage is not touched. *)
Theorem C2_cached_fetch_serves_cache_and_calls_loader_once (w : World) (now : Z) (d : jsval) :
  (live_entry rt (cache w) Cache.getDashboardCacheKey now d ->
   truthy d = true ->
   exists w',
     fetchDashboardData rt false now w = (Normal Completed, w') /\
     dashboardData (this w') = d /\
     usingCachedData (this w') = true /\
     lastUpdate (this w') = Some now /\
     cache w' = cache w /\
     api_calls w' = api_calls w ++ [GetDashboardData]) /\
  (forall hostname hours,
   live_entry rt (cache w) (Cache.getHostMetricsCacheKey hostname hours) now d ->
   truthy d = true ->
   exists w',
     fetchHostMetrics rt hostname hours false now w = (Normal Completed, w') /\
     currentHostMetrics (this w') = d /\
     usingCachedData (this w') = true /\
     cache w' = cache w /\
     api_calls w' = api_calls w ++ [GetHostMetrics hostname hours]).
Proof.
  split.
  - intros Hlive Htruthy.
    unfold fetchDashboardData. cbn [negb andb]. unfold bind at 1, on_cache at 1.
    rewrite (getCache_live _ _ _ _ Hlive), Htruthy.
    eexists. split; [reflexivity|]. cbn. repeat split.
  - intros hostname hours Hlive Htruthy.
    unfold fetchHostMetrics. cbv zeta.
    generalize dependent (Cache.getHostMetricsCacheKey hostname hours).
    intros key Hlive. cbn [negb andb].
    unfold bind at 1. cbn [set_this modify].
    unfold bind at 1, on_cache at 1. cbn [cache].
    rewrite (getCache_live _ _ _ _ Hlive), Htruthy.
    eexists. split; [reflexivity|]. cbn. repeat split.
Qed.

End StoreFacts.

(** C2 on a store whose dashboard entry is one second old. *)
Lemma C2_witness :
  exists w',
    Store.fetchDashboardData RefRuntime.runtime false 1000 cached_dashboard_world
      = (Normal Store.Completed, w') /\
    Store.dashboardData (Store.this w') = payload_x1 /\
    Store.usingCachedData (Store.this w') = true /\
    Store.lastUpdate (Store.this w') = Some 1000 /\
    Store.cache w' = Store.cache cached_dashboard_world /\
    Store.api_calls w' = Store.api_calls cached_dashboard_world ++ [Store.GetDashboardData].
Proof.
  refine (proj1 (C2_cached_fetch_serves_cache_and_calls_loader_once RefRuntime.runtime
                   cached_dashboard_world 1000 payload_x1) _ _).
  - exists (RefRuntime.print (Cache.cacheItem_of payload_x1 0 Cache.DEFAULT_CACHE_TTL)), 0,
      Cache.DEFAULT_CACHE_TTL.
    split; [vm_compute; reflexivity|].
    split; [vm_compute; reflexivity|].
    split; [intros H; vm_compute in H; discriminate H|].
    split; [vm_compute; reflexivity|].
    vm_compute. discriminate.
  - reflexivity.
Defined.

(** C2 as stated fails: with an unexpired dashboard entry in the cache,
    [fetchDashboardData(false)] runs to its end with one call made on the
    API, and [fetchHostMetrics] does the same for a cached host. *)
Lemma C2_counterexample_loader_is_invoked :
  let rt := RefRuntime.runtime in
  let r := Store.fetchDashboardData rt false 1000 cached_dashboard_world in
  r.1 = Normal Store.Completed /\
  Store.dashboardData (Store.this r.2) = payload_x1 /\
  Store.api_calls r.2 = [Store.GetDashboardData] /\
  Store.api_calls r.2 <> [].
Proof. run_model. Qed.

(** With nothing cached the action awaits the loader. *)
Example first_fetch_awaits_loader :
  let w := {| Store.this := Store.initial_state; Store.cache := empty_world;
              Store.api_calls := [] |} in
  let r := Store.fetchDashboardData RefRuntime.runtime false 1000 w in
  r.1 = Normal (Store.AwaitingApi Store.GetDashboardData) /\
  Store.api_calls r.2 = [Store.GetDashboardData] /\
  Store.isLoadingDashboard (Store.this r.2) = true.
Proof. run_model. Qed.

(** When the background refresh resolves, the entry is written again with
    the time of the response. *)
Example revalidation_overwrites_entry :
  let rt := RefRuntime.runtime in
  let w := (Store.fetchDashboardDataFromAPI_resume rt Cache.getDashboardCacheKey
              (Store.Response payload_x1) 2000 cached_dashboard_world).2 in
  Cache.storage (Store.cache w) !! Cache.getDashboardCacheKey
    = Some (RefRuntime.print (Cache.cacheItem_of payload_x1 2000 Cache.DEFAULT_CACHE_TTL)) /\
  Store.lastUpdate (Store.this w) = Some 2000 /\
  Store.usingCachedData (Store.this w) = false.
Proof. run_model. Qed.

(* ===================================================================== *)
(** ** Facts about the WebSocket service *)
(* ===================================================================== *)

Lemma bind_normal {S A B} (c : js S A) (k : A -> js S B) (s s' : S) (a : A) :
  c s = (Normal a, s') -> bind c k s = k a s'.
Proof. intros H. unfold bind. now rewrite H. Qed.

Section WSFacts.
Import WS.
Context {U : Type}.
Variable rt : Runtime.

Local Abbreviation World := (WS.World U).
Local Abbreviation Handler := (WS.Handler U).

Lemma dispatch_all (hs : list Handler) (data : jsval) : forall w : World,
  exists w',
    forEach (fun callback =>
               try_catch (invoke callback data)
                 (fun error => console_error "Error in WebSocket event handler for "))
            hs w = (Normal tt, w') /\
    same_service w w' /\
    emitted w' = emitted w /\
    calls w' = calls w ++ map (fun h => (hid h, data)) hs /\
    user w' = (run_callbacks hs data (user w)).1 /\
    console w' = console w ++ (run_callbacks hs data (user w)).2.
Proof.
  induction hs as [|h hs IH]; intros w.
  - exists w. simpl. rewrite !app_nil_r. repeat split.
  - cbn [forEach map run_callbacks].
    unfold bind at 1, try_catch at 1, invoke at 1.
    destruct (hrun h data (user w)) as [[[]|e] u'].
    + match goal with |- context [forEach _ hs ?w1] => destruct (IH w1) as (w' & -> & Hs & He & Hc & Hu & Hl) end.
      exists w'. split; [reflexivity|].
      destruct Hs as (H1 & H2 & H3 & H4). cbn in *.
      rewrite <- app_assoc in Hc. repeat split; assumption.
    + cbn [console_error modify with_console].
      match goal with |- context [forEach _ hs ?w1] => destruct (IH w1) as (w' & -> & Hs & He & Hc & Hu & Hl) end.
      exists w'. split; [reflexivity|].
      destruct Hs as (H1 & H2 & H3 & H4). cbn in *.
      rewrite <- app_assoc in Hc, Hl. repeat split; assumption.
Qed.

Lemma emit_spec (event data : jsval) (w : World) :
  exists w',
    emit event data w = (Normal tt, w') /\
    same_service w w' /\
    emitted w' = emitted w ++ [(event, data)] /\
    let hs := match event with
              | JStr name => default [] (listeners (this w) !! name)
              | _ => []
              end in
    calls w' = calls w ++ map (fun h => (hid h, data)) hs /\
    user w' = (run_callbacks hs data (user w)).1 /\
    console w' = console w ++ (run_callbacks hs data (user w)).2.
Proof.
  unfold emit. unfold bind at 1. cbn [modify].
  unfold bind at 1. cbn [gets this].
  set (reg := match event with JStr name => listeners (this w) !! name | _ => None end).
  assert (Hreg : match event with
                 | JStr name => default [] (listeners (this w) !! name)
                 | _ => []
                 end = default [] reg).
  { subst reg. destruct event; reflexivity. }
  rewrite Hreg. clear Hreg. destruct reg as [hs|]; cbn [default].
  - match goal with |- context [forEach _ hs ?w1] =>
      destruct (dispatch_all hs data w1) as (w' & -> & Hs & He & Hc & Hu & Hl) end.
    exists w'. split; [reflexivity|].
    destruct Hs as (H1 & H2 & H3 & H4). cbn in *. repeat split; assumption.
  - eexists. split; [reflexivity|]. cbn. rewrite !app_nil_r. repeat split.
Qed.



(** C10.  A message whose text [JSON.parse] rejects: [onmessage] completes
    normally, writes one [console.error] line and does nothing else: no
    call of [emit], no callback, and the service, the sockets and the
    timers are as they were. *)
Theorem C10_unparsable_message_fires_nothing (text : string) (id : nat) (w : World) :
  JSON_parse rt text = None ->
  onmessage rt text w =
    (Normal tt, with_console (ConsoleError "Error parsing WebSocket message:") w) /\
  exists w',
    deliver rt (SocketMessage id text) w = (Normal tt, w') /\
    emitted w' = emitted w /\ calls w' = calls w /\ user w' = user w /\
    this w' = this w /\ sockets w' = sockets w /\
    timers w' = timers w /\ timer_log w' = timer_log w.
Proof.
  intros Hparse.
  assert (Hm : onmessage rt text w =
               (Normal tt, with_console (ConsoleError "Error parsing WebSocket message:") w)).
  { unfold onmessage, try_catch, bind, Cache.JSON_parse_js. now rewrite Hparse. }
  split; [exact Hm|].
  unfold deliver, bind. cbn [gets].
  destruct (readyState <$> sockets w !! id) as [[]|];
    try (exists w; repeat split; reflexivity);
    rewrite Hm; eexists; (split; [reflexivity|]); repeat split.
Qed.

(** C6 (amended).  While [isConnecting] or [isConnected] is set, [connect]
    makes no socket and changes nothing but the console, and what it
    returns is a promise that is resolved already, whatever becomes of the
    attempt in flight. *)
Theorem C6_connect_while_busy_is_a_noop (path : string) (ps : list string) (w : World) :
  isConnecting (this w) = true \/ isConnected (this w) = true ->
  connect rt path ps w =
    (Normal Promise_resolved,
     with_console (ConsoleLog "WebSocket already connecting or connected") w) /\
  sockets (connect rt path ps w).2 = sockets w /\
  this (connect rt path ps w).2 = this w /\
  live_transports (connect rt path ps w).2 = live_transports w.
Proof.
  intros Hbusy.
  assert (Hc : connect rt path ps w =
               (Normal Promise_resolved,
                with_console (ConsoleLog "WebSocket already connecting or connected") w)).
  { unfold connect, bind. cbn [gets].
    replace (isConnecting (this w) || isConnected (this w))%bool with true; [reflexivity|].
    destruct Hbusy as [-> | ->]; [reflexivity | now rewrite orb_true_r]. }
  rewrite Hc. repeat split.
Qed.

(** *** The close handler *)

Lemma onclose_spec (path : string) (ps : list string) (code : Z) (reason : string)
    (w : World) :
  exists w',
    onclose path ps code reason w = (Normal tt, w') /\
    sockets w' = sockets w /\
    if retries code (this w) then
      let id := S (length (timer_log w)) in
      let t := {| kind := ReconnectTimer path ps; delay := reconnectDelay (this w) |} in
      this w' = set_reconnectInterval (Some id) (closed_service (this w)) /\
      timer_log w' = timer_log w ++ [t] /\
      timers w' = <[id := t]> (match reconnectInterval (this w) with
                               | Some old => delete old (timers w)
                               | None => timers w
                               end)
    else
      this w' = closed_service (this w) /\
      timer_log w' = timer_log w /\
      timers w' = timers w.
Proof.
  unfold onclose.
  cbn [bind console_log update modify with_console with_this].
  match goal with |- context [bind (emit ?e ?d) ?k ?w1] =>
    destruct (emit_spec e d w1) as (w2 & He & (Ht & Hs & Hti & Htl) & _);
    rewrite (bind_normal _ k _ _ _ He) end.
  cbn [bind gets this sockets timers timer_log with_this with_console] in *.
  rewrite Ht. cbn [reconnectAttempts maxReconnectAttempts set_socket set_isConnecting
                     set_isConnected].
  fold (retries code (this w)).
  destruct (retries code (this w)).
  - unfold scheduleReconnect, bind, gets. rewrite Ht.
    cbn [reconnectInterval closed_service set_socket set_isConnecting set_isConnected].
    destruct (reconnectInterval (this w)) as [old|];
      unfold clear_timer, console_log, update, set_timer, modify, ret;
      cbn [this sockets timers timer_log with_console with_this];
      rewrite ?Ht, ?Hs, ?Hti, ?Htl;
      (eexists; split; [reflexivity|]);
      cbn [this sockets timers timer_log with_console with_this];
      rewrite ?Ht, ?Hs, ?Hti, ?Htl; repeat split.
  - eexists. split; [reflexivity|]. repeat split; assumption.
Qed.





(** *** Which fields of the service an operation leaves alone *)

Section Keeps.
Context {X : Type} (f : WebSocketService U -> X).

Lemma keeps_ret {A} (a : A) : keeps f (ret a).
Proof. intros w. reflexivity. Qed.

Lemma keeps_throw {A} (e : exn) : keeps f (throw (A := A) e).
Proof. intros w. reflexivity. Qed.

Lemma keeps_gets {A} (g : World -> A) : keeps f (gets g).
Proof. intros w. reflexivity. Qed.

Lemma keeps_bind {A B} (c : js World A) (k : A -> js World B) :
  keeps f c -> (forall a, keeps f (k a)) -> keeps f (bind c k).
Proof.
  intros Hc Hk w. unfold bind. specialize (Hc w).
  destruct (c w) as [[a|e] w1]; cbn in *; [rewrite Hk|]; assumption.
Qed.

Lemma keeps_try_catch {A} (body : js World A) (handler : exn -> js World A) :
  keeps f body -> (forall e, keeps f (handler e)) -> keeps f (try_catch body handler).
Proof.
  intros Hb Hh w. unfold try_catch. specialize (Hb w).
  destruct (body w) as [[a|e] w1]; cbn in *; [|rewrite Hh]; assumption.
Qed.

Lemma keeps_forEach {A} (callback : A -> js World unit) (l : list A) :
  (forall a, keeps f (callback a)) -> keeps f (forEach callback l).
Proof.
  intros Hc. induction l as [|a l IH]; cbn [forEach].
  - apply keeps_ret.
  - apply keeps_bind; [apply Hc | intros _; exact IH].
Qed.

Lemma keeps_update (g : WebSocketService U -> WebSocketService U) :
  (forall s, f (g s) = f s) -> keeps f (update g).
Proof. intros Hg w. apply Hg. Qed.

Lemma keeps_console_log msg : keeps f (console_log msg).
Proof. intros w. reflexivity. Qed.

Lemma keeps_console_warn msg : keeps f (console_warn msg).
Proof. intros w. reflexivity. Qed.

Lemma keeps_console_error msg : keeps f (console_error msg).
Proof. intros w. reflexivity. Qed.

Lemma keeps_clear_timer id : keeps f (clear_timer id).
Proof. intros w. reflexivity. Qed.

Lemma keeps_set_timer t : keeps f (set_timer t).
Proof. intros w. reflexivity. Qed.

Lemma keeps_on_socket id g : keeps f (on_socket id g).
Proof. intros w. reflexivity. Qed.

Lemma keeps_emit event data : keeps f (emit event data).
Proof.
  intros w. destruct (emit_spec event data w) as (w' & -> & (Ht & _) & _).
  cbn. now rewrite Ht.
Qed.

Lemma keeps_JSON_stringify v : keeps f (Cache.JSON_stringify_js rt v).
Proof. intros w. unfold Cache.JSON_stringify_js. destruct (JSON_stringify rt v); reflexivity. Qed.

Lemma keeps_JSON_parse text : keeps f (Cache.JSON_parse_js rt text).
Proof. intros w. unfold Cache.JSON_parse_js. destruct (JSON_parse rt text); reflexivity. Qed.

Lemma keeps_get_prop v name : keeps f (get_prop v name).
Proof. intros w. destruct v; reflexivity. Qed.

Lemma keeps_new_WebSocket path ps full : keeps f (new_WebSocket rt path ps full).
Proof. intros w. unfold new_WebSocket. destruct (WebSocket_throws rt full ps); reflexivity. Qed.

End Keeps.

(** Break an operation into its statements; what is left are the field
    updates, each to be checked against the field at hand. *)
Ltac keeps_step :=
  first
    [ apply keeps_ret | apply keeps_throw | apply keeps_gets
    | apply keeps_console_log | apply keeps_console_warn | apply keeps_console_error
    | apply keeps_clear_timer | apply keeps_set_timer | apply keeps_on_socket
    | apply keeps_emit | apply keeps_JSON_stringify | apply keeps_JSON_parse
    | apply keeps_get_prop | apply keeps_new_WebSocket
    | apply keeps_bind | apply keeps_try_catch | apply keeps_forEach
    | apply keeps_update; intros ?;
      first [ reflexivity
            | match goal with
              | |- context [match ?x with _ => _ end] => destruct x; reflexivity
              end ]
    | match goal with
      | |- forall _, _ => intros ?
      | |- keeps _ (match ?x with _ => _ end) => destruct x
      | |- keeps _ (if ?x then _ else _) => destruct x
      end ].

Ltac keeps_auto := repeat keeps_step.

Lemma keeps_send {X} (f : WebSocketService U -> X) data : keeps f (send rt data).
Proof. unfold send. keeps_auto. Qed.

Lemma connect_keeps_limits path ps : keeps (U := U) limits (connect rt path ps).
Proof. unfold connect. keeps_auto. Qed.

Lemma connect_keeps_backoff path ps : keeps (U := U) backoff (connect rt path ps).
Proof. unfold connect. keeps_auto. Qed.

Lemma perform_keeps_limits c : keeps (U := U) limits (perform rt c).
Proof.
  destruct c; cbn [perform];
    unfold connect, disconnect, on, off, startHeartbeat, stopHeartbeat;
    try apply keeps_send; keeps_auto.
Qed.

Lemma deliver_keeps_limits e : keeps (U := U) limits (deliver rt e).
Proof.
  destruct e; cbn [deliver];
    unfold onopen, onmessage, onclose, onerror, reconnect_callback, heartbeat_callback,
           scheduleReconnect, connect;
    keeps_auto; try apply keeps_send; keeps_auto.
Qed.

(** In every state the service can be in, the limits are the
    constructor's: five attempts, thirty seconds. *)
Lemma reachable_limits (w : World) :
  reachable rt w ->
  maxReconnectAttempts (this w) = 5%nat /\ maxReconnectDelay (this w) = 30000.
Proof.
  intros H.
  assert (Hl : limits (this w) = (5%nat, 30000)).
  { induction H as [u | c w _ IH | e w _ IH].
    - reflexivity.
    - now rewrite perform_keeps_limits.
    - now rewrite deliver_keeps_limits. }
  unfold limits in Hl. now inversion Hl.
Qed.

(** *** Close events, the reconnect timer, open events *)

Lemma onerror_spec (id : nat) (w : World) :
  exists w',
    onerror id w = (Normal tt, w') /\
    this w' = set_isConnecting false (this w) /\
    sockets w' = alter (settle false) id (sockets w) /\
    timers w' = timers w /\ timer_log w' = timer_log w.
Proof.
  unfold onerror.
  cbn [bind console_error update modify with_console with_this].
  match goal with |- context [bind (emit ?e ?d) ?k ?w1] =>
    destruct (emit_spec e d w1) as (w2 & He & (Ht & Hs & Hti & Htl) & _);
    rewrite (bind_normal _ k _ _ _ He) end.
  cbn [this sockets timers timer_log with_this with_console] in *.
  eexists. split; [reflexivity|].
  cbn. rewrite Ht, Hs, Hti, Htl. repeat split.
Qed.

Lemma closed_service_idem (s : WebSocketService U) :
  closed_service (set_isConnecting false s) = closed_service s.
Proof. reflexivity. Qed.

(** What a close event does to a socket that is not closed yet: the
    service forgets its socket and clears its flags, and a reconnect timer
    is set, with the current delay, exactly when [retries] says so. *)
Lemma deliver_close_spec (e : event) (id : nat) (code : Z) (s : Socket) (w : World) :
  closes e id code ->
  sockets w !! id = Some s ->
  readyState s <> CLOSED ->
  exists w',
    deliver rt e w = (Normal tt, w') /\
    length (sockets w') = length (sockets w) /\
    (forall j, j <> id -> sockets w' !! j = sockets w !! j) /\
    (exists s', sockets w' !! id = Some s' /\ readyState s' = CLOSED) /\
    if retries code (this w) then
      let tid := S (length (timer_log w)) in
      let t := {| kind := ReconnectTimer (url s) (protocols s);
                  delay := reconnectDelay (this w) |} in
      this w' = set_reconnectInterval (Some tid) (closed_service (this w)) /\
      timer_log w' = timer_log w ++ [t] /\
      timers w' = <[tid := t]> (match reconnectInterval (this w) with
                                | Some old => delete old (timers w)
                                | None => timers w
                                end)
    else
      this w' = closed_service (this w) /\
      timer_log w' = timer_log w /\
      timers w' = timers w.
Proof.
  intros (reason & [-> | ->]) Hs Hr.
  - unfold deliver. unfold bind at 1. cbn [gets]. rewrite Hs.
    assert (Hgo : forall k : js World unit,
              match readyState s with CLOSED => ret tt | _ => k end = k)
      by (intros k; destruct (readyState s); congruence).
    rewrite Hgo. unfold bind at 1, on_socket, modify.
    match goal with |- context [onclose ?p ?ps ?c ?r ?w1] =>
      destruct (onclose_spec p ps c r w1) as (w' & -> & Hso & H) end.
    exists w'. split; [reflexivity|].
    cbn [this sockets timers timer_log with_sockets] in *.
    rewrite Hso. split; [apply length_alter|].
    split; [intros j Hj; apply list_lookup_alter_ne; congruence|].
    split; [exists (with_readyState CLOSED s); rewrite list_lookup_alter_eq, Hs; split; reflexivity|].
    exact H.
  - unfold deliver. unfold bind at 1. cbn [gets]. rewrite Hs.
    assert (Hgo : forall k : js World unit,
              match readyState s with CLOSED => ret tt | _ => k end = k)
      by (intros k; destruct (readyState s); congruence).
    rewrite Hgo. unfold bind at 1, on_socket, modify.
    unfold bind at 1, try_catch.
    match goal with |- context [onerror ?i ?w1] =>
      destruct (onerror_spec i w1) as (w1' & -> & Ht1 & Hs1 & Hti1 & Htl1) end.
    destruct (onclose_spec (url s) (protocols s) code reason w1') as (w' & -> & Hso & H).
    exists w'. split; [reflexivity|].
    cbn [this sockets timers timer_log with_sockets] in *.
    rewrite Hso, Hs1. rewrite !length_alter. split; [reflexivity|].
    split; [intros j Hj; rewrite !list_lookup_alter_ne by congruence; reflexivity|].
    split.
    { eexists. rewrite !list_lookup_alter_eq, Hs. split; [reflexivity|].
      cbn. unfold settle. destruct (settled _); reflexivity. }
    rewrite Ht1, Hti1, Htl1 in H.
    assert (Hre : retries code (set_isConnecting false (this w)) = retries code (this w))
      by reflexivity.
    rewrite Hre, closed_service_idem in H. exact H.
Qed.

Lemma reconnect_callback_backoff (path : string) (ps : list string) (w : World) :
  backoff (this (reconnect_callback rt path ps w).2) =
    (S (reconnectAttempts (this w)),
     Z.min (reconnectDelay (this w) * 2) (maxReconnectDelay (this w))).
Proof.
  unfold reconnect_callback.
  unfold bind at 1. cbn [update modify].
  unfold bind at 1. cbn [update modify].
  match goal with |- backoff (this (?c ?w1).2) = _ =>
    assert (Hk : keeps backoff c)
      by (apply keeps_bind; [apply connect_keeps_backoff | intros p; destruct p; keeps_auto]);
    rewrite (Hk w1) end.
  reflexivity.
Qed.

Lemma onopen_backoff (id : nat) (w : World) :
  backoff (this (onopen rt id w).2) = (0%nat, 1000).
Proof.
  unfold onopen.
  do 5 (unfold bind at 1; cbn [console_log update modify]).
  match goal with |- backoff (this (?c ?w1).2) = _ =>
    assert (Hk : keeps backoff c)
      by (keeps_auto; try apply keeps_send; keeps_auto);
    rewrite (Hk w1) end.
  reflexivity.
Qed.

(** C4.  In every state the service can be in: (a) a close event with a
    code other than 1000, on a socket not yet closed, while fewer than 5
    attempts were made, sets a reconnect timer for the socket's own URL with
    the current [reconnectDelay]; (b) when that timer fires the attempt
    counter grows by one and the delay doubles, capped at 30000; (c) an open
    event resets the counter to 0 and the delay to 1000; (d) these are the
    constructor's values too. *)
Theorem C4_unclean_close_schedules_backoff_reconnect (w : World) :
  reachable rt w ->
  (forall e id code s,
     closes e id code -> sockets w !! id = Some s -> readyState s <> CLOSED ->
     code <> 1000 -> (reconnectAttempts (this w) < 5)%nat ->
     let w' := (deliver rt e w).2 in
     let tid := S (length (timer_log w)) in
     let t := {| kind := ReconnectTimer (url s) (protocols s);
                 delay := reconnectDelay (this w) |} in
     timer_log w' = timer_log w ++ [t] /\
     reconnectInterval (this w') = Some tid /\
     timers w' !! tid = Some t) /\
  (forall tid path ps d now,
     timers w !! tid = Some {| kind := ReconnectTimer path ps; delay := d |} ->
     let w' := (deliver rt (TimerFire tid now) w).2 in
     reconnectAttempts (this w') = S (reconnectAttempts (this w)) /\
     reconnectDelay (this w') = Z.min (reconnectDelay (this w) * 2) 30000) /\
  (forall id s,
     sockets w !! id = Some s -> readyState s = CONNECTING ->
     let w' := (deliver rt (SocketOpen id) w).2 in
     reconnectAttempts (this w') = 0%nat /\ reconnectDelay (this w') = 1000) /\
  reconnectAttempts (this (initial (user w))) = 0%nat /\
  reconnectDelay (this (initial (user w))) = 1000.
Proof.
  intros Hreach. destruct (reachable_limits w Hreach) as [Hmax Hcap].
  split; [|split; [|split; [|split; reflexivity]]].
  - intros e id code s He Hs Hr Hcode Hlt w' tid t.
    destruct (deliver_close_spec e id code s w He Hs Hr) as (w1 & Hrun & _ & _ & _ & H).
    assert (Hretry : retries code (this w) = true).
    { unfold retries. rewrite Hmax.
      apply andb_true_intro. split.
      - apply negb_true_iff, Z.eqb_neq, Hcode.
      - apply Nat.ltb_lt, Hlt. }
    rewrite Hretry in H. cbv zeta in H. destruct H as (Ht & Hl & Hti).
    subst w'. rewrite Hrun. cbn [snd]. rewrite Ht, Hl, Hti.
    repeat split. apply lookup_insert_eq.
  - intros tid path ps d now Ht w'.
    assert (Hb : backoff (this w') =
                 (S (reconnectAttempts (this w)), Z.min (reconnectDelay (this w) * 2) 30000)).
    { subst w'. unfold deliver. unfold bind at 1. cbn [gets]. rewrite Ht.
      cbn [fmap option_fmap option_map kind].
      unfold bind at 1. cbn [clear_timer modify].
      rewrite reconnect_callback_backoff. cbn [this]. now rewrite Hcap. }
    unfold backoff in Hb. injection Hb as Ha Hd. split; assumption.
  - intros id s Hs Hr w'.
    assert (Hb : backoff (this w') = (0%nat, 1000)).
    { subst w'. unfold deliver. unfold bind at 1. cbn [gets]. rewrite Hs.
      cbn [fmap option_fmap option_map]. rewrite Hr.
      unfold bind at 1, on_socket, modify.
      apply onopen_backoff. }
    unfold backoff in Hb. injection Hb as Ha Hd. split; assumption.
Qed.

(** *** Automatic recovery, round by round *)

Lemma connect_fresh (path : string) (ps : list string) (w : World) :
  isConnecting (this w) = false ->
  isConnected (this w) = false ->
  WebSocket_throws rt (getWebSocketUrl rt path) ps = false ->
  connect rt path ps w =
    (Normal (Promise_of_socket (length (sockets w))),
     with_this (set_socket (Some (length (sockets w))))
       (with_sockets
          (fun l => l ++ [{| url := path; protocols := ps;
                             wsUrl := getWebSocketUrl rt path;
                             readyState := CONNECTING; sent := [];
                             close_code := None; settled := None |}])
          (with_console (ConsoleLog "Connecting to WebSocket: ")
             (with_this (set_isConnecting true) w)))).
Proof.
  intros H1 H2 H3. unfold connect, bind. cbn [gets]. rewrite H1, H2. cbn [orb].
  cbn [update console_log modify]. unfold try_catch, new_WebSocket.
  cbn [with_console with_this sockets]. rewrite H3. reflexivity.
Qed.






(** *** The attempt counter in every state *)









































End WSFacts.

(** *** The service on concrete runs *)

Lemma replay_reachable {U : Type} (rt : Runtime) steps : forall w : WS.World U,
  WS.reachable rt w -> WS.reachable rt (replay rt steps w).
Proof.
  induction steps as [|[c|e] steps IH]; intros w Hw; [exact Hw| |];
    cbn [replay fold_left]; apply IH; constructor; exact Hw.
Qed.

Lemma connecting_world_reachable : WS.reachable RefRuntime.runtime connecting_world.
Proof. apply replay_reachable. constructor. Qed.

Lemma open_world_reachable : WS.reachable RefRuntime.runtime open_world.
Proof. apply replay_reachable, connecting_world_reachable. Qed.



(** C4 on the first refused connection of a fresh service: the reconnect
    is set for 1000 ms. *)
Lemma C4_witness :
  let w' := (WS.deliver RefRuntime.runtime (WS.SocketFail 0 1006 "") connecting_world).2 in
  let t := {| WS.kind := WS.ReconnectTimer dashboard_path []; WS.delay := 1000 |} in
  WS.timer_log w' = WS.timer_log connecting_world ++ [t] /\
  WS.reconnectInterval (WS.this w') = Some 1%nat /\
  WS.timers w' !! 1%nat = Some t.
Proof.
  refine (proj1 (C4_unclean_close_schedules_backoff_reconnect RefRuntime.runtime
                   connecting_world connecting_world_reachable)
            (WS.SocketFail 0 1006 "") 0%nat 1006
            {| WS.url := dashboard_path; WS.protocols := [];
               WS.wsUrl := "wss://perf.example.org/ws/dashboard/";
               WS.readyState := WS.CONNECTING; WS.sent := [];
               WS.close_code := None; WS.settled := None |} _ _ _ _ _).
  - exists "". right. reflexivity.
  - vm_compute. reflexivity.
  - discriminate.
  - discriminate.
  - vm_compute. lia.
Defined.


(** C6 on a second [connect] while the first is in flight. *)
Lemma C6_witness :
  WS.connect RefRuntime.runtime dashboard_path [] connecting_world =
    (Normal WS.Promise_resolved,
     WS.with_console (ConsoleLog "WebSocket already connecting or connected")
       connecting_world).
Proof.
  apply (C6_connect_while_busy_is_a_noop RefRuntime.runtime dashboard_path []
           connecting_world).
  left. reflexivity.
Defined.

(** C6 as stated fails twice.  The second [connect] does not return the
    outcome of the attempt in flight: the first call's promise is pending
    on socket 0 while the second call's is resolved already.  And two
    transports can be live at once: connect, open, disconnect, connect
    again, then the close event of the first socket arrives and clears the
    flags, and the next connect opens a transport beside the live one. *)
Lemma C6_counterexample_resolved_promise_and_two_transports :
  let rt := RefRuntime.runtime in
  let first := WS.connect rt dashboard_path [] (WS.initial 0%nat) in
  let second := WS.connect rt dashboard_path [] first.2 in
  let w := replay rt [inl (WS.Connect dashboard_path []); inr (WS.SocketOpen 0);
                      inl WS.Disconnect; inl (WS.Connect dashboard_path []);
                      inr (WS.SocketClose 0 1000 "");
                      inl (WS.Connect dashboard_path [])] (WS.initial 0%nat) in
  first.1 = Normal (WS.Promise_of_socket 0) /\
  (WS.settled <$> WS.sockets second.2 !! 0%nat) = Some None /\
  second.1 = Normal WS.Promise_resolved /\
  (WS.readyState <$> WS.sockets w) = [WS.CLOSED; WS.CONNECTING; WS.CONNECTING] /\
  WS.live_transports w = 2%nat.
Proof. run_model. Qed.


(** C10 on an open service that receives text that is not JSON. *)
Lemma C10_witness :
  WS.onmessage RefRuntime.runtime "not json" open_world =
    (Normal tt, WS.with_console (ConsoleError "Error parsing WebSocket message:") open_world).
Proof.
  apply (C10_unparsable_message_fires_nothing RefRuntime.runtime "not json" 0%nat open_world).
  vm_compute. reflexivity.
Defined.

(** *** Further runs of the service *)

(** The heartbeat pings while the socket is open and is silent after
    [disconnect], though its timer still fires. *)
Example heartbeat_pings_only_while_connected :
  let rt := RefRuntime.runtime in
  let ping := RefRuntime.print (JObj [("type", JStr "ping"); ("timestamp", JNum 5000)]) in
  let subscribe := RefRuntime.print (JObj [("type", JStr "subscribe_all")]) in
  (WS.sent <$> WS.sockets (replay rt [inr (WS.TimerFire 1 5000)] open_world))
    = [[subscribe; ping]] /\
  (WS.sent <$> WS.sockets (replay rt [inl WS.Disconnect; inr (WS.TimerFire 1 5000)] open_world))
    = [[subscribe]].
Proof. run_model. Qed.

(** [off] removes the first registration of the callback only. *)
Example off_removes_first_registration :
  let w := replay RefRuntime.runtime
             [inl (WS.On "a" throwing); inl (WS.On "a" counting);
              inl (WS.On "a" throwing); inl (WS.Off "a" throwing)] (WS.initial 0%nat) in
  (WS.hid <$> default [] (WS.listeners (WS.this w) !! "a")) = [2%nat; 1%nat].
Proof. run_model. Qed.

(** A message with a [type] fires the generic event, then the typed one. *)
Example typed_message_fires_two_events :
  let rt := RefRuntime.runtime in
  let data := JObj [("type", JStr "metrics_update"); ("hostname", JStr "web1")] in
  let w0 := replay rt [inl (WS.On "metrics_update" counting)] open_world in
  let w := replay rt [inr (WS.SocketMessage 0 (RefRuntime.print data))] w0 in
  WS.emitted w = WS.emitted w0 ++ [(JStr "message", data); (JStr "metrics_update", data)] /\
  WS.calls w = [(2%nat, data)].
Proof. run_model. Qed.

(* ===================================================================== *)
(** ** More facts about the cache *)
(* ===================================================================== *)

Section MoreCacheFacts.
Import Cache.
Variable rt : Runtime.

Lemma shrinks_refl m : shrinks m m.
Proof. intros k. now left. Qed.

Lemma shrinks_trans m1 m2 m3 : shrinks m1 m2 -> shrinks m2 m3 -> shrinks m1 m3.
Proof.
  intros H12 H23 k. destruct (H23 k) as [E|[Hp E]].
  - rewrite E. apply H12.
  - right. now split.
Qed.

Lemma shrinks_delete m k : String.prefix "pyperf_" k = true -> shrinks m (delete k m).
Proof.
  intros Hp k'. destruct (decide (k' = k)) as [->|Hne].
  - right. split; [exact Hp | apply lookup_delete_eq].
  - left. now apply lookup_delete_ne.
Qed.

Lemma removeItem_shrinks k (w : World) :
  String.prefix "pyperf_" k = true ->
  shrinks (storage w) (storage (localStorage_removeItem rt k w).2).
Proof.
  intros Hp. unfold localStorage_removeItem.
  destruct (storage_throws rt (storage w) (OpRemoveItem k)); simpl.
  - apply shrinks_refl.
  - now apply shrinks_delete.
Qed.

Lemma clearCache_shrinks k (w : World) :
  String.prefix "pyperf_" k = true ->
  shrinks (storage w) (storage (clearCache rt k w).2).
Proof.
  intros Hp. unfold clearCache, try_catch, localStorage_removeItem.
  destruct (storage_throws rt (storage w) (OpRemoveItem k)); simpl.
  - apply shrinks_refl.
  - now apply shrinks_delete.
Qed.

Lemma forEach_shrinks (f : string -> js World unit) (keys : list string) :
  (forall k w, shrinks (storage w) (storage (f k w).2)) ->
  forall w, shrinks (storage w) (storage (forEach f keys w).2).
Proof.
  intros Hf. induction keys as [|k keys IH]; intros w; [apply shrinks_refl|].
  cbn [forEach]. unfold bind. specialize (Hf k w).
  destruct (f k w) as [[[]|e] w1]; simpl in *.
  - eapply shrinks_trans; [exact Hf | apply IH].
  - exact Hf.
Qed.

Lemma forEach_completes_with {S A} (f : A -> js S unit) (l : list A) :
  (forall a s, exists s', f a s = (Normal tt, s')) ->
  forall s, exists s', forEach f l s = (Normal tt, s').
Proof.
  intros Hf. induction l as [|a l IH]; intros s; [eexists; reflexivity|].
  cbn [forEach]. unfold bind. destruct (Hf a s) as [s1 ->]. apply IH.
Qed.

Lemma sweep_shrinks (keys : list string) (w : World) :
  shrinks (storage w)
    (storage (forEach (fun key => if String.prefix "pyperf_" key
                                  then localStorage_removeItem rt key
                                  else ret tt) keys w).2).
Proof.
  apply forEach_shrinks. intros k w1.
  destruct (String.prefix "pyperf_" k) eqn:Hp; [now apply removeItem_shrinks|].
  apply shrinks_refl.
Qed.

Lemma sweep_removes (keys : list string) :
  (forall m op, storage_throws rt m op = false) ->
  forall w : World, exists w',
    forEach (fun key => if String.prefix "pyperf_" key
                        then localStorage_removeItem rt key
                        else ret tt) keys w = (Normal tt, w') /\
    forall k, k ∈ keys -> String.prefix "pyperf_" k = true -> storage w' !! k = None.
Proof.
  intros Hnt. induction keys as [|k0 keys IH]; intros w.
  - exists w. split; [reflexivity|]. intros k Hin. inversion Hin.
  - cbn [forEach]. unfold bind.
    destruct (String.prefix "pyperf_" k0) eqn:Hp0.
    + unfold localStorage_removeItem at 1. rewrite Hnt.
      destruct (IH (set_storage (delete k0 (storage w)) w)) as (w' & Hrun & Hgone).
      exists w'. split; [exact Hrun|].
      intros k Hin Hp. apply elem_of_cons in Hin as [->|Hin]; [|now apply Hgone].
      pose proof (sweep_shrinks keys (set_storage (delete k0 (storage w)) w)) as Hs.
      rewrite Hrun in Hs. cbn [snd] in Hs. destruct (Hs k0) as [E|[_ E]]; [|exact E].
      rewrite E. simpl. apply lookup_delete_eq.
    + cbn [ret]. destruct (IH w) as (w' & Hrun & Hgone).
      exists w'. split; [exact Hrun|].
      intros k Hin Hp. apply elem_of_cons in Hin as [->|Hin]; [congruence|now apply Hgone].
Qed.

(** X1.  [clearAllCaches] never throws; whatever the storage does, it leaves
    every key outside the [pyperf_] namespace as it was and adds nothing; on
    a storage that answers every call, no namespaced key is left. *)
Theorem clearAllCaches_removes_the_namespace_only (w : World) :
  exists w',
    clearAllCaches rt w = (Normal tt, w') /\
    (forall k, String.prefix "pyperf_" k = false -> storage w' !! k = storage w !! k) /\
    storage w' ⊆ storage w /\
    ((forall m op, storage_throws rt m op = false) ->
     forall k, String.prefix "pyperf_" k = true -> storage w' !! k = None).
Proof.
  unfold clearAllCaches. unfold bind at 1.
  destruct (forEach_completes_with (clearCache rt) CACHE_KEYS_values
              (clearCache_completes rt) w) as [w1 H1].
  assert (Hs1 : shrinks (storage w) (storage w1)).
  { pose proof (forEach_shrinks (clearCache rt) CACHE_KEYS_values) as Hs.
    replace w1 with (forEach (clearCache rt) CACHE_KEYS_values w).2 by now rewrite H1.
    (* the three fixed keys are namespaced *)
    unfold CACHE_KEYS_values. cbn [forEach]. unfold bind.
    pose proof (clearCache_shrinks CACHE_KEYS_DASHBOARD w eq_refl) as Ha.
    destruct (clearCache_completes rt CACHE_KEYS_DASHBOARD w) as [wa Ea].
    rewrite Ea in Ha |- *. simpl in Ha.
    pose proof (clearCache_shrinks CACHE_KEYS_HOST_METRICS wa eq_refl) as Hb.
    destruct (clearCache_completes rt CACHE_KEYS_HOST_METRICS wa) as [wb Eb].
    rewrite Eb in Hb |- *. simpl in Hb.
    pose proof (clearCache_shrinks CACHE_KEYS_SYSTEM_DATA wb eq_refl) as Hc.
    destruct (clearCache_completes rt CACHE_KEYS_SYSTEM_DATA wb) as [wc Ec].
    rewrite Ec in Hc |- *. simpl in Hc. simpl.
    eapply shrinks_trans; [|exact Hc]. eapply shrinks_trans; eassumption. }
  rewrite H1. unfold try_catch, bind, Object_keys_localStorage.
  destruct (storage_throws rt (storage w1) OpKeys) eqn:Hkeys.
  - (* Object.keys throws: only the three fixed keys were cleared *)
    cbn [console_warn modify]. eexists. split; [reflexivity|]. cbn [storage].
    split; [|split].
    + intros k Hp. destruct (Hs1 k) as [E|[Hp' _]]; [exact E|congruence].
    + apply map_subseteq_spec. intros k v Hk.
      destruct (Hs1 k) as [E|[_ E]]; congruence.
    + intros Hnt. rewrite Hnt in Hkeys. discriminate.
  - set (keys := (map_to_list (storage w1)).*1).
    pose proof (sweep_shrinks keys w1) as Hs2.
    set (sweep := forEach _ keys) in *.
    assert (Hs : forall w2, storage w2 = storage (sweep w1).2 ->
                 (forall k, String.prefix "pyperf_" k = false -> storage w2 !! k = storage w !! k) /\
                 storage w2 ⊆ storage w).
    { intros w2 E2. pose proof (shrinks_trans _ _ _ Hs1 Hs2) as Hall. rewrite <- E2 in Hall.
      split.
      - intros k Hp. destruct (Hall k) as [E|[Hp' _]]; [exact E|congruence].
      - apply map_subseteq_spec. intros k v Hk.
        destruct (Hall k) as [E|[_ E]]; congruence. }
    destruct (sweep w1) as [[[]|e] w2] eqn:Hsweep.
    + exists w2. split; [reflexivity|]. destruct (Hs w2 eq_refl) as [Ha Hb].
      split; [exact Ha|]. split; [exact Hb|].
      intros Hnt k Hp.
      destruct (sweep_removes keys Hnt w1) as (w2' & Hrun & Hgone).
      fold sweep in Hrun. rewrite Hsweep in Hrun. injection Hrun as <-.
      destruct (storage w1 !! k) as [text|] eqn:Hk.
      * apply Hgone; [|exact Hp]. apply list_elem_of_fmap. exists (k, text).
        split; [reflexivity | now apply elem_of_map_to_list].
      * simpl in Hs2. destruct (Hs2 k) as [E|[_ E]]; congruence.
    + cbn [console_warn modify]. eexists. split; [reflexivity|]. cbn [storage].
      destruct (Hs w2 eq_refl) as [Ha Hb].
      split; [exact Ha|]. split; [exact Hb|].
      intros Hnt. destruct (sweep_removes keys Hnt w1) as (w2' & Hrun & _).
      fold sweep in Hrun. rewrite Hsweep in Hrun. discriminate.
Qed.

End MoreCacheFacts.

Section StatsFacts.
Import Cache.
Variable rt : Runtime.

Lemma getCacheStats_entry_frame now k (w : World) st :
  exists r st', getCacheStats_entry rt now k (w, st) = (r, (w, st')).
Proof.
  unfold getCacheStats_entry.
  destruct (String.prefix "pyperf_" k); [|eexists _, _; reflexivity].
  unfold bind at 1. cbn [update_local modify fst snd].
  unfold bind at 1. unfold lift at 1. cbn [fst snd].
  unfold localStorage_getItem.
  destruct (storage_throws rt (storage w) (OpGetItem k)); [eexists _, _; reflexivity|].
  destruct (storage w !! k) as [text|]; [|eexists _, _; reflexivity].
  unfold try_catch, bind, JSON_parse_js. cbn [ret update_local modify fst snd].
  destruct (JSON_parse rt text) as [item|]; [|eexists _, _; reflexivity].
  destruct item; cbn; eexists _, _; reflexivity.
Qed.

Lemma getCacheStats_loop_frame now keys (w : World) :
  forall st, exists r st', forEach (getCacheStats_entry rt now) keys (w, st) = (r, (w, st')).
Proof.
  induction keys as [|k keys IH]; intros st; [eexists _, _; reflexivity|].
  cbn [forEach]. unfold bind.
  destruct (getCacheStats_entry_frame now k w st) as (r & st1 & ->).
  destruct r as [[]|e]; [apply IH | eexists _, _; reflexivity].
Qed.

(** X2.  [getCacheStats] only reads: on every runtime and in every world it
    returns statistics, never throws and leaves the storage as it is; a
    failure of the storage costs one [console.warn] line. *)
Theorem getCacheStats_only_reads now (w : World) :
  exists st w',
    getCacheStats rt now w = (Normal st, w') /\
    storage w' = storage w /\
    (w' = w \/ w' = warned "Failed to get cache stats:" w).
Proof.
  unfold getCacheStats, bind, with_local, try_catch, lift, Object_keys_localStorage.
  cbn [fst snd].
  destruct (storage_throws rt (storage w) OpKeys).
  - cbn. eexists _, _. split; [reflexivity|]. split; [reflexivity|]. now right.
  - cbn [update_local modify fst snd].
    match goal with |- context [forEach _ ?keys (w, ?st0)] =>
      destruct (getCacheStats_loop_frame now keys w st0) as (r & st' & ->) end.
    destruct r as [[]|e]; cbn.
    + eexists _, _. split; [reflexivity|]. split; [reflexivity|]. now left.
    + eexists _, _. split; [reflexivity|]. split; [reflexivity|]. now right.
Qed.

Hypothesis never_throws : forall m op, storage_throws rt m op = false.
Hypothesis empty_text_is_not_JSON : JSON_parse rt "" = None.

Lemma getCacheStats_entry_counts now k (w : World) st text :
  storage w !! k = Some text ->
  exists st',
    getCacheStats_entry rt now k (w, st) = (Normal tt, (w, st')) /\
    totalEntries st' = totalEntries st /\
    pyperfEntries st' = (pyperfEntries st + length (namespaced [k]))%nat /\
    totalSize st' = (totalSize st + namespaced_size (storage w) [k])%nat /\
    CacheDebugger.expiredCount st' =
      (CacheDebugger.expiredCount st + count_verdict rt now (storage w) Dropped [k])%nat.
Proof.
  intros Hk. unfold getCacheStats_entry, namespaced, CacheDebugger.expiredCount.
  cbn [namespaced_size count_verdict List.filter]. rewrite Hk.
  destruct (String.prefix "pyperf_" k).
  2:{ exists st. split; [reflexivity|].
      destruct (verdict_of rt now (Some text)); cbn; repeat split; lia. }
  unfold bind at 1. cbn [update_local modify fst snd].
  unfold bind at 1. unfold lift at 1. cbn [fst snd].
  rewrite (getItem_ok rt k w (never_throws _ _)), Hk.
  unfold try_catch, bind, JSON_parse_js. cbn [ret update_local modify fst snd default].
  unfold verdict_of. cbn [no_text default].
  destruct (String.eqb_spec text "") as [->|Hne].
  { rewrite empty_text_is_not_JSON. cbn. eexists. split; [reflexivity|].
    cbn. repeat split; lia. }
  change (id text) with text.
  destruct (JSON_parse rt text) as [item|].
  2:{ cbn. eexists. split; [reflexivity|]. cbn. repeat split; lia. }
  destruct item as [| |b|n|str|items|fields]; cbn [get_prop ret throw];
    (eexists; split; [reflexivity|]);
    cbn [totalEntries pyperfEntries totalSize entries];
    rewrite ?List.filter_app, ?length_app;
    cbn [List.filter expired ToNumber js_sub js_gt];
    try destruct (js_gt _ _); try destruct (not_null _); cbn; repeat split; lia.
Qed.

Lemma getCacheStats_loop_counts now keys (w : World) :
  Forall (fun k => is_Some (storage w !! k)) keys ->
  forall st, exists st',
    forEach (getCacheStats_entry rt now) keys (w, st) = (Normal tt, (w, st')) /\
    totalEntries st' = totalEntries st /\
    pyperfEntries st' = (pyperfEntries st + length (namespaced keys))%nat /\
    totalSize st' = (totalSize st + namespaced_size (storage w) keys)%nat /\
    CacheDebugger.expiredCount st' =
      (CacheDebugger.expiredCount st + count_verdict rt now (storage w) Dropped keys)%nat.
Proof.
  induction 1 as [|k keys [text Hk] _ IH]; intros st.
  - exists st. cbn. repeat split; lia.
  - cbn [forEach]. unfold bind.
    destruct (getCacheStats_entry_counts now k w st text Hk)
      as (st1 & -> & H1 & H2 & H3 & H4).
    destruct (IH st1) as (st' & -> & H1' & H2' & H3' & H4').
    exists st'. split; [reflexivity|].
    rewrite H1', H2', H3', H4', H1, H2, H3, H4.
    unfold namespaced in *. cbn [List.filter namespaced_size count_verdict].
    destruct (String.prefix "pyperf_" k);
      destruct (verdict_of rt now (storage w !! k)); cbn [length]; repeat split; lia.
Qed.

(** X3.  On a storage that answers every call, [getCacheStats] changes
    nothing and counts what the storage holds: [totalEntries] is the number
    of keys, [pyperfEntries] the number of namespaced keys, [totalSize] the
    total length of their texts, and the rows flagged [expired] (the
    debugger's [expiredCount]) are as many as the namespaced entries that
    [getCache] would remove at that time. *)
Theorem getCacheStats_counts now (w : World) :
  let keys := (map_to_list (storage w)).*1 in
  exists st,
    getCacheStats rt now w = (Normal st, w) /\
    totalEntries st = base.size (storage w) /\
    pyperfEntries st = length (namespaced keys) /\
    totalSize st = namespaced_size (storage w) keys /\
    CacheDebugger.expiredCount st = count_verdict rt now (storage w) Dropped keys.
Proof.
  intros keys.
  unfold getCacheStats, bind, with_local, try_catch, lift, Object_keys_localStorage.
  cbn [fst snd]. rewrite never_throws. fold keys.
  cbn [update_local modify fst snd].
  match goal with |- context [forEach _ keys (w, ?st0)] =>
    destruct (getCacheStats_loop_counts now keys w (keys_present (storage w)) st0)
      as (st' & -> & H1 & H2 & H3 & H4) end.
  cbn. exists st'. split; [reflexivity|].
  rewrite H1, H2, H3, H4. cbn.
  unfold keys. rewrite length_fmap, length_map_to_list. repeat split; lia.
Qed.

End StatsFacts.

Section CleanupAndStats.
Import Cache.
Variable rt : Runtime.
Hypothesis never_throws : forall m op, storage_throws rt m op = false.
Hypothesis empty_text_is_not_JSON : JSON_parse rt "" = None.





End CleanupAndStats.

Section CacheComposition.
Import Cache.
Variable rt : Runtime.

Lemma setCache_touches_one_key k d t now (w : World) k' :
  k' <> k -> storage (setCache rt k d t now w).2 !! k' = storage w !! k'.
Proof.
  intros Hne. unfold setCache, try_catch, bind, JSON_stringify_js.
  destruct (JSON_stringify rt (cacheItem_of d now t)) as [text|]; [|reflexivity].
  cbn [ret]. unfold localStorage_setItem.
  destruct (storage_throws rt (storage w) (OpSetItem k text)); [reflexivity|].
  cbn. apply lookup_insert_ne. congruence.
Qed.

Lemma clearCache_touches_one_key k (w : World) k' :
  k' <> k -> storage (clearCache rt k w).2 !! k' = storage w !! k'.
Proof.
  intros Hne. unfold clearCache, try_catch, localStorage_removeItem.
  destruct (storage_throws rt (storage w) (OpRemoveItem k)); [reflexivity|].
  cbn. apply lookup_delete_ne. congruence.
Qed.

Lemma getCache_touches_one_key k now (w : World) k' :
  k' <> k -> storage (getCache rt k now w).2 !! k' = storage w !! k'.
Proof.
  intros Hne. unfold getCache, try_catch, bind, localStorage_getItem.
  destruct (storage_throws rt (storage w) (OpGetItem k)); [reflexivity|].
  destruct (no_text (storage w !! k)); [reflexivity|].
  unfold JSON_parse_js.
  destruct (JSON_parse rt (default "" (storage w !! k))) as [item|]; [|reflexivity].
  destruct item as [| |b|n|str|items|fields]; cbn [ret get_prop throw]; try reflexivity;
    destruct (js_gt _ _); try reflexivity;
    unfold localStorage_removeItem;
    destruct (storage_throws rt (storage w) (OpRemoveItem k)); try reflexivity;
    cbn; apply lookup_delete_ne; congruence.
Qed.

(** What [getCache] returns for a key depends on the text under that key
    only, when the storage answers. *)
Lemma getCache_local k now (w1 w2 : World) :
  (forall m op, storage_throws rt m op = false) ->
  storage w1 !! k = storage w2 !! k ->
  (getCache rt k now w1).1 = (getCache rt k now w2).1.
Proof.
  intros Hnt Hk. unfold getCache, try_catch, bind.
  rewrite !(getItem_ok rt k _ (Hnt _ _)), Hk.
  destruct (no_text (storage w2 !! k)); [reflexivity|].
  unfold JSON_parse_js.
  destruct (JSON_parse rt (default "" (storage w2 !! k))) as [item|]; [|reflexivity].
  destruct item as [| |b|n|str|items|fields]; cbn [ret get_prop throw]; try reflexivity;
    destruct (js_gt _ _); try reflexivity;
    unfold localStorage_removeItem; rewrite !Hnt; reflexivity.
Qed.

(** X5.  Cache entries do not interfere: writing, reading (which may evict)
    or clearing the entry under one key leaves the text under every other
    key as it was, on every runtime; and when the storage answers, what
    [getCache] returns for the other key is the same before and after. *)
Theorem cache_keys_do_not_interfere
    (k k' : string) (d : jsval) (t now now' : Z) (w : World) :
  k' <> k ->
  let after_write := (setCache rt k d t now w).2 in
  let after_read := (getCache rt k now w).2 in
  let after_clear := (clearCache rt k w).2 in
  (storage after_write !! k' = storage w !! k' /\
   storage after_read !! k' = storage w !! k' /\
   storage after_clear !! k' = storage w !! k') /\
  ((forall m op, storage_throws rt m op = false) ->
   (getCache rt k' now' after_write).1 = (getCache rt k' now' w).1 /\
   (getCache rt k' now' after_read).1 = (getCache rt k' now' w).1 /\
   (getCache rt k' now' after_clear).1 = (getCache rt k' now' w).1).
Proof.
  intros Hne after_write after_read after_clear.
  pose proof (setCache_touches_one_key k d t now w k' Hne) as H1.
  pose proof (getCache_touches_one_key k now w k' Hne) as H2.
  pose proof (clearCache_touches_one_key k w k' Hne) as H3.
  split; [repeat split; assumption|].
  intros Hnt. repeat split; now apply getCache_local.
Qed.

(** X6.  The last operation on a key decides, when the storage answers: a
    second [setCache] replaces the first item whole (value, timestamp and
    ttl); a [clearCache] after a [setCache] leaves no entry, and the next
    [getCache] returns [null] without a warning; [hasValidCache] is then
    [false]. *)
Theorem last_cache_operation_wins
    (k : string) (v1 v2 : jsval) (t1 t2 n1 n2 now : Z) (text2 : string) (w : World) :
  (forall m op, storage_throws rt m op = false) ->
  JSON_stringify rt (cacheItem_of v2 n2 t2) = Some text2 ->
  let w1 := (setCache rt k v1 t1 n1 w).2 in
  let w2 := (setCache rt k v2 t2 n2 w1).2 in
  let w3 := (clearCache rt k w1).2 in
  storage w2 = <[k := text2]> (storage w) /\
  storage w3 = delete k (storage w) /\
  getCache rt k now w3 = (Normal JNull, w3) /\
  hasValidCache rt k now w3 = (Normal false, w3).
Proof.
  intros Hnt Hs2 w1 w2 w3.
  assert (Hw1 : storage w1 = storage w \/ exists text1, storage w1 = <[k := text1]> (storage w)).
  { subst w1. unfold setCache, try_catch, bind, JSON_stringify_js.
    destruct (JSON_stringify rt (cacheItem_of v1 n1 t1)) as [text1|]; [|now left].
    cbn [ret]. unfold localStorage_setItem. rewrite Hnt. right. now exists text1. }
  assert (Hw2 : storage w2 = <[k := text2]> (storage w1)).
  { subst w2. rewrite (setCache_stores rt k v2 t2 n2 w1 text2 Hs2 (Hnt _ _)). reflexivity. }
  assert (Hw3 : storage w3 = delete k (storage w1)).
  { subst w3. unfold clearCache, try_catch, localStorage_removeItem. now rewrite Hnt. }
  assert (Hnone : storage w3 !! k = None) by (rewrite Hw3; apply lookup_delete_eq).
  assert (Hget : getCache rt k now w3 = (Normal JNull, w3)).
  { unfold getCache, try_catch, bind. rewrite (getItem_ok rt k w3 (Hnt _ _)), Hnone.
    reflexivity. }
  split.
  { rewrite Hw2. destruct Hw1 as [->|[text1 ->]]; [reflexivity|apply insert_insert_eq]. }
  split.
  { rewrite Hw3. destruct Hw1 as [->|[text1 ->]]; [reflexivity|apply delete_insert_eq]. }
  split; [exact Hget|].
  unfold hasValidCache, bind. rewrite Hget. reflexivity.
Qed.

End CacheComposition.

(* ===================================================================== *)
(** ** More facts about the store *)
(* ===================================================================== *)

Section MoreStoreFacts.
Import Store StoreActions.
Variable rt : Runtime.

(** X7.  Every call of a fetch action makes exactly one call on the API and
    never throws, whatever the flag, the cache and the storage do.  The
    call runs to its end only when it served the cache; otherwise it
    awaits the response with the loading flag set and the store's data as
    they were.  With [forceRefresh] (as [refreshDashboard] and
    [refreshHostMetrics] call it) the storage is not even read. *)
Theorem fetch_calls_the_loader_exactly_once
    (forceRefresh : bool) (hostname : string) (hours now : Z) (w : World) :
  (exists st w',
     fetchDashboardData rt forceRefresh now w = (Normal st, w') /\
     api_calls w' = api_calls w ++ [GetDashboardData] /\
     dashboardError (this w') = None /\
     (st = Completed /\ forceRefresh = false /\ usingCachedData (this w') = true \/
      st = AwaitingApi GetDashboardData /\
      isLoadingDashboard (this w') = true /\
      usingCachedData (this w') = false /\
      dashboardData (this w') = dashboardData (this w))) /\
  (exists st w',
     fetchHostMetrics rt hostname hours forceRefresh now w = (Normal st, w') /\
     api_calls w' = api_calls w ++ [GetHostMetrics hostname hours] /\
     currentHost (this w') = Some hostname /\
     hostDetailError (this w') = None /\
     (st = Completed /\ forceRefresh = false /\ usingCachedData (this w') = true \/
      st = AwaitingApi (GetHostMetrics hostname hours) /\
      isLoadingHostDetail (this w') = true /\
      usingCachedData (this w') = false /\
      currentHostMetrics (this w') = currentHostMetrics (this w))) /\
  (exists w',
     refreshDashboard rt now w = (Normal (AwaitingApi GetDashboardData), w') /\
     cache w' = cache w) /\
  (exists w',
     refreshHostMetrics rt hostname hours now w =
       (Normal (AwaitingApi (GetHostMetrics hostname hours)), w') /\
     cache w' = cache w).
Proof.
  split; [|split; [|split]].
  - unfold fetchDashboardData. cbv zeta. destruct forceRefresh; cbn [negb andb].
    + eexists _, _. split; [reflexivity|]. cbn. split; [reflexivity|]. split; [reflexivity|].
      right. repeat split.
    + unfold bind at 1, on_cache at 1.
      destruct (getCache_completes rt Cache.getDashboardCacheKey now (cache w))
        as (v & c' & ->).
      destruct (truthy v); eexists _, _; (split; [reflexivity|]); cbn;
        (split; [reflexivity|]); (split; [reflexivity|]).
      * left. repeat split.
      * right. repeat split.
  - unfold fetchHostMetrics. cbv zeta.
    generalize (Cache.getHostMetricsCacheKey hostname hours). intros key.
    destruct forceRefresh; cbn [negb andb].
    + eexists _, _. split; [reflexivity|]. cbn. split; [reflexivity|].
      split; [reflexivity|]. split; [reflexivity|]. right. repeat split.
    + unfold bind at 1. cbn [set_this modify].
      unfold bind at 1, on_cache at 1. cbn [cache].
      destruct (getCache_completes rt key now (cache w)) as (v & c' & ->).
      destruct (truthy v); eexists _, _; (split; [reflexivity|]); cbn;
        (split; [reflexivity|]); (split; [reflexivity|]); (split; [reflexivity|]).
      * left. repeat split.
      * right. repeat split.
  - eexists. split; reflexivity.
  - eexists. split; reflexivity.
Qed.


(** X8.  Stale data is never served.  With an entry under the dashboard key
    that has outlived its ttl, [fetchDashboardData(false)] evicts the entry
    (or leaves it, when [removeItem] throws), leaves the store's data as
    they were and awaits the API; and after [clearDashboardCache] on a
    storage that answers, [hasCachedDashboard] is [false] and the next
    fetch awaits the API as well. *)
Theorem stale_or_cleared_entry_is_not_served (now : Z) (w : World) :
  (forall text d ts tl,
     storage_throws rt (Cache.storage (cache w)) (OpGetItem Cache.getDashboardCacheKey) = false ->
     Cache.storage (cache w) !! Cache.getDashboardCacheKey = Some text ->
     text <> "" ->
     JSON_parse rt text = Some (Cache.cacheItem_of d ts tl) ->
     tl < now - ts ->
     exists w',
       fetchDashboardData rt false now w = (Normal (AwaitingApi GetDashboardData), w') /\
       dashboardData (this w') = dashboardData (this w) /\
       usingCachedData (this w') = false /\
       isLoadingDashboard (this w') = true /\
       Cache.storage (cache w') =
         (if storage_throws rt (Cache.storage (cache w))
               (OpRemoveItem Cache.getDashboardCacheKey)
          then Cache.storage (cache w)
          else delete Cache.getDashboardCacheKey (Cache.storage (cache w)))) /\
  ((forall m op, storage_throws rt m op = false) ->
   let w1 := (clearDashboardCache rt w).2 in
   this w1 = this w /\
   hasCachedDashboard rt now w1 = (Normal false, w1) /\
   exists w',
     fetchDashboardData rt false now w1 = (Normal (AwaitingApi GetDashboardData), w') /\
     dashboardData (this w') = dashboardData (this w) /\
     cache w' = cache w1).
Proof.
  split.
  - intros text d ts tl Hget Hk Htext Hparse Hage.
    unfold fetchDashboardData. cbv zeta. cbn [negb andb].
    unfold bind at 1, on_cache at 1.
    rewrite (getCache_item rt _ now (cache w) text d ts tl Hget Hk Htext Hparse).
    replace (tl <? now - ts) with true by (symmetry; apply Z.ltb_lt; lia).
    destruct (storage_throws rt (Cache.storage (cache w)) (OpRemoveItem _));
      eexists; (split; [reflexivity|]); cbn; repeat split.
  - intros Hnt w1.
    assert (Hw1 : w1 = {| this := this w;
                          cache := Cache.set_storage
                                     (delete Cache.getDashboardCacheKey (Cache.storage (cache w)))
                                     (cache w);
                          api_calls := api_calls w |}).
    { subst w1. unfold clearDashboardCache, on_cache, Cache.clearCache, try_catch,
        Cache.localStorage_removeItem. rewrite Hnt. reflexivity. }
    assert (Hmiss : Cache.getCache rt Cache.getDashboardCacheKey now (cache w1)
                    = (Normal JNull, cache w1)).
    { rewrite Hw1. cbn [cache]. unfold Cache.getCache, try_catch, bind.
      rewrite (getItem_ok rt _ _ (Hnt _ _)). cbn [Cache.storage Cache.set_storage].
      rewrite lookup_delete_eq. reflexivity. }
    split; [now rewrite Hw1|].
    split.
    + unfold hasCachedDashboard, on_cache, Cache.hasValidCache, bind.
      rewrite Hmiss. cbn. now destruct w1.
    + unfold fetchDashboardData. cbv zeta. cbn [negb andb].
      unfold bind at 1, on_cache at 1. rewrite Hmiss.
      eexists. split; [reflexivity|]. cbn. split; [now rewrite Hw1 | reflexivity].
Qed.

(** X9.  A response is cached for its ttl: when the API call resolves with
    truthy [data] at time [now] (the item's text round-trips through JSON,
    the storage answers), the store holds [data], the loading flag is down,
    and a later [fetchDashboardData(false)] is served from the cache up to
    five minutes after [now] and awaits the API once the five minutes are
    over; for host metrics the limit is three minutes. *)
Theorem response_is_cached_for_its_ttl
    (data : jsval) (now now' : Z) (text : string) (hostname : string) (hours : Z)
    (text_h : string) (w : World) :
  (forall m op, storage_throws rt m op = false) ->
  truthy data = true ->
  JSON_stringify rt (Cache.cacheItem_of data now (5 * 60 * 1000)) = Some text ->
  JSON_parse rt text = Some (Cache.cacheItem_of data now (5 * 60 * 1000)) ->
  text <> "" ->
  JSON_stringify rt (Cache.cacheItem_of data now (3 * 60 * 1000)) = Some text_h ->
  JSON_parse rt text_h = Some (Cache.cacheItem_of data now (3 * 60 * 1000)) ->
  text_h <> "" ->
  (let r := fetchDashboardDataFromAPI_resume rt Cache.getDashboardCacheKey
              (Response data) now w in
   r.1 = Normal tt /\
   dashboardData (this r.2) = data /\
   isLoadingDashboard (this r.2) = false /\
   usingCachedData (this r.2) = false /\
   lastUpdate (this r.2) = Some now /\
   (now' - now <= 300000 ->
    (fetchDashboardData rt false now' r.2).1 = Normal Completed) /\
   (300000 < now' - now ->
    (fetchDashboardData rt false now' r.2).1 = Normal (AwaitingApi GetDashboardData))) /\
  (let key := Cache.getHostMetricsCacheKey hostname hours in
   let r := fetchHostMetricsFromAPI_resume rt hostname hours key (Response data) now w in
   r.1 = Normal tt /\
   currentHostMetrics (this r.2) = data /\
   isLoadingHostDetail (this r.2) = false /\
   usingCachedData (this r.2) = false /\
   (now' - now <= 180000 ->
    (fetchHostMetrics rt hostname hours false now' r.2).1 = Normal Completed) /\
   (180000 < now' - now ->
    (fetchHostMetrics rt hostname hours false now' r.2).1
      = Normal (AwaitingApi (GetHostMetrics hostname hours)))).
Proof.
  intros Hnt Htruthy Hs Hp Htext Hsh Hph Htexth.
  split.
  - cbv zeta.
    set (w1 := {| this := set_isLoadingDashboard false
                            (set_usingCachedData false
                               (set_lastUpdate (Some now)
                                  (set_dashboardData data (this w))));
                  cache := Cache.set_storage
                             (<[Cache.getDashboardCacheKey := text]> (Cache.storage (cache w)))
                             (cache w);
                  api_calls := api_calls w |}).
    assert (Hr : fetchDashboardDataFromAPI_resume rt Cache.getDashboardCacheKey
                   (Response data) now w = (Normal tt, w1)).
    { unfold fetchDashboardDataFromAPI_resume, try_finally.
      unfold bind at 1. cbn [set_this modify].
      unfold bind at 1. cbn [set_this modify].
      unfold bind at 1. cbn [set_this modify].
      unfold on_cache. cbn [cache].
      change Cache.DEFAULT_CACHE_TTL with (5 * 60 * 1000).
      rewrite (setCache_stores rt _ data _ now (cache w) text Hs (Hnt _ _)).
      reflexivity. }
    rewrite Hr. cbn [fst snd].
    repeat (split; [reflexivity|]).
    assert (Hk : Cache.storage (cache w1) !! Cache.getDashboardCacheKey = Some text)
      by (cbn; apply lookup_insert_eq).
    pose proof (getCache_item rt Cache.getDashboardCacheKey now' (cache w1) text data now
                  (5 * 60 * 1000) (Hnt _ _) Hk Htext Hp) as Hget.
    split; intros Hage; unfold fetchDashboardData; cbv zeta; cbn [negb andb];
      unfold bind at 1, on_cache at 1; rewrite Hget.
    + replace (5 * 60 * 1000 <? now' - now) with false by (symmetry; apply Z.ltb_ge; lia).
      rewrite Htruthy. reflexivity.
    + replace (5 * 60 * 1000 <? now' - now) with true by (symmetry; apply Z.ltb_lt; lia).
      rewrite Hnt. reflexivity.
  - cbv zeta. unfold fetchHostMetrics. cbv zeta.
    generalize (Cache.getHostMetricsCacheKey hostname hours). intros key.
    set (w1 := {| this := set_isLoadingHostDetail false
                            (set_usingCachedData false
                               (set_currentHostMetrics data (this w)));
                  cache := Cache.set_storage
                             (<[key := text_h]> (Cache.storage (cache w))) (cache w);
                  api_calls := api_calls w |}).
    assert (Hr : fetchHostMetricsFromAPI_resume rt hostname hours key
                   (Response data) now w = (Normal tt, w1)).
    { unfold fetchHostMetricsFromAPI_resume, try_finally.
      unfold bind at 1. cbn [set_this modify].
      unfold bind at 1. cbn [set_this modify].
      unfold on_cache. cbn [cache].
      rewrite (setCache_stores rt _ data _ now (cache w) text_h Hsh (Hnt _ _)).
      reflexivity. }
    rewrite Hr. cbn [fst snd].
    repeat (split; [reflexivity|]).
    assert (Hk : Cache.storage (cache w1) !! key = Some text_h)
      by (cbn; apply lookup_insert_eq).
    pose proof (getCache_item rt key now' (cache w1) text_h data now
                  (3 * 60 * 1000) (Hnt _ _) Hk Htexth Hph) as Hget.
    split; intros Hage; cbn [negb andb];
      unfold bind at 1; cbn [set_this modify];
      unfold bind at 1, on_cache at 1; cbn [cache]; fold (cache w1); rewrite Hget.
    + replace (3 * 60 * 1000 <? now' - now) with false by (symmetry; apply Z.ltb_ge; lia).
      rewrite Htruthy. reflexivity.
    + replace (3 * 60 * 1000 <? now' - now) with true by (symmetry; apply Z.ltb_lt; lia).
      rewrite Hnt. reflexivity.
Qed.


Lemma live_entry_console (c : Cache.World) line key now d :
  live_entry rt c key now d ->
  live_entry rt {| Cache.storage := Cache.storage c;
                   Cache.console := Cache.console c ++ [line] |} key now d.
Proof. intros H. exact H. Qed.

(** X10.  When the API call fails, the loading flag comes down whatever
    happens next, the error shown is never empty, and no second call is
    made.  The cache is a fallback only for an empty store: with an
    unexpired truthy entry, the dashboard takes the cached data when the
    store's [total_hosts] is falsy and keeps what it shows otherwise (and
    the handler throws when the store's data are [null]); host metrics take
    the cached data when the store holds none.  With no entry the store's
    data stay as they are. *)
Theorem failed_fetch_falls_back_for_an_empty_store_only
    (message : option string) (hostname : string) (hours now : Z) (w : World) :
  (let key := Cache.getDashboardCacheKey in
   let r := fetchDashboardDataFromAPI_resume rt key (Rejected message) now w in
   isLoadingDashboard (this r.2) = false /\
   (exists m, dashboardError (this r.2) = Some m /\ m <> "") /\
   api_calls r.2 = api_calls w /\
   (forall d, live_entry rt (cache w) key now d -> truthy d = true ->
      match dashboardData (this w) with
      | JNull | JUndefined =>
          r.1 = Throw TypeError /\ dashboardData (this r.2) = dashboardData (this w)
      | JObj fields =>
          r.1 = Normal tt /\
          if truthy (obj_lookup fields "total_hosts")
          then dashboardData (this r.2) = JObj fields /\
               usingCachedData (this r.2) = usingCachedData (this w)
          else dashboardData (this r.2) = d /\ usingCachedData (this r.2) = true
      | _ =>
          r.1 = Normal tt /\
          dashboardData (this r.2) = d /\ usingCachedData (this r.2) = true
      end) /\
   (storage_throws rt (Cache.storage (cache w)) (OpGetItem key) = false ->
    Cache.storage (cache w) !! key = None ->
    r.1 = Normal tt /\
    dashboardData (this r.2) = dashboardData (this w) /\
    usingCachedData (this r.2) = usingCachedData (this w))) /\
  (let key := Cache.getHostMetricsCacheKey hostname hours in
   let r := fetchHostMetricsFromAPI_resume rt hostname hours key (Rejected message) now w in
   isLoadingHostDetail (this r.2) = false /\
   (exists m, hostDetailError (this r.2) = Some m /\ m <> "") /\
   api_calls r.2 = api_calls w /\
   (forall d, live_entry rt (cache w) key now d -> truthy d = true ->
      r.1 = Normal tt /\
      if truthy (currentHostMetrics (this w))
      then currentHostMetrics (this r.2) = currentHostMetrics (this w) /\
           usingCachedData (this r.2) = usingCachedData (this w)
      else currentHostMetrics (this r.2) = d /\ usingCachedData (this r.2) = true) /\
   (storage_throws rt (Cache.storage (cache w)) (OpGetItem key) = false ->
    Cache.storage (cache w) !! key = None ->
    r.1 = Normal tt /\
    currentHostMetrics (this r.2) = currentHostMetrics (this w) /\
    usingCachedData (this r.2) = usingCachedData (this w))).
Proof.
  assert (Hmsg : forall fallback, fallback <> "" ->
            match message with
            | Some m => if String.eqb m "" then fallback else m
            | None => fallback
            end <> "").
  { intros fallback Hf. destruct message as [m|]; [|exact Hf].
    destruct (String.eqb_spec m ""); [exact Hf | assumption]. }
  split.
  - cbv zeta. generalize Cache.getDashboardCacheKey. intros key.
    unfold fetchDashboardDataFromAPI_resume, try_finally, bind, console_error, on_cache,
      set_this, modify, gets.
    cbn [cache this api_calls].
    set (c1 := {| Cache.storage := _; Cache.console := _ |}).
    split; [|split; [|split; [|split]]].
    + destruct (Cache.getCache rt key now c1) as [[v|e] c2]; [|reflexivity].
      destruct (truthy v); [|reflexivity].
      cbn [this dashboardData set_dashboardError].
      destruct (dashboardData (this w)) as [| |b|n|str|items|fields]; cbn [get_prop throw ret];
        try reflexivity;
        destruct (truthy (obj_lookup _ "total_hosts")); reflexivity.
    + eexists. split.
      2:{ apply (Hmsg "Failed to fetch system data"). discriminate. }
      destruct (Cache.getCache rt key now c1) as [[v|e] c2]; [|reflexivity].
      destruct (truthy v); [|reflexivity].
      cbn [this dashboardData set_dashboardError].
      destruct (dashboardData (this w)) as [| |b|n|str|items|fields]; cbn [get_prop throw ret];
        try reflexivity;
        destruct (truthy (obj_lookup _ "total_hosts")); reflexivity.
    + destruct (Cache.getCache rt key now c1) as [[v|e] c2]; [|reflexivity].
      destruct (truthy v); [|reflexivity].
      cbn [this dashboardData set_dashboardError].
      destruct (dashboardData (this w)) as [| |b|n|str|items|fields]; cbn [get_prop throw ret];
        try reflexivity;
        destruct (truthy (obj_lookup _ "total_hosts")); reflexivity.
    + intros d Hlive Htruthy.
      pose proof (getCache_live rt c1 key now d (live_entry_console _ _ _ _ _ Hlive)) as Hd.
      rewrite Hd, Htruthy.
      cbn [this dashboardData set_dashboardError].
      destruct (dashboardData (this w)) as [| |b|n|str|items|fields] eqn:Hdd;
        cbn [get_prop throw ret];
        try (cbn; repeat split; first [reflexivity | exact Hdd]);
        destruct (truthy (obj_lookup _ "total_hosts"));
        cbn; repeat split; first [reflexivity | exact Hdd].
    + intros Hok Hnone.
      assert (Hmiss : Cache.getCache rt key now c1 = (Normal JNull, c1)).
      { unfold Cache.getCache, try_catch, bind.
        rewrite (getItem_ok rt key c1 Hok). subst c1. cbn [Cache.storage].
        rewrite Hnone. reflexivity. }
      rewrite Hmiss. cbn. repeat split; reflexivity.
  - cbv zeta. generalize (Cache.getHostMetricsCacheKey hostname hours). intros key.
    unfold fetchHostMetricsFromAPI_resume, try_finally, bind, console_error, on_cache,
      set_this, modify, gets.
    cbn [cache this api_calls].
    set (c1 := {| Cache.storage := _; Cache.console := _ |}).
    split; [|split; [|split; [|split]]].
    + destruct (Cache.getCache rt key now c1) as [[v|e] c2]; [|reflexivity].
      cbn [this currentHostMetrics set_hostDetailError].
      destruct (truthy v && negb (truthy (currentHostMetrics (this w))))%bool; reflexivity.
    + eexists. split.
      2:{ apply (Hmsg "Failed to fetch host metrics"). discriminate. }
      destruct (Cache.getCache rt key now c1) as [[v|e] c2]; [|reflexivity].
      cbn [this currentHostMetrics set_hostDetailError].
      destruct (truthy v && negb (truthy (currentHostMetrics (this w))))%bool; reflexivity.
    + destruct (Cache.getCache rt key now c1) as [[v|e] c2]; [|reflexivity].
      cbn [this currentHostMetrics set_hostDetailError].
      destruct (truthy v && negb (truthy (currentHostMetrics (this w))))%bool; reflexivity.
    + intros d Hlive Htruthy.
      pose proof (getCache_live rt c1 key now d (live_entry_console _ _ _ _ _ Hlive)) as Hd.
      rewrite Hd, Htruthy.
      cbn [this currentHostMetrics set_hostDetailError andb].
      destruct (truthy (currentHostMetrics (this w))); cbn; repeat split; reflexivity.
    + intros Hok Hnone.
      assert (Hmiss : Cache.getCache rt key now c1 = (Normal JNull, c1)).
      { unfold Cache.getCache, try_catch, bind.
        rewrite (getItem_ok rt key c1 Hok). subst c1. cbn [Cache.storage].
        rewrite Hnone. reflexivity. }
      rewrite Hmiss. cbn. repeat split; reflexivity.
Qed.


(** *** The handlers of the WebSocket events *)

Lemma obj_lookup_obj_set_eq fields name v :
  obj_lookup (obj_set fields name v) name = v.
Proof.
  induction fields as [|[k x] rest IH]; cbn.
  - now rewrite String.eqb_refl.
  - destruct (String.eqb k name) eqn:E; cbn; rewrite E; [reflexivity | exact IH].
Qed.

Lemma obj_lookup_obj_set_ne fields name v other :
  other <> name -> obj_lookup (obj_set fields name v) other = obj_lookup fields other.
Proof.
  intros Hne. induction fields as [|[k x] rest IH]; cbn.
  - destruct (String.eqb_spec name other); [congruence | reflexivity].
  - destruct (String.eqb_spec k name) as [->|Hk]; cbn.
    + destruct (String.eqb_spec name other); [congruence | reflexivity].
    + destruct (String.eqb k other); [reflexivity | exact IH].
Qed.

Variable ToString_other : jsval -> string.
Variable new_Date : option Z -> jsval.

Lemma invalidation_loop (keys : list jsval) : forall w : World,
  exists w',
    forEach (fun cacheKey =>
               on_cache (Cache.clearCache rt (ToString ToString_other cacheKey))) keys w
      = (Normal tt, w') /\
    this w' = this w /\ api_calls w' = api_calls w /\
    (forall k, k ∉ (ToString ToString_other <$> keys) ->
       Cache.storage (cache w') !! k = Cache.storage (cache w) !! k) /\
    ((forall m op, storage_throws rt m op = false) ->
     forall k, k ∈ (ToString ToString_other <$> keys) ->
       Cache.storage (cache w') !! k = None).
Proof.
  induction keys as [|key keys IH]; intros w.
  - exists w. split; [reflexivity|]. repeat split; try reflexivity.
    intros _ k Hin. inversion Hin.
  - cbn [forEach]. unfold bind, on_cache at 1.
    pose proof (clearCache_touches_one_key rt (ToString ToString_other key) (cache w)) as Hother.
    destruct (clearCache_completes rt (ToString ToString_other key) (cache w)) as [c1 Hc1].
    rewrite Hc1 in Hother |- *. cbn [snd] in Hother.
    match goal with |- context [forEach _ keys ?w1] =>
      destruct (IH w1) as (w' & -> & Hthis & Hcalls & Hkeep & Hgone) end.
    exists w'. split; [reflexivity|].
    split; [exact Hthis|]. split; [exact Hcalls|]. cbn [cache] in *.
    split.
    + intros k Hk. rewrite fmap_cons in Hk. apply not_elem_of_cons in Hk as [Hne Hk].
      rewrite (Hkeep k Hk). now apply Hother.
    + intros Hnt k Hk. rewrite fmap_cons in Hk.
      destruct (decide (k ∈ ToString ToString_other <$> keys)) as [Hin|Hout];
        [now apply Hgone|].
      apply elem_of_cons in Hk as [->|Hk]; [|contradiction].
      rewrite (Hkeep _ Hout).
      revert Hc1. unfold Cache.clearCache, try_catch, Cache.localStorage_removeItem.
      rewrite Hnt. intros [= <-]. cbn. apply lookup_delete_eq.
Qed.

(** X11.  A [cache_invalidation] message removes the keys it lists, whatever
    they are: with an array under [cache_keys], the handler never throws,
    leaves the store and every key that is not listed as they were and,
    when the storage answers, leaves no listed key, namespaced or not.
    Without [cache_keys] (or with [null]) it does nothing; with a value
    that is not an array it throws and removes nothing. *)
Theorem cache_invalidation_removes_the_listed_keys
    (fields : list (string * jsval)) (w : World) :
  let r := handleCacheInvalidation rt ToString_other (JObj fields) w in
  this r.2 = this w /\ api_calls r.2 = api_calls w /\
  match obj_lookup fields "cache_keys" with
  | JArr keys =>
      r.1 = Normal tt /\
      (forall k, k ∉ (ToString ToString_other <$> keys) ->
         Cache.storage (cache r.2) !! k = Cache.storage (cache w) !! k) /\
      ((forall m op, storage_throws rt m op = false) ->
       forall k, k ∈ (ToString ToString_other <$> keys) ->
         Cache.storage (cache r.2) !! k = None)
  | JUndefined | JNull =>
      r.1 = Normal tt /\ Cache.storage (cache r.2) = Cache.storage (cache w)
  | _ =>
      r.1 = Throw TypeError /\ Cache.storage (cache r.2) = Cache.storage (cache w)
  end.
Proof.
  cbv zeta.
  set (w1 := {| this := this w;
                cache := {| Cache.storage := Cache.storage (cache w);
                            Cache.console := Cache.console (cache w) ++
                              [ConsoleLog "Cache invalidation received:"] |};
                api_calls := api_calls w |}).
  assert (Hr : handleCacheInvalidation rt ToString_other (JObj fields) w =
               match obj_lookup fields "cache_keys" with
               | JArr keys =>
                   forEach (fun cacheKey =>
                              on_cache (Cache.clearCache rt (ToString ToString_other cacheKey)))
                           keys w1
               | JUndefined | JNull => (Normal tt, w1)
               | _ => (Throw TypeError, w1)
               end).
  { unfold handleCacheInvalidation.
    unfold bind at 1. unfold console_log at 1, on_cache at 1, Cache.console_log, modify.
    unfold bind at 1. cbn [get_prop ret]. fold w1.
    destruct (obj_lookup fields "cache_keys"); reflexivity. }
  rewrite Hr. clear Hr.
  destruct (obj_lookup fields "cache_keys") as [| |b|n|str|keys|fs];
    try (cbn; repeat split; reflexivity).
  destruct (invalidation_loop keys w1) as (w' & -> & Hthis & Hcalls & Hkeep & Hgone).
  cbn [fst snd]. split; [exact Hthis|]. split; [exact Hcalls|].
  split; [reflexivity|]. split; [exact Hkeep | exact Hgone].
Qed.


Lemma length_drop_last_200 {A} (l : list A) (x : A) :
  length (drop (S (length l) - 200) (l ++ [x])) = Nat.min (S (length l)) 200 /\
  last (drop (S (length l) - 200) (l ++ [x])) = Some x.
Proof.
  split.
  - rewrite length_drop, length_app. cbn [length]. lia.
  - rewrite drop_app_le by lia. apply last_snoc.
Qed.

(** X12.  A [metrics_update] for the host on display refreshes the current
    values and appends one point to the timeline, which keeps its last 200
    points: its length is then [min (n + 1) 200], whatever it was, and the
    new point is the last; every other field of the host's data stays as it
    was.  A message for another host, or one that arrives while no host
    data are held, changes [lastUpdate] only.  Neither touches the
    storage. *)
Theorem host_metrics_update_keeps_the_last_200_points
    (dfields : list (string * jsval)) (now : Z) (w : World) :
  (forall fields mfields h points,
     currentHostMetrics (this w) = JObj fields ->
     currentHost (this w) = Some h ->
     obj_lookup dfields "hostname" = JStr h ->
     obj_lookup dfields "metrics" = JObj mfields ->
     obj_lookup fields "timeline_data" = JArr points ->
     let point := JObj [("timestamp", obj_lookup dfields "timestamp");
                        ("cpu_percent", obj_lookup mfields "cpu_percent");
                        ("memory_percent", obj_lookup mfields "memory_percent");
                        ("memory_available_mb", obj_lookup mfields "memory_available_mb");
                        ("memory_used_mb", obj_lookup mfields "memory_used_mb")] in
     let timeline := drop (S (length points) - 200) (points ++ [point]) in
     exists fields' w',
       handleHostMetricsUpdate rt new_Date (JObj dfields) now w = (Normal tt, w') /\
       currentHostMetrics (this w') = JObj fields' /\
       obj_lookup fields' "timeline_data" = JArr timeline /\
       length timeline = Nat.min (S (length points)) 200 /\
       last timeline = Some point /\
       obj_lookup fields' "current_cpu" = obj_lookup mfields "cpu_percent" /\
       obj_lookup fields' "current_memory" = obj_lookup mfields "memory_percent" /\
       obj_lookup fields' "is_online" = JBool true /\
       obj_lookup fields' "last_seen" =
         new_Date (js_mul (ToNumber rt (obj_lookup dfields "timestamp")) (Some 1000)) /\
       (forall name,
          name ∉ ["current_cpu"; "current_memory"; "last_seen"; "is_online"; "timeline_data"] ->
          obj_lookup fields' name = obj_lookup fields name) /\
       lastUpdate (this w') = Some now /\
       Cache.storage (cache w') = Cache.storage (cache w) /\
       api_calls w' = api_calls w) /\
  (truthy (currentHostMetrics (this w)) = false \/
   is_currentHost (obj_lookup dfields "hostname") (currentHost (this w)) = false ->
   exists w',
     handleHostMetricsUpdate rt new_Date (JObj dfields) now w = (Normal tt, w') /\
     this w' = set_lastUpdate (Some now) (this w) /\
     Cache.storage (cache w') = Cache.storage (cache w) /\
     api_calls w' = api_calls w).
Proof.
  split.
  - intros fields mfields h points Hm Hh Hname Hmetrics Htl point timeline.
    destruct (length_drop_last_200 points point) as [Hlen Hlast].
    set (updated :=
           obj_set (obj_set (obj_set (obj_set fields
             "current_cpu" (obj_lookup mfields "cpu_percent"))
             "current_memory" (obj_lookup mfields "memory_percent"))
             "last_seen" (new_Date (js_mul (ToNumber rt (obj_lookup dfields "timestamp"))
                                           (Some 1000))))
             "is_online" (JBool true)).
    assert (Hup : obj_lookup updated "timeline_data" = JArr points).
    { subst updated. rewrite !obj_lookup_obj_set_ne by discriminate. exact Htl. }
    exists (obj_set updated "timeline_data" (JArr timeline)).
    eexists. split.
    { unfold handleHostMetricsUpdate, metric.
      unfold bind at 1. unfold console_log at 1, on_cache at 1, Cache.console_log, modify.
      unfold bind at 1. cbn [gets this]. rewrite Hm. cbn [truthy].
      unfold bind at 1. unfold bind at 1. cbn [get_prop ret]. rewrite Hname.
      unfold bind at 1. cbn [gets this]. rewrite Hh. cbn [ret is_currentHost].
      rewrite String.eqb_refl.
      unfold bind at 1.
      repeat (unfold bind at 1; cbn [get_prop ret]; rewrite ?Hmetrics; cbn [get_prop ret]).
      cbn [spread]. fold updated. cbn [set_this modify this]. rewrite Hup. cbn [truthy].
      repeat (unfold bind at 1; cbn [get_prop ret]; rewrite ?Hmetrics; cbn [get_prop ret]).
      fold point. cbn [set_this modify this].
      rewrite length_app. cbn [length].
      destruct (200 <? length points + 1)%nat eqn:Hcmp; cbn [ret].
      - apply Nat.ltb_lt in Hcmp.
        replace (length points + 1 - 200)%nat with (S (length points) - 200)%nat by lia.
        fold timeline. reflexivity.
      - apply Nat.ltb_ge in Hcmp.
        assert (Hall : timeline = points ++ [point]).
        { subst timeline. replace (S (length points) - 200)%nat with 0%nat by lia.
          reflexivity. }
        rewrite Hall. reflexivity. }
    cbn [this currentHostMetrics set_lastUpdate set_currentHostMetrics lastUpdate cache api_calls
         Cache.storage].
    split; [reflexivity|].
    split; [apply obj_lookup_obj_set_eq|].
    split; [exact Hlen|]. split; [exact Hlast|].
    subst updated.
    split; [rewrite !obj_lookup_obj_set_ne by discriminate; apply obj_lookup_obj_set_eq|].
    split; [rewrite !obj_lookup_obj_set_ne by discriminate; apply obj_lookup_obj_set_eq|].
    split; [rewrite !obj_lookup_obj_set_ne by discriminate; apply obj_lookup_obj_set_eq|].
    split; [rewrite !obj_lookup_obj_set_ne by discriminate; apply obj_lookup_obj_set_eq|].
    split; [|repeat split].
    intros name Hname'.
    rewrite !obj_lookup_obj_set_ne; [reflexivity|..];
      intros ->; apply Hname'; repeat constructor.
  - intros Hor.
    unfold handleHostMetricsUpdate.
    unfold bind at 1. unfold console_log at 1, on_cache at 1, Cache.console_log, modify.
    unfold bind at 1. cbn [gets this].
    destruct (truthy (currentHostMetrics (this w))) eqn:Htr.
    + destruct Hor as [Hf|Hother]; [discriminate|].
      unfold bind at 1. unfold bind at 1. cbn [get_prop ret].
      unfold bind at 1. cbn [gets this ret]. rewrite Hother.
      eexists. split; [reflexivity|]. repeat split.
    + eexists. split; [reflexivity|]. repeat split.
Qed.

End MoreStoreFacts.

Section AutoRefreshFacts.
Import Store StoreActions.
Variable rt : Runtime.

Lemma fetchDashboardData_cached_calls now (w : World) :
  api_calls (fetchDashboardData rt false now w).2 = api_calls w ++ [GetDashboardData].
Proof.
  unfold fetchDashboardData. cbv zeta. cbn [negb andb].
  unfold bind at 1, on_cache at 1.
  destruct (getCache_completes rt Cache.getDashboardCacheKey now (cache w))
    as (v & c' & ->).
  destruct (truthy v); reflexivity.
Qed.

Lemma fetchHostMetrics_cached_calls hostname hours now (w : World) :
  api_calls (fetchHostMetrics rt hostname hours false now w).2 =
  api_calls w ++ [GetHostMetrics hostname hours].
Proof.
  unfold fetchHostMetrics. cbv zeta.
  generalize (Cache.getHostMetricsCacheKey hostname hours). intros key.
  cbn [negb andb].
  unfold bind at 1. cbn [set_this modify].
  unfold bind at 1, on_cache at 1. cbn [cache].
  destruct (getCache_completes rt key now (cache w)) as (v & c' & ->).
  destruct (truthy v); reflexivity.
Qed.

Lemma stopAutoRefresh_state (p : Page) :
  holds_its_interval p ->
  exists p', stopAutoRefresh p = (Normal tt, p') /\
    intervals p' = ∅ /\ refreshInterval p' = None /\
    intervals_set p' = intervals_set p /\ store p' = store p.
Proof.
  intros [Hheld Hids]. unfold stopAutoRefresh, bind, gets.
  destruct (refreshInterval p) as [[|n]|] eqn:Hr.
  - destruct (proj2 (Hheld 0%nat) eq_refl) as [x Hx].
    assert (Hx' : is_Some (intervals p !! 0%nat)) by (rewrite Hx; eauto).
    apply Hids in Hx'. lia.
  - eexists. split; [reflexivity|]. cbn. repeat split.
    apply map_eq. intros id. rewrite lookup_empty.
    destruct (decide (id = S n)) as [->|Hne].
    + apply lookup_delete_eq.
    + rewrite lookup_delete_ne by congruence.
      destruct (intervals p !! id) eqn:Hid; [|reflexivity].
      assert (His : is_Some (intervals p !! id)) by (rewrite Hid; eauto).
      apply Hheld in His. congruence.
  - eexists. split; [reflexivity|]. repeat split; try assumption.
    apply map_eq. intros id. rewrite lookup_empty.
    destruct (intervals p !! id) eqn:Hid; [|reflexivity].
    assert (His : is_Some (intervals p !! id)) by (rewrite Hid; eauto).
    apply Hheld in His. discriminate His.
Qed.

Lemma start_state (r : refresh) (interval : Z) (p : Page) :
  holds_its_interval p ->
  let p' := ((stopAutoRefresh ;;;
              let* id := setInterval r interval in
              set_refreshInterval (Some id)) p).2 in
  intervals p' = {[ S (intervals_set p) := (r, interval) ]} /\
  refreshInterval p' = Some (S (intervals_set p)) /\
  intervals_set p' = S (intervals_set p) /\ store p' = store p.
Proof.
  intros H. destruct (stopAutoRefresh_state p H) as (p1 & Hrun & Hi & Hr & Hn & Hs).
  assert (Hp : (stopAutoRefresh ;;;
                let* id := setInterval r interval in
                set_refreshInterval (Some id)) p =
               (Normal tt,
                {| store := store p1;
                   refreshInterval := Some (S (intervals_set p1));
                   intervals := <[S (intervals_set p1) := (r, interval)]> (intervals p1);
                   intervals_set := S (intervals_set p1) |})).
  { unfold bind at 1. rewrite Hrun. reflexivity. }
  cbv zeta. rewrite Hp. cbn [snd store refreshInterval intervals intervals_set].
  rewrite Hi, Hn. repeat split; first [apply insert_empty | exact Hs].
Qed.

Lemma singleton_holds (id : nat) (x : refresh * Z) (p : Page) :
  intervals p = {[ id := x ]} -> refreshInterval p = Some id ->
  (1 <= id <= intervals_set p)%nat -> holds_its_interval p.
Proof.
  intros Hi Hr Hn. split; intros id'; rewrite Hi.
  - rewrite Hr. split.
    + intros [y Hy]. apply lookup_singleton_Some in Hy as [-> _]. reflexivity.
    + intros [= ->]. rewrite lookup_singleton_eq. eauto.
  - intros [y Hy]. apply lookup_singleton_Some in Hy as [<- _]. exact Hn.
Qed.

Lemma run_step_holds step (p : Page) :
  holds_its_interval p -> holds_its_interval (run_step rt step p).2.
Proof.
  intros H. destruct step; cbn [run_step];
    unfold startDashboardAutoRefresh, startHostDetailAutoRefresh, startHostAutoRefresh.
  - destruct (start_state DashboardRefresh interval p H) as (Hi & Hr & Hn & _).
    eapply singleton_holds; [exact Hi | exact Hr | rewrite Hn; lia].
  - destruct (start_state (HostRefresh hostname hours) interval p H) as (Hi & Hr & Hn & _).
    eapply singleton_holds; [exact Hi | exact Hr | rewrite Hn; lia].
  - destruct (start_state (HostRefresh hostname 24) interval p H) as (Hi & Hr & Hn & _).
    eapply singleton_holds; [exact Hi | exact Hr | rewrite Hn; lia].
  - destruct (stopAutoRefresh_state p H) as (p1 & -> & Hi & Hr & Hn & _). cbn [snd].
    split; intros id; rewrite Hi, ?Hr, lookup_empty.
    + split; [intros [x Hx]; discriminate Hx | intros Hx; discriminate Hx].
    + intros [x Hx]; discriminate Hx.
  - unfold interval_fires, bind, gets. cbn [fst snd].
    destruct (intervals p !! id) as [[r period]|]; [|exact H].
    destruct r as [|hostname hours]; cbn [refresh_callback].
    + unfold on_store, detached.
      destruct (fetchDashboardData rt false now (store p)) as [c w']. exact H.
    + unfold bind, gets.
      destruct (is_currentHost (JStr hostname) (currentHost (this (store p)))); [|exact H].
      unfold on_store, detached. cbn [fst snd].
      destruct (fetchHostMetrics rt hostname hours false now (store p)) as [c w']. exact H.
  - unfold on_store. destruct (action (store p)) as [c w']. exact H.
Qed.

Lemma reachable_page_holds (p : Page) : reachable_page rt p -> holds_its_interval p.
Proof.
  induction 1 as [c | step p _ IH].
  - split; intros id; cbn; rewrite lookup_empty.
    + split; [intros [x Hx]; discriminate Hx | intros Hx; discriminate Hx].
    + intros [x Hx]; discriminate Hx.
  - now apply run_step_holds.
Qed.

(** X24.  The store runs one auto-refresh interval at most, the one it
    holds in [refreshInterval]: the dashboard refresh and the host refresh
    share that field, so starting one ends the other, starting one twice
    leaves one interval, and [stopAutoRefresh] leaves none.  This holds
    after any sequence of these actions, ticks and other changes of the
    store. *)
Theorem auto_refresh_runs_one_interval (p : Page) :
  reachable_page rt p ->
  (forall id, is_Some (intervals p !! id) <-> refreshInterval p = Some id) /\
  (forall interval,
     intervals (startDashboardAutoRefresh interval p).2 =
       {[ S (intervals_set p) := (DashboardRefresh, interval) ]}) /\
  (forall hostname hours interval,
     intervals (startHostAutoRefresh hostname hours interval p).2 =
       {[ S (intervals_set p) := (HostRefresh hostname hours, interval) ]}) /\
  (forall hostname interval,
     intervals (startHostDetailAutoRefresh hostname interval p).2 =
       {[ S (intervals_set p) := (HostRefresh hostname 24, interval) ]}) /\
  intervals (stopAutoRefresh p).2 = ∅.
Proof.
  intros Hr. pose proof (reachable_page_holds p Hr) as H.
  split; [exact (proj1 H)|].
  split; [intros interval; apply (start_state DashboardRefresh interval p H)|].
  split; [intros hostname hours interval;
          apply (start_state (HostRefresh hostname hours) interval p H)|].
  split; [intros hostname interval;
          apply (start_state (HostRefresh hostname 24) interval p H)|].
  destruct (stopAutoRefresh_state p H) as (p1 & -> & Hi & _). exact Hi.
Qed.

(** X25.  An interval fires until it is stopped, and a tick never throws.
    A tick of the dashboard interval calls the API once, also when it
    served the cache.  A tick of a host interval calls the API once while
    its host is the current one; after the current host changed it does
    nothing, and the interval is still set. *)
Theorem refresh_tick_calls_the_api_for_the_current_view
    (id : nat) (r : refresh) (period now : Z) (p : Page) :
  intervals p !! id = Some (r, period) ->
  let run := interval_fires rt id now p in
  run.1 = Normal tt /\
  intervals run.2 = intervals p /\
  refreshInterval run.2 = refreshInterval p /\
  match r with
  | DashboardRefresh =>
      api_calls (store run.2) = api_calls (store p) ++ [GetDashboardData]
  | HostRefresh hostname hours =>
      if decide (currentHost (this (store p)) = Some hostname) then
        api_calls (store run.2) = api_calls (store p) ++ [GetHostMetrics hostname hours]
      else store run.2 = store p
  end.
Proof.
  intros Hid. cbv zeta. unfold interval_fires, bind, gets. cbn [fst snd].
  rewrite Hid. destruct r as [|hostname hours]; cbn [refresh_callback].
  - unfold on_store, detached.
    pose proof (fetchDashboardData_cached_calls now (store p)) as Hc.
    destruct (fetchDashboardData rt false now (store p)) as [c w'].
    cbn [fst snd] in *. repeat split. exact Hc.
  - unfold bind, gets. cbn [fst snd].
    destruct (currentHost (this (store p))) as [h|] eqn:Hh; cbn [is_currentHost].
    + destruct (String.eqb_spec hostname h) as [->|Hne].
      * rewrite decide_True by reflexivity.
        unfold on_store, detached.
        pose proof (fetchHostMetrics_cached_calls h hours now (store p)) as Hc.
        destruct (fetchHostMetrics rt h hours false now (store p)) as [c w'].
        cbn [fst snd] in *. repeat split. exact Hc.
      * rewrite decide_False by congruence. repeat split.
    + rewrite decide_False by congruence. repeat split.
Qed.

End AutoRefreshFacts.

(* ===================================================================== *)
(** ** More facts about the WebSocket service *)
(* ===================================================================== *)

Section Quiet.
Import WS.
Context {U : Type}.
Local Abbreviation World := (WS.World U).
Variable R : World -> World -> Prop.
Hypothesis R_refl : forall w, R w w.
Hypothesis R_trans : forall w1 w2 w3, R w1 w2 -> R w2 w3 -> R w1 w3.

Lemma quiet_ret {A} (a : A) : quiet R (ret a).
Proof. intros w. apply R_refl. Qed.

Lemma quiet_throw {A} (e : exn) : quiet R (throw (A := A) e).
Proof. intros w. apply R_refl. Qed.

Lemma quiet_gets {A} (g : World -> A) : quiet R (gets g).
Proof. intros w. apply R_refl. Qed.

Lemma quiet_stateless {A} (c : js World A) : (forall w, (c w).2 = w) -> quiet R c.
Proof. intros H w. rewrite H. apply R_refl. Qed.

Lemma quiet_bind {A B} (c : js World A) (k : A -> js World B) :
  quiet R c -> (forall a, quiet R (k a)) -> quiet R (bind c k).
Proof.
  intros Hc Hk w. unfold bind. specialize (Hc w).
  destruct (c w) as [[a|e] w1]; [|exact Hc].
  eapply R_trans; [exact Hc | apply Hk].
Qed.

Lemma quiet_try_catch {A} (body : js World A) (handler : exn -> js World A) :
  quiet R body -> (forall e, quiet R (handler e)) -> quiet R (try_catch body handler).
Proof.
  intros Hb Hh w. unfold try_catch. specialize (Hb w).
  destruct (body w) as [[a|e] w1]; [exact Hb|].
  eapply R_trans; [exact Hb | apply Hh].
Qed.

Lemma quiet_forEach {A} (callback : A -> js World unit) (l : list A) :
  (forall a, quiet R (callback a)) -> quiet R (forEach callback l).
Proof.
  intros Hc. induction l as [|a l IH]; [apply quiet_ret|].
  cbn [forEach]. apply quiet_bind; [apply Hc | intros _; exact IH].
Qed.

(** What is reached from a state related to [w] by a quiet computation is
    related to [w]. *)
Lemma quiet_after {A B} (c : js World A) (k : A -> js World B) (w : World) :
  R w (c w).2 -> (forall a, quiet R (k a)) -> R w (bind c k w).2.
Proof.
  intros Hc Hk. unfold bind. destruct (c w) as [[a|e] w1]; [|exact Hc].
  eapply R_trans; [exact Hc | apply Hk].
Qed.

End Quiet.

Lemma same_refl {U X} (view : WS.World U -> X) w : same view w w.
Proof. reflexivity. Qed.

Lemma same_trans {U X} (view : WS.World U -> X) w1 w2 w3 :
  same view w1 w2 -> same view w2 w3 -> same view w1 w3.
Proof. unfold same. congruence. Qed.

Lemma still_refl {U} (P : WS.World U -> Prop) w : still P w w.
Proof. intros H. exact H. Qed.

Lemma still_trans {U} (P : WS.World U -> Prop) w1 w2 w3 :
  still P w1 w2 -> still P w2 w3 -> still P w1 w3.
Proof. unfold still. auto. Qed.

(** The computations of the service that are not made of others. *)
Ltac is_primitive c :=
  lazymatch c with
  | WS.update _ => idtac
  | WS.console_log _ => idtac
  | WS.console_warn _ => idtac
  | WS.console_error _ => idtac
  | WS.clear_timer _ => idtac
  | WS.set_timer _ => idtac
  | WS.on_socket _ _ => idtac
  | WS.invoke _ _ => idtac
  | WS.new_WebSocket _ _ _ _ => idtac
  | Cache.JSON_stringify_js _ _ => idtac
  | Cache.JSON_parse_js _ _ => idtac
  | get_prop _ _ => idtac
  | modify _ => idtac
  end.

Ltac run_primitive :=
  unfold WS.update, WS.console_log, WS.console_warn, WS.console_error, WS.clear_timer,
    WS.set_timer, WS.on_socket, WS.invoke, WS.new_WebSocket, Cache.JSON_stringify_js,
    Cache.JSON_parse_js, get_prop, modify, ret, throw, WS.with_this, WS.with_sockets,
    WS.with_console;
  cbn [fst snd WS.this WS.sockets WS.timers WS.timer_log WS.user WS.console WS.emitted
       WS.calls];
  repeat match goal with
         | |- context [match ?x with _ => _ end] => destruct x
         | |- context [if ?x then _ else _] => destruct x
         end;
  cbn [fst snd WS.this WS.sockets WS.timers WS.timer_log WS.user WS.console WS.emitted
       WS.calls].

Ltac quiet_refl := first [exact (same_refl _) | exact (still_refl _)].
Ltac quiet_trans := first [exact (same_trans _) | exact (still_trans _)].

(** Splits a goal [quiet R c] along the structure of [c]; [leaf] is tried
    first on every part. *)
Ltac quiet_with leaf :=
  repeat first
    [ leaf
    | apply quiet_ret; [quiet_refl]
    | apply quiet_throw; [quiet_refl]
    | apply quiet_gets; [quiet_refl]
    | apply quiet_bind; [quiet_trans | | ]
    | apply quiet_try_catch; [quiet_trans | | ]
    | apply quiet_forEach; [quiet_refl | quiet_trans | ]
    | match goal with
      | |- forall _, _ => intros ?
      | |- quiet _ (match ?x with _ => _ end) => destruct x
      | |- quiet _ (if ?x then _ else _) => destruct x
      end
    | progress unfold WS.on, WS.off, WS.emit, WS.send, WS.connect, WS.scheduleReconnect,
        WS.reconnect_callback, WS.onopen, WS.onmessage, WS.onclose, WS.onerror,
        WS.disconnect, WS.stopHeartbeat, WS.startHeartbeat, WS.heartbeat_callback ].

(** A primitive shows the same view before and after. *)
Ltac same_leaf :=
  idtac;
  match goal with
  | |- quiet (same _) ?c =>
      is_primitive c; intros ?; unfold same; run_primitive; reflexivity
  end.

Ltac same_auto := quiet_with same_leaf.

Section ListenerFacts.
Import WS.
Context {U : Type}.
Variable rt : Runtime.
Local Abbreviation World := (WS.World U).

(** X13.  Subscriptions outlive connections: the listeners of a service
    change by [on] and [off] only.  No event of the browser and no other
    call ([connect], [disconnect], [send], the heartbeat) adds, removes or
    reorders a callback, so what was registered before a [disconnect] is
    invoked again after the next [connect]. *)
Theorem listeners_change_by_on_and_off_only (w : World) :
  (forall e, listeners (this (deliver rt e w).2) = listeners (this w)) /\
  (forall c, (forall name callback, c <> On name callback /\ c <> Off name callback) ->
             listeners (this (perform rt c w).2) = listeners (this w)).
Proof.
  split.
  - intros e.
    assert (H : quiet (same (fun w : World => listeners (this w))) (deliver rt e)).
    { destruct e; unfold deliver; same_auto. }
    apply H.
  - intros c Hc.
    assert (H : quiet (same (fun w : World => listeners (this w))) (perform rt c)).
    { destruct c; unfold perform; try same_auto.
      - destruct (Hc event0 callback) as [Hne _]. now contradiction Hne.
      - destruct (Hc event0 callback) as [_ Hne]. now contradiction Hne. }
    apply H.
Qed.

End ListenerFacts.

Section HeartbeatFacts.
Import WS.
Context {U : Type}.
Variable rt : Runtime.
Local Abbreviation World := (WS.World U).

Lemma stopHeartbeat_one (w : World) :
  one_heartbeat w ->
  one_heartbeat (stopHeartbeat w).2 /\
  heartbeatInterval (this (stopHeartbeat w).2) = None.
Proof.
  intros H. unfold stopHeartbeat, bind. cbn [gets].
  destruct (heartbeatInterval (this w)) as [hb|] eqn:Hhb; cbn.
  - split; [|reflexivity]. intros tid t Ht Hk. cbn in Ht.
    apply lookup_delete_Some in Ht as [Hne Ht].
    specialize (H tid t Ht Hk). congruence.
  - split; [exact H | exact Hhb].
Qed.

Lemma startHeartbeat_one interval (w : World) :
  one_heartbeat w -> one_heartbeat (startHeartbeat interval w).2.
Proof.
  intros H. unfold startHeartbeat. unfold bind at 1.
  destruct (stopHeartbeat_one w H) as [H1 Hnone].
  destruct (stopHeartbeat w) as [[[]|e] w1]; cbn [snd] in *; [|exact H1].
  intros tid t Ht Hk. cbn in Ht |- *.
  apply lookup_insert_Some in Ht as [[<- _]|[_ Ht]]; [reflexivity|].
  specialize (H1 tid t Ht Hk). congruence.
Qed.

Ltac heartbeat_leaf :=
  idtac;
  let Hw := fresh "Hw" in
  let Ht := fresh "Ht" in
  let Hk := fresh "Hk" in
  match goal with
  | |- quiet (still one_heartbeat) (set_timer {| kind := ReconnectTimer _ _; delay := _ |}) =>
      intros ? Hw ? ? Ht Hk; cbn in Ht |- *;
      apply lookup_insert_Some in Ht as [[_ <-]|[_ Ht]];
      [discriminate Hk | exact (Hw _ _ Ht Hk)]
  | |- quiet (still one_heartbeat) (clear_timer _) =>
      intros ? Hw ? ? Ht Hk; cbn in Ht |- *;
      apply lookup_delete_Some in Ht as [_ Ht]; exact (Hw _ _ Ht Hk)
  | |- quiet (still one_heartbeat) ?c =>
      is_primitive c; intros ? Hw; unfold one_heartbeat in *; run_primitive; exact Hw
  end.

Lemma perform_one_heartbeat c (w : World) :
  one_heartbeat w -> one_heartbeat (perform rt c w).2.
Proof.
  intros H. destruct c; cbn [perform].
  - assert (Hq : quiet (U := U) (still one_heartbeat) (connect rt path ps ;;; ret tt)).
    { quiet_with heartbeat_leaf. }
    apply Hq, H.
  - assert (Hq : quiet (U := U) (still one_heartbeat) disconnect) by quiet_with heartbeat_leaf.
    apply Hq, H.
  - assert (Hq : quiet (U := U) (still one_heartbeat) (send rt data))
      by quiet_with heartbeat_leaf.
    apply Hq, H.
  - assert (Hq : quiet (U := U) (still one_heartbeat) (on event0 callback)).
    { quiet_with heartbeat_leaf. }
    apply Hq, H.
  - assert (Hq : quiet (U := U) (still one_heartbeat) (off event0 callback))
      by quiet_with heartbeat_leaf.
    apply Hq, H.
  - now apply startHeartbeat_one.
  - now apply stopHeartbeat_one.
Qed.

Lemma deliver_one_heartbeat e (w : World) :
  one_heartbeat w -> one_heartbeat (deliver rt e w).2.
Proof.
  assert (Hq : quiet (U := U) (still one_heartbeat) (deliver rt e))
    by (destruct e; unfold deliver; quiet_with heartbeat_leaf).
  apply Hq.
Qed.

(** X20.  The heartbeat never doubles: in every state the service can be in,
    a pending heartbeat timer is the one [heartbeatInterval] holds, so at
    most one is pending however often [startHeartbeat] was called, and
    after [stopHeartbeat] none is. *)
Theorem at_most_one_heartbeat (w : World) :
  reachable rt w ->
  (forall tid t, timers w !! tid = Some t -> kind t = HeartbeatTimer ->
                 heartbeatInterval (this w) = Some tid) /\
  (forall tid1 t1 tid2 t2,
     timers w !! tid1 = Some t1 -> kind t1 = HeartbeatTimer ->
     timers w !! tid2 = Some t2 -> kind t2 = HeartbeatTimer -> tid1 = tid2) /\
  (forall tid t, timers (stopHeartbeat w).2 !! tid = Some t -> kind t <> HeartbeatTimer).
Proof.
  intros Hr.
  assert (H : one_heartbeat w).
  { induction Hr as [u | c w _ IH | e w _ IH].
    - intros tid t Ht. cbn in Ht. rewrite lookup_empty in Ht. discriminate Ht.
    - now apply perform_one_heartbeat.
    - now apply deliver_one_heartbeat. }
  split; [exact H|]. split.
  - intros tid1 t1 tid2 t2 H1 K1 H2 K2.
    pose proof (H tid1 t1 H1 K1). pose proof (H tid2 t2 H2 K2). congruence.
  - intros tid t Ht Hk. destruct (stopHeartbeat_one w H) as [H1 Hnone].
    specialize (H1 tid t Ht Hk). congruence.
Qed.

End HeartbeatFacts.

Section DelayFacts.
Import WS.
Context {U : Type}.
Variable rt : Runtime.
Local Abbreviation World := (WS.World U).

Lemma scheduleReconnect_delays path ps :
  quiet (U := U) (still delays_in_range) (scheduleReconnect path ps).
Proof.
  intros w (Hmax & Hd & Hlog).
  unfold scheduleReconnect, bind. cbn [gets].
  destruct (reconnectInterval (this w)) as [old|]; cbn;
    (split; [exact Hmax|]; split; [exact Hd|]);
    intros t Hin Hk; apply elem_of_app in Hin as [Hin|Hin];
    try (apply (Hlog t Hin Hk));
    apply list_elem_of_singleton in Hin; subst t; exact Hd.
Qed.

Ltac delay_leaf :=
  idtac;
  let Hmax := fresh "Hmax" in
  let Hd := fresh "Hd" in
  let Hlog := fresh "Hlog" in
  let Hin := fresh "Hin" in
  let Hk := fresh "Hk" in
  match goal with
  | |- quiet (still delays_in_range) (scheduleReconnect _ _) =>
      apply scheduleReconnect_delays
  | |- quiet (still delays_in_range) (set_timer {| kind := HeartbeatTimer; delay := _ |}) =>
      intros ? (Hmax & Hd & Hlog); cbn;
      (split; [exact Hmax|]; split; [exact Hd|]);
      intros ? Hin Hk; apply elem_of_app in Hin as [Hin|Hin];
      [ apply (Hlog _ Hin Hk)
      | apply list_elem_of_singleton in Hin; subst; discriminate Hk ]
  | |- quiet (still delays_in_range) ?c =>
      is_primitive c; intros ? (Hmax & Hd & Hlog);
      unfold delays_in_range; run_primitive;
      cbn [maxReconnectDelay reconnectDelay set_socket set_reconnectInterval
           set_reconnectAttempts set_reconnectDelay set_listeners set_isConnected
           set_isConnecting set_heartbeatInterval];
      rewrite ?Hmax; (split; [reflexivity || exact Hmax|]); (split; [lia|]); exact Hlog
  end.

Lemma perform_delays c (w : World) :
  delays_in_range w -> delays_in_range (perform rt c w).2.
Proof.
  assert (Hq : quiet (U := U) (still delays_in_range) (perform rt c)).
  { destruct c; unfold perform; quiet_with delay_leaf. }
  apply Hq.
Qed.

Lemma deliver_delays e (w : World) :
  delays_in_range w -> delays_in_range (deliver rt e w).2.
Proof.
  assert (Hq : quiet (U := U) (still delays_in_range) (deliver rt e))
    by (destruct e; unfold deliver; quiet_with delay_leaf).
  apply Hq.
Qed.

(** X21.  The backoff stays within its bounds: in every state the service
    can be in, [reconnectDelay] lies between 1000 and 30000 ms, and so does
    the delay of every reconnect timer that was ever set. *)
Theorem reconnect_delays_stay_in_range (w : World) :
  reachable rt w ->
  1000 <= reconnectDelay (this w) <= 30000 /\
  forall t, t ∈ timer_log w -> is_reconnect t = true -> 1000 <= delay t <= 30000.
Proof.
  intros Hr.
  assert (H : delays_in_range w).
  { induction Hr as [u | c w _ IH | e w _ IH].
    - split; [reflexivity|]. split; [cbn; lia|].
      intros t Hin. cbn in Hin. inversion Hin.
    - now apply perform_delays.
    - now apply deliver_delays. }
  destruct H as (_ & Hd & Hlog). split; assumption.
Qed.

End DelayFacts.

Section SubscriptionFacts.
Import WS.
Context {U : Type}.
Variable rt : Runtime.
Local Abbreviation World := (WS.World U).
Local Abbreviation Handler := (WS.Handler U).

Lemma remove_first_split (id : nat) (l1 l2 : list Handler) (h : Handler) :
  hid h = id -> (forall x, x ∈ l1 -> hid x <> id) ->
  remove_first id (l1 ++ h :: l2) = l1 ++ l2.
Proof.
  intros Hh. induction l1 as [|x l1 IH]; intros Hl1; cbn.
  - rewrite Hh, Nat.eqb_refl. reflexivity.
  - destruct (Nat.eqb_spec (hid x) id) as [E|_].
    + exfalso. apply (Hl1 x); [apply list_elem_of_here | exact E].
    + f_equal. apply IH. intros y Hy. apply Hl1. now apply list_elem_of_further.
Qed.

Lemma remove_first_absent (id : nat) (l : list Handler) :
  (forall x, x ∈ l -> hid x <> id) -> remove_first id l = l.
Proof.
  induction l as [|x l IH]; intros Hl; cbn; [reflexivity|].
  destruct (Nat.eqb_spec (hid x) id) as [E|_].
  - exfalso. apply (Hl x); [apply list_elem_of_here | exact E].
  - f_equal. apply IH. intros y Hy. apply Hl. now apply list_elem_of_further.
Qed.

(** X14.  [off] takes back one registration: the first one of that callback
    under that event, leaving the others in order, and nothing when the
    callback is not registered or the event is unknown; other events are
    never touched.  So [off] after [on] restores the list of a callback
    that was not registered before. *)
Theorem off_removes_one_registration (name : string) (h : Handler) (w : World) :
  let registered := default [] (listeners (this w) !! name) in
  let w' := (off name h w).2 in
  (forall other, other <> name -> listeners (this w') !! other = listeners (this w) !! other) /\
  (forall l1 h' l2,
     registered = l1 ++ h' :: l2 -> hid h' = hid h ->
     (forall x, x ∈ l1 -> hid x <> hid h) ->
     listeners (this w') !! name = Some (l1 ++ l2)) /\
  ((forall x, x ∈ registered -> hid x <> hid h) ->
   listeners (this w') !! name = listeners (this w) !! name /\
   listeners (this (off name h (on name h w).2).2) !! name = Some registered /\
   calls (emit (JStr name) JNull (off name h (on name h w).2).2).2
     = calls (emit (JStr name) JNull w).2).
Proof.
  intros registered w'.
  assert (Hoff : forall w0 : World,
            listeners (this (off name h w0).2) =
              match listeners (this w0) !! name with
              | Some callbacks =>
                  <[name := remove_first (hid h) callbacks]> (listeners (this w0))
              | None => listeners (this w0)
              end).
  { intros w0. cbn. destruct (listeners (this w0) !! name); reflexivity. }
  split; [|split].
  - intros other Hne. subst w'. rewrite Hoff.
    destruct (listeners (this w) !! name); [|reflexivity].
    apply lookup_insert_ne. congruence.
  - intros l1 h' l2 Hreg Hh Hl1. subst w' registered. rewrite Hoff.
    destruct (listeners (this w) !! name) as [callbacks|] eqn:Hl; cbn in Hreg.
    + subst callbacks. rewrite lookup_insert_eq. f_equal.
      now apply remove_first_split.
    + destruct l1; discriminate Hreg.
  - intros Habsent.
    assert (Hon : listeners (this (on name h w).2) !! name = Some (registered ++ [h])).
    { cbn. apply lookup_insert_eq. }
    split; [|split].
    + subst w' registered. rewrite Hoff.
      destruct (listeners (this w) !! name) as [callbacks|] eqn:Hl; [|exact Hl].
      rewrite lookup_insert_eq. f_equal. now apply remove_first_absent.
    + rewrite Hoff, Hon, lookup_insert_eq. f_equal.
      rewrite <- (app_nil_r registered) at 2.
      now apply remove_first_split.
    + assert (Hls : listeners (this (off name h (on name h w).2).2) !! name = Some registered).
      { rewrite Hoff, Hon, lookup_insert_eq. f_equal.
        rewrite <- (app_nil_r registered) at 2.
        now apply remove_first_split. }
      assert (Hcalls : calls (off name h (on name h w).2).2 = calls w) by reflexivity.
      destruct (emit_spec (JStr name) JNull (off name h (on name h w).2).2)
        as (w1 & -> & _ & _ & Hc1 & _).
      destruct (emit_spec (JStr name) JNull w) as (w2 & -> & _ & _ & Hc2 & _).
      cbn [snd]. cbv zeta in Hc1, Hc2. rewrite Hc1, Hc2, Hls, Hcalls. reflexivity.
Qed.

(** X15.  What a message fires.  A text that parses is announced to the
    [message] listeners first, whatever it parsed to (also [null] or a
    number); then, when it is an object whose [type] is truthy, to the
    listeners of that type (none when the type is not a string).  The
    handler never throws and changes nothing of the service, its sockets or
    its timers. *)
Theorem message_fires_generic_then_typed (text : string) (data : jsval) (w : World) :
  JSON_parse rt text = Some data ->
  let type := match data with JObj fields => obj_lookup fields "type" | _ => JUndefined end in
  let generic := default [] (listeners (this w) !! "message") in
  let typed := match type with
               | JStr name => if truthy type then default [] (listeners (this w) !! name) else []
               | _ => []
               end in
  exists w',
    onmessage rt text w = (Normal tt, w') /\
    same_service w w' /\
    emitted w' = emitted w ++ (JStr "message", data)
                           :: (if truthy type then [(type, data)] else []) /\
    calls w' = calls w ++ map (fun h => (hid h, data)) (generic ++ typed).
Proof.
  intros Hparse type generic typed.
  unfold onmessage, try_catch. unfold bind at 1. unfold Cache.JSON_parse_js.
  rewrite Hparse. cbn [ret].
  unfold bind at 1. cbn [console_log modify].
  set (w0 := with_console _ w).
  destruct (emit_spec (JStr "message") data w0) as (w1 & He1 & Hs1 & Hem1 & Hc1 & _).
  unfold bind at 1. rewrite He1.
  cbv zeta in Hc1. change (listeners (this w0)) with (listeners (this w)) in Hc1.
  fold generic in Hc1.
  destruct Hs1 as (Hthis1 & Hsock1 & Htim1 & Hlog1).
  assert (Hgen : forall (r : completion unit) (wr : World),
            wr = with_console (ConsoleError "Error parsing WebSocket message:") w1 \/ wr = w1 ->
            truthy type = false -> typed = [] ->
            same_service w wr /\
            emitted wr = emitted w ++ (JStr "message", data)
                                   :: (if truthy type then [(type, data)] else []) /\
            calls wr = calls w ++ map (fun h => (hid h, data)) (generic ++ typed)).
  { intros r wr Hwr Hty Htyped. rewrite Hty, Htyped, app_nil_r.
    destruct Hwr as [-> | ->]; cbn; rewrite ?Hem1, ?Hc1; repeat split;
      cbn; first [rewrite Hthis1 | rewrite Hsock1 | rewrite Htim1 | rewrite Hlog1];
      reflexivity. }
  destruct data as [| |b|n|str|items|fields]; cbn [get_prop throw ret];
    try (unfold bind; cbn [get_prop throw ret truthy];
         eexists; split; [reflexivity|];
         apply (Hgen (Normal tt)); [auto | reflexivity | reflexivity]).
  unfold bind at 1. cbn [ret]. fold type.
  destruct (truthy type) eqn:Hty.
  - destruct (emit_spec type (JObj fields) w1) as (w2 & He2 & Hs2 & Hem2 & Hc2 & _).
    rewrite He2. exists w2. split; [reflexivity|].
    destruct Hs2 as (Hthis2 & Hsock2 & Htim2 & Hlog2).
    split; [unfold same_service; rewrite Hthis2, Hthis1, Hsock2, Hsock1, Htim2, Htim1,
                                          Hlog2, Hlog1; repeat split|].
    split; [rewrite Hem2, Hem1, <- app_assoc; reflexivity|].
    cbv zeta in Hc2. rewrite Hc2, Hc1, map_app, <- app_assoc. f_equal. f_equal.
    subst typed. rewrite Hthis1. change (this w0) with (this w).
    destruct type; try reflexivity; now rewrite Hty.
  - eexists. split; [reflexivity|].
    apply (Hgen (Normal tt)); [auto | reflexivity |].
    subst typed. destruct type; try reflexivity; now rewrite Hty.
Qed.

End SubscriptionFacts.

Section DisconnectFacts.
Import WS.
Context {U : Type}.
Variable rt : Runtime.
Local Abbreviation World := (WS.World U).





End DisconnectFacts.

Section ConnectFacts.
Import WS.
Context {U : Type}.
Variable rt : Runtime.
Local Abbreviation World := (WS.World U).

Lemma connect_refused (path : string) (ps : list string) (w : World) :
  isConnecting (this w) = false ->
  isConnected (this w) = false ->
  WebSocket_throws rt (getWebSocketUrl rt path) ps = true ->
  connect rt path ps w =
    (Normal Promise_rejected, with_console (ConsoleLog "Connecting to WebSocket: ") w).
Proof.
  intros Hg Hc Hthrow. unfold connect. unfold bind at 1. cbn [gets].
  rewrite Hg, Hc. cbn [orb].
  unfold bind at 1. cbn [update modify].
  unfold bind at 1. cbn [console_log modify].
  unfold try_catch, bind, new_WebSocket. rewrite Hthrow.
  cbn [update modify ret]. f_equal.
  destruct w as [s ? ? ? ? ? ? ?]. destruct s. cbn in *. subst. reflexivity.
Qed.

(** X17.  When [new WebSocket] throws, [connect] returns a rejected promise
    and leaves the service as it was: no socket, no flag raised.  In a
    reconnect this ends the retries: the attempt is counted and logged, and
    since no socket exists whose close event could schedule the next one,
    no timer is set. *)
Theorem constructor_failure_ends_the_retries (path : string) (ps : list string) (w : World) :
  isConnecting (this w) = false ->
  isConnected (this w) = false ->
  WebSocket_throws rt (getWebSocketUrl rt path) ps = true ->
  connect rt path ps w =
    (Normal Promise_rejected, with_console (ConsoleLog "Connecting to WebSocket: ") w) /\
  forall tid d now,
    timers w !! tid = Some {| kind := ReconnectTimer path ps; delay := d |} ->
    let w' := (deliver rt (TimerFire tid now) w).2 in
    sockets w' = sockets w /\
    socket (this w') = socket (this w) /\
    timer_log w' = timer_log w /\
    timers w' = delete tid (timers w) /\
    reconnectAttempts (this w') = S (reconnectAttempts (this w)) /\
    isConnecting (this w') = false /\
    isConnected (this w') = false /\
    console w' = console w ++ [ConsoleLog "Connecting to WebSocket: ";
                               ConsoleError "Reconnection failed:"].
Proof.
  intros Hg Hc Hthrow. split; [now apply connect_refused|].
  intros tid d now Ht. cbv zeta.
  remember (deliver rt (TimerFire tid now) w) as r eqn:Hr. revert Hr.
  unfold deliver. unfold bind at 1. cbn [gets]. rewrite Ht.
  cbn [fmap option_fmap option_map kind].
  unfold bind at 1. cbn [clear_timer modify].
  unfold reconnect_callback.
  unfold bind at 1. cbn [update modify].
  unfold bind at 1. cbn [update modify].
  unfold bind at 1.
  rewrite connect_refused; [|exact Hg|exact Hc|exact Hthrow].
  intros ->. cbn. rewrite <- app_assoc. repeat split; assumption.
Qed.

(** X19.  The heartbeat pings a connected socket only: when the interval
    fires while [isSocketConnected()] holds, one [ping] carrying the time
    goes out on the current socket and nothing else changes; when it does
    not hold, nothing happens at all, not even a warning.  The interval
    stays pending either way. *)
Theorem heartbeat_pings_a_connected_socket_only
    (tid : nat) (t : Timer) (now : Z) (w : World) :
  timers w !! tid = Some t -> kind t = HeartbeatTimer ->
  (isSocketConnected w = false ->
   deliver rt (TimerFire tid now) w = (Normal tt, w)) /\
  (isSocketConnected w = true ->
   forall text,
     JSON_stringify rt (JObj [("type", JStr "ping"); ("timestamp", JNum now)]) = Some text ->
     exists id,
       socket (this w) = Some id /\
       deliver rt (TimerFire tid now) w =
         (Normal tt,
          with_console (ConsoleLog "WebSocket message sent:")
            (with_sockets (alter (socket_send text) id) w))) /\
  timers (deliver rt (TimerFire tid now) w).2 !! tid = Some t.
Proof.
  intros Ht Hk.
  assert (Hrun : deliver rt (TimerFire tid now) w = heartbeat_callback rt now w).
  { unfold deliver, bind. cbn [gets]. rewrite Ht.
    cbn [fmap option_fmap option_map]. rewrite Hk. reflexivity. }
  assert (Hcb : heartbeat_callback rt now w =
                if isSocketConnected w
                then send rt (JObj [("type", JStr "ping"); ("timestamp", JNum now)]) w
                else (Normal tt, w)).
  { unfold heartbeat_callback, bind. cbn [gets].
    destruct (isSocketConnected w); reflexivity. }
  rewrite Hrun, Hcb. clear Hrun Hcb.
  assert (Hq : quiet (U := U) (same (fun w : World => timers w))
                 (send rt (JObj [("type", JStr "ping"); ("timestamp", JNum now)])))
    by same_auto.
  split; [|split].
  - intros ->. reflexivity.
  - intros Hconn text Hs. rewrite Hconn.
    unfold isSocketConnected in Hconn. apply andb_true_iff in Hconn as [_ Hconn].
    destruct (socket (this w)) as [id|] eqn:Hid; [|discriminate Hconn].
    destruct (sockets w !! id) as [s|] eqn:Hsock; [|discriminate Hconn].
    destruct (readyState s) eqn:Hready; try discriminate Hconn.
    exists id. split; [reflexivity|].
    unfold send. unfold bind at 1. cbn [gets]. rewrite Hid, Hsock, Hready.
    unfold bind at 1. unfold Cache.JSON_stringify_js. rewrite Hs. cbn [ret].
    reflexivity.
  - destruct (isSocketConnected w); [|exact Ht].
    unfold quiet, same in Hq. rewrite Hq. exact Ht.
Qed.

Lemma list_alter_at {A} (f : A -> A) (l : list A) (i : nat) (x : A) :
  l !! i = Some x -> alter f i l = <[i := f x]> l.
Proof.
  revert i. induction l as [|y l IH]; intros [|i] H; try discriminate H.
  - injection H as ->. reflexivity.
  - cbn. f_equal. now apply IH.
Qed.

(** What [send] does with a value that [JSON.stringify] turns into [text]. *)
Lemma send_run (data : jsval) (text : string) (w : World) :
  (match data with JStr s => s = text | _ => JSON_stringify rt data = Some text end) ->
  send rt data w =
    (Normal tt,
     match socket (this w) with
     | Some id =>
         match sockets w !! id with
         | Some s =>
             match readyState s with
             | OPEN => with_console (ConsoleLog "WebSocket message sent:")
                         (with_sockets (alter (socket_send text) id) w)
             | _ => with_console
                      (ConsoleWarn "WebSocket not connected, cannot send message:") w
             end
         | None => with_console
                     (ConsoleWarn "WebSocket not connected, cannot send message:") w
         end
     | None => with_console (ConsoleWarn "WebSocket not connected, cannot send message:") w
     end).
Proof.
  intros Hs. unfold send. unfold bind at 1. cbn [gets].
  destruct (socket (this w)) as [id|]; [|reflexivity].
  destruct (sockets w !! id) as [s|]; [|reflexivity].
  destruct (readyState s); try reflexivity.
  unfold bind at 1.
  destruct data; unfold Cache.JSON_stringify_js; rewrite ?Hs; subst; reflexivity.
Qed.

(** X16.  What an open event does.  The socket that opens becomes [OPEN],
    the service counts as connected, the backoff is reset and a pending
    reconnect timer is cancelled, [connected] is emitted and the promise of
    that [connect] call is resolved.  The [subscribe_all] message goes out
    on the socket the service holds at that moment: on the opening socket
    when it is the current one, and nowhere when the service holds none
    (a close event of an earlier socket arrived in between): the service
    is then connected without a subscription. *)
Theorem open_subscribes_on_the_current_socket
    (id : nat) (s : Socket) (text : string) (w : World) :
  sockets w !! id = Some s ->
  readyState s = CONNECTING ->
  JSON_stringify rt (JObj [("type", JStr "subscribe_all")]) = Some text ->
  let w' := (deliver rt (SocketOpen id) w).2 in
  isConnected (this w') = true /\
  isConnecting (this w') = false /\
  reconnectAttempts (this w') = 0%nat /\
  reconnectDelay (this w') = 1000 /\
  reconnectInterval (this w') = None /\
  (forall old, reconnectInterval (this w) = Some old -> timers w' !! old = None) /\
  emitted w' = emitted w ++ [(JStr "connected", open_event)] /\
  (socket (this w) = Some id ->
   sockets w' = <[id := settle true (socket_send text (with_readyState OPEN s))]> (sockets w)) /\
  (socket (this w) = None ->
   sockets w' = <[id := settle true (with_readyState OPEN s)]> (sockets w) /\
   isSocketConnected w' = false).
Proof.
  intros Hsock Hready Hs. cbv zeta.
  remember (deliver rt (SocketOpen id) w) as r eqn:Hr. revert Hr.
  unfold deliver. unfold bind at 1. cbn [gets]. rewrite Hsock.
  cbn [fmap option_fmap option_map]. rewrite Hready.
  unfold bind at 1. cbn [on_socket modify].
  unfold onopen.
  do 5 (unfold bind at 1; cbn [console_log update modify]).
  unfold bind at 1. cbn [gets].
  set (wA := with_this _ _).
  assert (HA : this wA = set_reconnectDelay 1000
                           (set_reconnectAttempts 0%nat
                              (set_isConnecting false (set_isConnected true (this w)))) /\
               sockets wA = alter (with_readyState OPEN) id (sockets w) /\
               timers wA = timers w /\ emitted wA = emitted w) by (repeat split).
  clearbody wA. destruct HA as (HAthis & HAsock & HAtim & HAem).
  unfold bind at 1.
  set (wB := (match reconnectInterval (this wA) with
              | Some t => clear_timer t;;; update (set_reconnectInterval None)
              | None => ret tt
              end wA)).
  assert (HB : wB.1 = Normal tt /\
               reconnectInterval (this wB.2) = None /\
               isConnected (this wB.2) = true /\ isConnecting (this wB.2) = false /\
               reconnectAttempts (this wB.2) = 0%nat /\ reconnectDelay (this wB.2) = 1000 /\
               socket (this wB.2) = socket (this w) /\
               sockets wB.2 = sockets wA /\ emitted wB.2 = emitted w /\
               (forall old, reconnectInterval (this w) = Some old ->
                            timers wB.2 !! old = None)).
  { subst wB. rewrite HAthis. cbn [reconnectInterval set_reconnectDelay
      set_reconnectAttempts set_isConnecting set_isConnected].
    destruct (reconnectInterval (this w)) as [old|] eqn:Hold.
    - cbn. rewrite HAthis, HAtim, HAem. cbn. repeat split.
      intros old' [= <-]. apply lookup_delete_eq.
    - cbn. rewrite HAthis, HAem. cbn. repeat split; try assumption.
      intros old' [=]. }
  destruct wB as [rB wB']. cbn [fst snd] in HB.
  destruct HB as (-> & HBi & HBc & HBg & HBa & HBd & HBs & HBsock & HBem & HBold).
  unfold bind at 1.
  rewrite (send_run (JObj [("type", JStr "subscribe_all")]) text wB' Hs).
  set (wC := match socket (this wB') with Some _ => _ | None => _ end).
  assert (HC : this wC = this wB' /\ timers wC = timers wB' /\ emitted wC = emitted wB' /\
               (socket (this w) = Some id ->
                sockets wC = alter (socket_send text) id (sockets wB')) /\
               (socket (this w) = None -> sockets wC = sockets wB')).
  { subst wC. rewrite HBs.
    destruct (socket (this w)) as [cur|] eqn:Hcur.
    - destruct (sockets wB' !! cur) as [sc|] eqn:Hsc.
      + destruct (readyState sc) eqn:Hrs; cbn; repeat split; try discriminate;
          intros [= ->]; try reflexivity;
          rewrite HBsock, HAsock, list_lookup_alter_eq, Hsock in Hsc;
          injection Hsc as <-; discriminate Hrs.
      + cbn. repeat split; try discriminate.
        intros [= ->]. rewrite HBsock, HAsock, list_lookup_alter_eq, Hsock in Hsc.
        discriminate Hsc.
    - cbn. repeat split. discriminate. }
  clearbody wC. destruct HC as (HCthis & HCtim & HCem & HCcur & HCnone).
  unfold bind at 1.
  destruct (emit_spec (JStr "connected") open_event wC)
    as (wD & -> & (HDthis & HDsock & HDtim & _) & HDem & _).
  cbn [on_socket modify]. intros ->. cbn [snd].
  unfold on_socket, modify. cbn [snd this sockets timers emitted with_sockets].
  rewrite HDthis, HCthis, HDtim, HCtim, HDem, HCem, HBem, HDsock.
  repeat (split; [assumption || reflexivity|]).
  split.
  - intros Hcur. rewrite (HCcur Hcur), HBsock, HAsock, !list_alter_alter_eq.
    rewrite (list_alter_at _ _ _ s Hsock). reflexivity.
  - intros Hnone. rewrite (HCnone Hnone), HBsock, HAsock, list_alter_alter_eq.
    split; [rewrite (list_alter_at _ _ _ s Hsock); reflexivity|].
    unfold isSocketConnected. cbn [this with_sockets].
    rewrite HDthis, HCthis, HBs, Hnone. apply andb_false_r.
Qed.

End ConnectFacts.

Section HandshakeFacts.
Import WS.
Context {U : Type}.
Variable rt : Runtime.
Local Abbreviation World := (WS.World U).

Lemma readyState_alter (f : Socket -> Socket) (id : nat) (l : list Socket) :
  (forall s, readyState (f s) = readyState s) ->
  readyState <$> alter f id l = readyState <$> l.
Proof.
  intros Hf. revert id. induction l as [|s l IH]; intros [|id]; cbn; try reflexivity.
  - now rewrite Hf.
  - f_equal. apply IH.
Qed.

Lemma handshake_progress (w w' : World) :
  handshake w' = handshake w -> connecting_in_progress w -> connecting_in_progress w'.
Proof.
  unfold handshake, connecting_in_progress. intros [= -> -> -> ->]. auto.
Qed.

Lemma not_connecting_progress (w : World) : not_connecting w -> connecting_in_progress w.
Proof. unfold not_connecting, connecting_in_progress. congruence. Qed.

(** A computation that ends with [isConnecting] down, when what follows
    the lowering does not raise it. *)
Lemma then_still {A B} (P : World -> Prop) (c : js World A) (k : A -> js World B) (w : World) :
  P (c w).2 -> (forall a, quiet (still P) (k a)) -> P (bind c k w).2.
Proof.
  intros Hc Hk. unfold bind. destruct (c w) as [[a|e] w1]; [|exact Hc].
  apply Hk. exact Hc.
Qed.

Ltac handshake_leaf :=
  idtac;
  match goal with
  | |- quiet (same handshake) (on_socket _ (socket_send _)) =>
      intros ?; unfold same, handshake; cbn;
      rewrite readyState_alter by reflexivity; reflexivity
  | |- quiet (same handshake) (on_socket _ (settle _)) =>
      intros ?; unfold same, handshake; cbn;
      rewrite readyState_alter by (intros s0; unfold settle; destruct (settled s0); reflexivity);
      reflexivity
  | |- quiet (same handshake) ?c =>
      is_primitive c; intros ?; unfold same, handshake; run_primitive;
      rewrite ?length_app; reflexivity
  end.

Ltac lowered_leaf :=
  idtac;
  let Hw := fresh "Hw" in
  match goal with
  | |- quiet (still _) ?c =>
      is_primitive c; intros ? Hw; unfold not_connecting in *; run_primitive; exact Hw
  end.

Lemma send_handshake data : quiet (U := U) (same handshake) (send rt data).
Proof. quiet_with handshake_leaf. Qed.

Lemma emit_handshake event data : quiet (U := U) (same handshake) (emit event data).
Proof. quiet_with handshake_leaf. Qed.

Lemma connect_progress path ps (w : World) :
  connecting_in_progress w -> connecting_in_progress (connect rt path ps w).2.
Proof.
  intros H.
  destruct (isConnecting (this w) || isConnected (this w))%bool eqn:Hbusy.
  - unfold connect. unfold bind at 1. cbn [gets]. rewrite Hbusy.
    apply (handshake_progress w); [reflexivity | exact H].
  - apply orb_false_iff in Hbusy as [Hg Hc].
    destruct (WebSocket_throws rt (getWebSocketUrl rt path) ps) eqn:Hthrow.
    + rewrite (connect_refused rt path ps w Hg Hc Hthrow).
      apply (handshake_progress w); [reflexivity | exact H].
    + rewrite (connect_fresh rt path ps w Hg Hc Hthrow). cbn [snd].
      intros _. cbn. split; [exact Hc|].
      exists (length (sockets w)). split; [reflexivity|].
      rewrite fmap_app. cbn.
      rewrite lookup_app_r by (rewrite length_fmap; lia).
      rewrite length_fmap, Nat.sub_diag. reflexivity.
Qed.

Lemma disconnect_lowered (w : World) : not_connecting (disconnect w).2.
Proof.
  unfold not_connecting, disconnect, bind, gets.
  destruct (reconnectInterval (this w)) as [old|];
  destruct (socket (this w)) as [id|] eqn:Hs;
    unfold clear_timer, console_log, update, on_socket, modify, ret;
    cbn [this with_console with_this with_sockets socket set_reconnectInterval fst snd];
    rewrite ?Hs; reflexivity.
Qed.

Lemma onopen_lowered id (w : World) : not_connecting (onopen rt id w).2.
Proof.
  unfold onopen.
  do 2 (unfold bind at 1; cbn [console_log update modify]).
  apply then_still; [reflexivity|].
  intros _. quiet_with lowered_leaf.
Qed.

Lemma onclose_lowered path ps code reason (w : World) :
  not_connecting (onclose path ps code reason w).2.
Proof.
  unfold onclose.
  do 2 (unfold bind at 1; cbn [console_log update modify]).
  apply then_still; [reflexivity|].
  intros _. quiet_with lowered_leaf.
Qed.

Lemma perform_progress c (w : World) :
  connecting_in_progress w -> connecting_in_progress (perform rt c w).2.
Proof.
  intros H. destruct c; cbn [perform].
  - unfold bind. pose proof (connect_progress path ps w H) as Hc.
    destruct (connect rt path ps w) as [[p|e] w1]; exact Hc.
  - apply not_connecting_progress, disconnect_lowered.
  - apply (handshake_progress w); [apply send_handshake | exact H].
  - apply (handshake_progress w); [|exact H].
    assert (Hq : quiet (U := U) (same handshake) (on event0 callback))
      by quiet_with handshake_leaf.
    apply Hq.
  - apply (handshake_progress w); [|exact H].
    assert (Hq : quiet (U := U) (same handshake) (off event0 callback))
      by quiet_with handshake_leaf.
    apply Hq.
  - apply (handshake_progress w); [|exact H].
    assert (Hq : quiet (U := U) (same handshake) (startHeartbeat interval))
      by quiet_with handshake_leaf.
    apply Hq.
  - apply (handshake_progress w); [|exact H].
    assert (Hq : quiet (U := U) (same handshake) stopHeartbeat)
      by quiet_with handshake_leaf.
    apply Hq.
Qed.

Lemma deliver_progress e (w : World) :
  connecting_in_progress w -> connecting_in_progress (deliver rt e w).2.
Proof.
  intros H. destruct e; cbn [deliver]; unfold bind at 1; cbn [gets].
  - destruct (readyState <$> sockets w !! id) as [[]|]; try exact H.
    apply not_connecting_progress.
    unfold bind. cbn [on_socket modify]. apply onopen_lowered.
  - assert (Hq : quiet (U := U) (same handshake) (onmessage rt text))
      by (unfold onmessage; quiet_with handshake_leaf).
    destruct (readyState <$> sockets w !! id) as [[]|]; try exact H;
      (apply (handshake_progress w); [apply Hq | exact H]).
  - destruct (sockets w !! id) as [s|]; [|exact H].
    destruct (readyState s); try exact H;
      apply not_connecting_progress; unfold bind; cbn [on_socket modify];
      apply onclose_lowered.
  - destruct (sockets w !! id) as [s|]; [|exact H].
    destruct (readyState s); try exact H;
      apply not_connecting_progress; unfold bind at 1; cbn [on_socket modify];
      unfold bind at 1, try_catch;
      match goal with |- context [onerror id ?w0] =>
        destruct (onerror id w0) as [[[]|e] w1] end;
      cbn [ret]; apply onclose_lowered.
  - destruct (timers w !! id) as [t|]; cbn [fmap option_fmap option_map]; [|exact H].
    destruct (kind t) as [path ps|].
    + unfold bind at 1. cbn [clear_timer modify]. unfold reconnect_callback.
      do 2 (unfold bind at 1; cbn [update modify]).
      unfold bind at 1.
      match goal with |- context [connect rt path ps ?w0] =>
        assert (H0 : connecting_in_progress w0)
          by (apply (handshake_progress w); [reflexivity | exact H]);
        pose proof (connect_progress path ps w0 H0) as Hc;
        destruct (connect rt path ps w0) as [[p|e] w1] end; [|exact Hc].
      destruct p; exact Hc.
    + apply (handshake_progress w); [|exact H].
      assert (Hq : quiet (U := U) (same handshake) (heartbeat_callback rt now))
        by quiet_with handshake_leaf.
      apply Hq.
Qed.

(** X22.  [isConnecting] is never stale: in every state the service can be
    in, while the flag is up [isConnected] is down and the socket the
    service holds is one whose handshake is in progress, so that an open,
    error or close event will lower the flag again. *)
Theorem connecting_flag_is_never_stale (w : World) :
  reachable rt w ->
  isConnecting (this w) = true ->
  isConnected (this w) = false /\
  exists id s, socket (this w) = Some id /\ sockets w !! id = Some s /\
               readyState s = CONNECTING.
Proof.
  intros Hr.
  assert (H : connecting_in_progress w).
  { induction Hr as [u | c w _ IH | e w _ IH].
    - intros Hg. discriminate Hg.
    - now apply perform_progress.
    - now apply deliver_progress. }
  intros Hg. destruct (H Hg) as (Hc & id & Hid & Hst).
  split; [exact Hc|]. exists id.
  rewrite list_lookup_fmap in Hst.
  destruct (sockets w !! id) as [s|]; [|discriminate Hst].
  exists s. injection Hst as Hst. repeat split; assumption.
Qed.

Lemma handshake_open (w w' : World) :
  handshake w' = handshake w -> open_is_connected w -> open_is_connected w'.
Proof.
  unfold handshake, open_is_connected. intros [= _ Hc Hs Hst] H id.
  rewrite Hc, Hs, Hst. apply H.
Qed.

Lemma no_socket_open (w : World) : no_socket w -> open_is_connected w.
Proof. unfold no_socket, open_is_connected. congruence. Qed.

Lemma connected_open (w : World) : connected w -> open_is_connected w.
Proof. unfold connected, open_is_connected. auto. Qed.

Ltac settled_leaf :=
  idtac;
  let Hw := fresh "Hw" in
  match goal with
  | |- quiet (still _) ?c =>
      is_primitive c; intros ? Hw; unfold no_socket, connected in *; run_primitive; exact Hw
  end.

Lemma connect_open path ps (w : World) :
  open_is_connected w -> open_is_connected (connect rt path ps w).2.
Proof.
  intros H.
  destruct (isConnecting (this w) || isConnected (this w))%bool eqn:Hbusy.
  - unfold connect. unfold bind at 1. cbn [gets]. rewrite Hbusy.
    apply (handshake_open w); [reflexivity | exact H].
  - apply orb_false_iff in Hbusy as [Hg Hc].
    destruct (WebSocket_throws rt (getWebSocketUrl rt path) ps) eqn:Hthrow.
    + rewrite (connect_refused rt path ps w Hg Hc Hthrow).
      apply (handshake_open w); [reflexivity | exact H].
    + rewrite (connect_fresh rt path ps w Hg Hc Hthrow). cbn [snd].
      intros id Hid Hst. cbn in Hid, Hst. injection Hid as <-.
      rewrite fmap_app in Hst. cbn in Hst.
      rewrite lookup_app_r in Hst by (rewrite length_fmap; lia).
      rewrite length_fmap, Nat.sub_diag in Hst. discriminate Hst.
Qed.

Lemma disconnect_no_socket (w : World) : no_socket (disconnect w).2.
Proof.
  unfold no_socket, disconnect, bind, gets.
  destruct (reconnectInterval (this w)) as [old|];
  destruct (socket (this w)) as [id|] eqn:Hs;
    unfold clear_timer, console_log, update, on_socket, modify, ret;
    cbn [this with_console with_this with_sockets socket set_reconnectInterval fst snd];
    rewrite ?Hs; cbn; first [reflexivity | assumption].
Qed.

Lemma onopen_connected id (w : World) : connected (onopen rt id w).2.
Proof.
  unfold onopen.
  unfold bind at 1; cbn [console_log update modify].
  apply then_still; [reflexivity|].
  intros _. quiet_with settled_leaf.
Qed.

Lemma onclose_no_socket path ps code reason (w : World) :
  no_socket (onclose path ps code reason w).2.
Proof.
  unfold onclose.
  do 3 (unfold bind at 1; cbn [console_log update modify]).
  apply then_still; [reflexivity|].
  intros _. quiet_with settled_leaf.
Qed.

Lemma perform_open c (w : World) :
  open_is_connected w -> open_is_connected (perform rt c w).2.
Proof.
  intros H. destruct c; cbn [perform].
  - unfold bind. pose proof (connect_open path ps w H) as Hc.
    destruct (connect rt path ps w) as [[p|e] w1]; exact Hc.
  - apply no_socket_open, disconnect_no_socket.
  - apply (handshake_open w); [apply send_handshake | exact H].
  - apply (handshake_open w); [|exact H].
    assert (Hq : quiet (U := U) (same handshake) (on event0 callback))
      by quiet_with handshake_leaf.
    apply Hq.
  - apply (handshake_open w); [|exact H].
    assert (Hq : quiet (U := U) (same handshake) (off event0 callback))
      by quiet_with handshake_leaf.
    apply Hq.
  - apply (handshake_open w); [|exact H].
    assert (Hq : quiet (U := U) (same handshake) (startHeartbeat interval))
      by quiet_with handshake_leaf.
    apply Hq.
  - apply (handshake_open w); [|exact H].
    assert (Hq : quiet (U := U) (same handshake) stopHeartbeat)
      by quiet_with handshake_leaf.
    apply Hq.
Qed.

Lemma deliver_open e (w : World) :
  open_is_connected w -> open_is_connected (deliver rt e w).2.
Proof.
  intros H. destruct e; cbn [deliver]; unfold bind at 1; cbn [gets].
  - destruct (readyState <$> sockets w !! id) as [[]|]; try exact H.
    apply connected_open.
    unfold bind. cbn [on_socket modify]. apply onopen_connected.
  - assert (Hq : quiet (U := U) (same handshake) (onmessage rt text))
      by (unfold onmessage; quiet_with handshake_leaf).
    destruct (readyState <$> sockets w !! id) as [[]|]; try exact H;
      (apply (handshake_open w); [apply Hq | exact H]).
  - destruct (sockets w !! id) as [s|]; [|exact H].
    destruct (readyState s); try exact H;
      apply no_socket_open; unfold bind; cbn [on_socket modify];
      apply onclose_no_socket.
  - destruct (sockets w !! id) as [s|]; [|exact H].
    destruct (readyState s); try exact H;
      apply no_socket_open; unfold bind at 1; cbn [on_socket modify];
      unfold bind at 1, try_catch;
      match goal with |- context [onerror id ?w0] =>
        destruct (onerror id w0) as [[[]|e] w1] end;
      cbn [ret]; apply onclose_no_socket.
  - destruct (timers w !! id) as [t|]; cbn [fmap option_fmap option_map]; [|exact H].
    destruct (kind t) as [path ps|].
    + unfold bind at 1. cbn [clear_timer modify]. unfold reconnect_callback.
      do 2 (unfold bind at 1; cbn [update modify]).
      unfold bind at 1.
      match goal with |- context [connect rt path ps ?w0] =>
        assert (H0 : open_is_connected w0)
          by (apply (handshake_open w); [reflexivity | exact H]);
        pose proof (connect_open path ps w0 H0) as Hc;
        destruct (connect rt path ps w0) as [[p|e] w1] end; [|exact Hc].
      destruct p; exact Hc.
    + apply (handshake_open w); [|exact H].
      assert (Hq : quiet (U := U) (same handshake) (heartbeat_callback rt now))
        by quiet_with handshake_leaf.
      apply Hq.
Qed.

(** X23.  The two ways to ask whether the service is connected agree: in
    every state the service can be in, [getConnectionState()] is
    ["connected"] exactly when [isSocketConnected()] holds.  The flag
    [isConnected] is never down while the socket held is open. *)
Theorem connection_queries_agree (w : World) :
  reachable rt w ->
  (getConnectionState w = "connected" <-> isSocketConnected w = true).
Proof.
  intros Hr.
  assert (H : open_is_connected w).
  { induction Hr as [u | c w _ IH | e w _ IH].
    - intros id Hid. discriminate Hid.
    - now apply perform_open.
    - now apply deliver_open. }
  unfold open_is_connected in H. unfold getConnectionState, isSocketConnected.
  destruct (socket (this w)) as [id|] eqn:Hid.
  - specialize (H id eq_refl). rewrite list_lookup_fmap in H.
    destruct (sockets w !! id) as [s|] eqn:Hs; cbn [fmap option_fmap option_map] in *.
    + destruct (readyState s); split; intros Hq;
        try discriminate Hq;
        try (rewrite andb_false_r in Hq; discriminate Hq);
        try reflexivity.
      rewrite (H eq_refl). reflexivity.
    + split; intros Hq; [discriminate Hq|].
      rewrite andb_false_r in Hq. discriminate Hq.
  - split; intros Hq; [discriminate Hq|].
    rewrite andb_false_r in Hq. discriminate Hq.
Qed.

End HandshakeFacts.

(* ===================================================================== *)
(** ** The further facts on concrete inputs *)
(* ===================================================================== *)


(** X5: writing under [pyperf_a] does not change what is read under [pyperf_b]. *)
Lemma cache_keys_do_not_interfere_witness :
  let rt := RefRuntime.runtime in
  let w := (Cache.setCache rt "pyperf_b" payload_x1 1000 0 empty_world).2 in
  (Cache.getCache rt "pyperf_b" 500 (Cache.setCache rt "pyperf_a" JNull 1000 0 w).2).1
    = (Cache.getCache rt "pyperf_b" 500 w).1.
Proof.
  intros rt w.
  refine (proj1 (proj2 (cache_keys_do_not_interfere rt "pyperf_a" "pyperf_b" JNull 1000 0 500 w
                          _) _)).
  - discriminate.
  - intros m op. reflexivity.
Defined.

(** X6: the second write replaces the item of the first. *)
Lemma last_cache_operation_wins_witness :
  let rt := RefRuntime.runtime in
  let w1 := (Cache.setCache rt "pyperf_a" payload_x1 1000 0 empty_world).2 in
  Cache.storage (Cache.setCache rt "pyperf_a" JNull 50 7 w1).2
    = <["pyperf_a" := RefRuntime.print (Cache.cacheItem_of JNull 7 50)]> ∅.
Proof.
  intros rt w1.
  refine (proj1 (last_cache_operation_wins rt "pyperf_a" payload_x1 JNull 1000 50 0 7 0
                   (RefRuntime.print (Cache.cacheItem_of JNull 7 50)) empty_world _ _)).
  - intros m op. reflexivity.
  - reflexivity.
Defined.

(** X3 on a storage with one expired item and one text that is not JSON. *)
Lemma getCacheStats_counts_witness :
  let rt := RefRuntime.runtime in
  let w := (Cache.setCache rt "pyperf_a" payload_x1 1000 0 corrupt_world).2 in
  let keys := (map_to_list (Cache.storage w)).*1 in
  exists st,
    Cache.getCacheStats rt 1100 w = (Normal st, w) /\
    Cache.totalEntries st = base.size (Cache.storage w) /\
    Cache.pyperfEntries st = length (namespaced keys) /\
    Cache.totalSize st = namespaced_size (Cache.storage w) keys /\
    CacheDebugger.expiredCount st = count_verdict rt 1100 (Cache.storage w) Dropped keys.
Proof.
  intros rt w.
  apply (getCacheStats_counts rt).
  - intros m op. reflexivity.
  - vm_compute. reflexivity.
Defined.

(** X8 on the dashboard entry written at time 0, read 400 s later. *)
Lemma stale_or_cleared_entry_is_not_served_witness :
  exists w',
    Store.fetchDashboardData RefRuntime.runtime false 400000 cached_dashboard_world
      = (Normal (Store.AwaitingApi Store.GetDashboardData), w') /\
    Store.dashboardData (Store.this w') = Store.dashboardData (Store.this cached_dashboard_world) /\
    Store.usingCachedData (Store.this w') = false /\
    Store.isLoadingDashboard (Store.this w') = true /\
    Cache.storage (Store.cache w') =
      (if storage_throws RefRuntime.runtime (Cache.storage (Store.cache cached_dashboard_world))
            (OpRemoveItem Cache.getDashboardCacheKey)
       then Cache.storage (Store.cache cached_dashboard_world)
       else delete Cache.getDashboardCacheKey
              (Cache.storage (Store.cache cached_dashboard_world))).
Proof.
  refine (proj1 (stale_or_cleared_entry_is_not_served RefRuntime.runtime 400000
                   cached_dashboard_world)
            (RefRuntime.print (Cache.cacheItem_of payload_x1 0 Cache.DEFAULT_CACHE_TTL))
            payload_x1 0 Cache.DEFAULT_CACHE_TTL _ _ _ _ _).
  - reflexivity.
  - vm_compute. reflexivity.
  - intros H. vm_compute in H. discriminate H.
  - vm_compute. reflexivity.
  - vm_compute. reflexivity.
Defined.

(** X9: a response received at time 0 is served from the cache at 300 s. *)
Lemma response_is_cached_for_its_ttl_witness :
  let rt := RefRuntime.runtime in
  let w := {| Store.this := Store.initial_state; Store.cache := empty_world;
              Store.api_calls := [] |} in
  let r := Store.fetchDashboardDataFromAPI_resume rt Cache.getDashboardCacheKey
             (Store.Response payload_x1) 0 w in
  (Store.fetchDashboardData rt false 300000 r.2).1 = Normal Store.Completed.
Proof.
  intros rt w.
  refine (proj1 (proj2 (proj2 (proj2 (proj2 (proj2 (proj1
            (response_is_cached_for_its_ttl rt payload_x1 0 300000
               (RefRuntime.print (Cache.cacheItem_of payload_x1 0 (5 * 60 * 1000)))
               "web1" 24
               (RefRuntime.print (Cache.cacheItem_of payload_x1 0 (3 * 60 * 1000)))
               w _ _ _ _ _ _ _ _))))))) _).
  - intros m op. reflexivity.
  - reflexivity.
  - reflexivity.
  - vm_compute. reflexivity.
  - intros H. vm_compute in H. discriminate H.
  - reflexivity.
  - vm_compute. reflexivity.
  - intros H. vm_compute in H. discriminate H.
  - vm_compute. discriminate.
Defined.

(** X10: the initial store shows no host, so a failed fetch falls back to the
    cached dashboard. *)
Lemma failed_fetch_falls_back_for_an_empty_store_only_witness :
  let r := Store.fetchDashboardDataFromAPI_resume RefRuntime.runtime
             Cache.getDashboardCacheKey (Store.Rejected None) 1000 cached_dashboard_world in
  r.1 = Normal tt /\
  Store.dashboardData (Store.this r.2) = payload_x1 /\
  Store.usingCachedData (Store.this r.2) = true.
Proof.
  refine (proj1 (proj2 (proj2 (proj2 (proj1
            (failed_fetch_falls_back_for_an_empty_store_only RefRuntime.runtime None
               "web1" 24 1000 cached_dashboard_world))))) payload_x1 _ _).
  - exists (RefRuntime.print (Cache.cacheItem_of payload_x1 0 Cache.DEFAULT_CACHE_TTL)), 0,
      Cache.DEFAULT_CACHE_TTL.
    split; [vm_compute; reflexivity|].
    split; [vm_compute; reflexivity|].
    split; [intros H; vm_compute in H; discriminate H|].
    split; [vm_compute; reflexivity|].
    vm_compute. discriminate.
  - reflexivity.
Defined.

(** X11: a message that lists [darkMode] removes the page's theme and leaves
    the dashboard entry. *)
Lemma cache_invalidation_removes_the_listed_keys_witness :
  let r := StoreActions.handleCacheInvalidation RefRuntime.runtime RefRuntime.print
             (JObj [("type", JStr "cache_invalidation");
                    ("cache_keys", JArr [JStr "darkMode"])]) themed_world in
  Cache.storage (Store.cache r.2) !! "darkMode" = None /\
  Cache.storage (Store.cache r.2) !! "pyperf_dashboard" = Some "x".
Proof.
  pose proof (cache_invalidation_removes_the_listed_keys RefRuntime.runtime RefRuntime.print
                [("type", JStr "cache_invalidation"); ("cache_keys", JArr [JStr "darkMode"])]
                themed_world) as H.
  cbv zeta in H. destruct H as (_ & _ & _ & Hkeep & Hgone). cbv zeta. split.
  - apply Hgone; [intros m op; reflexivity | apply list_elem_of_here].
  - rewrite Hkeep; [reflexivity|]. intros Hin. apply list_elem_of_singleton in Hin. discriminate Hin.
Defined.

(** X12 on a timeline that holds 200 points already. *)
Lemma host_metrics_update_keeps_the_last_200_points_witness :
  exists fields' w',
    StoreActions.handleHostMetricsUpdate RefRuntime.runtime (fun _ => JNull)
      (JObj metrics_message) 5000 watching_world = (Normal tt, w') /\
    Store.currentHostMetrics (Store.this w') = JObj fields' /\
    (exists timeline, obj_lookup fields' "timeline_data" = JArr timeline /\
                      length timeline = 200%nat) /\
    obj_lookup fields' "current_cpu" = JNum 45.
Proof.
  destruct (proj1 (host_metrics_update_keeps_the_last_200_points RefRuntime.runtime
                     (fun _ => JNull) metrics_message 5000 watching_world)
              [("hostname", JStr "web1"); ("timeline_data", JArr (replicate 200 JNull))]
              [("cpu_percent", JNum 45); ("memory_percent", JNum 62);
               ("memory_available_mb", JNum 2048); ("memory_used_mb", JNum 6144)]
              "web1" (replicate 200 JNull)
              eq_refl eq_refl eq_refl eq_refl eq_refl)
    as (fields' & w' & Hrun & Hm & Htl & Hlen & _ & Hcpu & _).
  exists fields', w'. split; [exact Hrun|]. split; [exact Hm|].
  split; [eexists; split; [exact Htl | exact Hlen]|]. exact Hcpu.
Defined.

(** X20 on an open service whose heartbeat runs. *)
Lemma at_most_one_heartbeat_witness :
  WS.heartbeatInterval (WS.this open_world) = Some 1%nat.
Proof.
  refine (proj1 (at_most_one_heartbeat RefRuntime.runtime open_world open_world_reachable)
            1%nat {| WS.kind := WS.HeartbeatTimer; WS.delay := 30000 |} _ _).
  - vm_compute. reflexivity.
  - reflexivity.
Defined.

Lemma retrying_world_reachable : WS.reachable RefRuntime.runtime retrying_world.
Proof. apply replay_reachable, connecting_world_reachable. Qed.

(** X21 on a service that waits for its first reconnect. *)
Lemma reconnect_delays_stay_in_range_witness :
  1000 <= WS.reconnectDelay (WS.this retrying_world) <= 30000 /\
  forall t, t ∈ WS.timer_log retrying_world -> is_reconnect t = true ->
            1000 <= WS.delay t <= 30000.
Proof.
  exact (reconnect_delays_stay_in_range RefRuntime.runtime retrying_world
           retrying_world_reachable).
Defined.

(** X15 on a [metrics_update] message. *)
Lemma message_fires_generic_then_typed_witness :
  let data := JObj [("type", JStr "metrics_update"); ("hostname", JStr "web1")] in
  exists w',
    WS.onmessage RefRuntime.runtime (RefRuntime.print data) open_world = (Normal tt, w') /\
    WS.emitted w' = WS.emitted open_world
                      ++ [(JStr "message", data); (JStr "metrics_update", data)].
Proof.
  intros data.
  destruct (message_fires_generic_then_typed RefRuntime.runtime (RefRuntime.print data) data
              open_world ltac:(vm_compute; reflexivity))
    as (w' & Hrun & _ & Hem & _).
  exists w'. split; [exact Hrun | exact Hem].
Defined.


(** X17: the pending reconnect fires in a browser that refuses the constructor. *)
Lemma constructor_failure_ends_the_retries_witness :
  let w' := (WS.deliver runtime_no_websocket (WS.TimerFire 1 5000) retrying_world).2 in
  WS.sockets w' = WS.sockets retrying_world /\
  WS.socket (WS.this w') = WS.socket (WS.this retrying_world) /\
  WS.timer_log w' = WS.timer_log retrying_world /\
  WS.timers w' = delete 1%nat (WS.timers retrying_world) /\
  WS.reconnectAttempts (WS.this w') = S (WS.reconnectAttempts (WS.this retrying_world)) /\
  WS.isConnecting (WS.this w') = false /\
  WS.isConnected (WS.this w') = false /\
  WS.console w' = WS.console retrying_world
                    ++ [ConsoleLog "Connecting to WebSocket: ";
                        ConsoleError "Reconnection failed:"].
Proof.
  refine (proj2 (constructor_failure_ends_the_retries runtime_no_websocket dashboard_path []
                   retrying_world _ _ _) 1%nat 1000 5000 _).
  - reflexivity.
  - reflexivity.
  - reflexivity.
  - vm_compute. reflexivity.
Defined.

(** X19 on an open service: the interval is still pending after it fired. *)
Lemma heartbeat_pings_a_connected_socket_only_witness :
  WS.timers (WS.deliver RefRuntime.runtime (WS.TimerFire 1 5000) open_world).2 !! 1%nat
    = Some {| WS.kind := WS.HeartbeatTimer; WS.delay := 30000 |}.
Proof.
  refine (proj2 (proj2 (heartbeat_pings_a_connected_socket_only RefRuntime.runtime 1%nat
                          {| WS.kind := WS.HeartbeatTimer; WS.delay := 30000 |} 5000
                          open_world _ _))).
  - vm_compute. reflexivity.
  - reflexivity.
Defined.

(** X16 after a race: the second socket opens while the service holds none;
    the service is connected, and no socket was sent a subscription. *)
Lemma open_subscribes_on_the_current_socket_witness :
  let w' := (WS.deliver RefRuntime.runtime (WS.SocketOpen 1) raced_world).2 in
  WS.isConnected (WS.this w') = true /\
  (WS.sent <$> WS.sockets w') = [[]; []] /\
  WS.isSocketConnected w' = false.
Proof.
  pose proof (open_subscribes_on_the_current_socket RefRuntime.runtime 1%nat
                {| WS.url := dashboard_path; WS.protocols := [];
                   WS.wsUrl := "wss://perf.example.org/ws/dashboard/";
                   WS.readyState := WS.CONNECTING; WS.sent := [];
                   WS.close_code := None; WS.settled := None |}
                (RefRuntime.print (JObj [("type", JStr "subscribe_all")]))
                raced_world ltac:(vm_compute; reflexivity) eq_refl eq_refl) as H.
  cbv zeta in H. destruct H as (Hc & _ & _ & _ & _ & _ & _ & _ & Hnone).
  destruct (Hnone ltac:(vm_compute; reflexivity)) as [Hsock Hisc].
  cbv zeta. split; [exact Hc|]. split; [|exact Hisc].
  rewrite Hsock. vm_compute. reflexivity.
Defined.

(** X22 on a service whose first [connect] is under way. *)
Lemma connecting_flag_is_never_stale_witness :
  WS.isConnected (WS.this connecting_world) = false /\
  exists id s, WS.socket (WS.this connecting_world) = Some id /\
               WS.sockets connecting_world !! id = Some s /\
               WS.readyState s = WS.CONNECTING.
Proof.
  apply (connecting_flag_is_never_stale RefRuntime.runtime connecting_world
           connecting_world_reachable).
  reflexivity.
Defined.

(** X23 on an open service. *)
Lemma connection_queries_agree_witness :
  WS.getConnectionState open_world = "connected" <-> WS.isSocketConnected open_world = true.
Proof.
  exact (connection_queries_agree RefRuntime.runtime open_world open_world_reachable).
Defined.

Lemma refreshing_page_reachable :
  StoreActions.reachable_page RefRuntime.runtime refreshing_page.
Proof.
  unfold refreshing_page. do 2 apply StoreActions.reachable_page_step. constructor.
Qed.

(** X24: the host refresh replaced the dashboard refresh; interval 2 is set and
    held, interval 1 is neither. *)
Lemma auto_refresh_runs_one_interval_witness :
  (is_Some (StoreActions.intervals refreshing_page !! 2%nat) <->
   StoreActions.refreshInterval refreshing_page = Some 2%nat) /\
  (is_Some (StoreActions.intervals refreshing_page !! 1%nat) <->
   StoreActions.refreshInterval refreshing_page = Some 1%nat) /\
  StoreActions.intervals (StoreActions.stopAutoRefresh refreshing_page).2 = ∅.
Proof.
  pose proof (auto_refresh_runs_one_interval RefRuntime.runtime refreshing_page
                refreshing_page_reachable) as (Hheld & _ & _ & _ & Hstop).
  split; [exact (Hheld 2%nat)|]. split; [exact (Hheld 1%nat) | exact Hstop].
Defined.

(** X25: no host is current, so the tick of the refresh of [web1] changes
    nothing. *)
Lemma refresh_tick_calls_the_api_for_the_current_view_witness :
  let run := StoreActions.interval_fires RefRuntime.runtime 2 5000 refreshing_page in
  run.1 = Normal tt /\
  StoreActions.intervals run.2 = StoreActions.intervals refreshing_page /\
  StoreActions.store run.2 = StoreActions.store refreshing_page.
Proof.
  pose proof (refresh_tick_calls_the_api_for_the_current_view RefRuntime.runtime
                2%nat (StoreActions.HostRefresh "web1" 24) 60000 5000 refreshing_page
                ltac:(vm_compute; reflexivity)) as H.
  cbv zeta in H. destruct H as (Hn & Hi & _ & Hs).
  destruct (decide (Store.currentHost (Store.this (StoreActions.store refreshing_page)) =
                    Some "web1")) as [Heq|_]; [vm_compute in Heq; discriminate Heq|].
  cbv zeta. split; [exact Hn|]. split; [exact Hi | exact Hs].
Defined.

(** *** Further runs of the handlers *)

(** A timeline that is not an array: the handler throws at [push], after
    it replaced the host's data and before it stamps the time. *)
Example timeline_that_is_not_an_array :
  let w := {| Store.this :=
                Store.set_currentHostMetrics
                  (JObj [("timeline_data", JStr "none")])
                  (Store.set_currentHost (Some "web1") Store.initial_state);
              Store.cache := empty_world;
              Store.api_calls := [] |} in
  let r := StoreActions.handleHostMetricsUpdate RefRuntime.runtime (fun _ => JNull)
             (JObj metrics_message) 5000 w in
  r.1 = Throw TypeError /\
  obj_lookup (StoreActions.spread (Store.currentHostMetrics (Store.this r.2))) "current_cpu"
    = JNum 45 /\
  Store.lastUpdate (Store.this r.2) = None.
Proof. run_model. Qed.

(** [cache_keys] that is a string: [forEach] is not a function. *)
Example invalidation_with_a_string :
  let r := StoreActions.handleCacheInvalidation RefRuntime.runtime RefRuntime.print
             (JObj [("cache_keys", JStr "pyperf_dashboard")]) themed_world in
  r.1 = Throw TypeError /\
  Cache.storage (Store.cache r.2) = Cache.storage (Store.cache themed_world).
Proof. run_model. Qed.

(** The debugger's three buttons on a storage with one expired entry and
    the page's theme: the counts it shows afterwards. *)
Example debugger_buttons :
  let rt := RefRuntime.runtime in
  let w := (Cache.setCache rt "pyperf_a" payload_x1 1000 0
              {| Cache.storage := {[ "darkMode" := "true" ]}; Cache.console := [] |}).2 in
  let shown (r : completion unit * (Cache.World * Cache.CacheStats)) :=
    (Cache.totalEntries r.2.2, Cache.pyperfEntries r.2.2,
     CacheDebugger.expiredCount r.2.2) in
  shown (CacheDebugger.refreshStats rt 1100 (w, Cache.empty_stats)) = (2, 1, 1)%nat /\
  shown (CacheDebugger.cleanupExpired rt 1100 (w, Cache.empty_stats)) = (1, 0, 0)%nat /\
  shown (CacheDebugger.clearSpecificCache rt "darkMode" 1100 (w, Cache.empty_stats))
    = (1, 1, 1)%nat /\
  shown (CacheDebugger.clearAllCache rt 1100 (w, Cache.empty_stats)) = (1, 0, 0)%nat.
Proof. run_model. Qed.
